(** * Valyu JavaScript client: a shallow embedding of [src/index.ts]

    The client is glue code around an HTTP API.  The embedding follows the
    source function by function:

    - JavaScript values, truthiness, property access and strings;
    - the validators ([validateDateFormat], [validateDomain],
      [validateDatasetId], [validateSource], [validateSources]);
    - the constructor, [search], [contents] and the other single-call
      operations, with the HTTP layer as an explicit oracle and the list of
      issued requests as an explicit trace;
    - the polling helpers ([_deepresearchWait], [_deepresearchStream],
      [_batchWaitForCompletion]) as fuelled loops over a scripted world;
    - the server-sent-event readers ([fetchAnswer], [streamAnswer]).

    Platform services that are not code of the repository (the [URL]
    constructor, [Date] parsing, [JSON.parse], [TextDecoder],
    [Number::toString]) are collected in a record [Platform]. *)

From Stdlib Require Import ZArith QArith Lia Ascii Bool.
From stdpp Require Import base option list strings gmap pretty.

Local Open Scope Z_scope.

(** ** JavaScript strings *)

Module JsString.

(** [s.startsWith(p)] *)
Fixpoint startsWith (p s : string) : bool :=
  match p, s with
  | EmptyString, _ => true
  | String a p', String b s' => if Ascii.eqb a b then startsWith p' s' else false
  | String _ _, EmptyString => false
  end.

(** [s.slice(n)] for a non-negative [n] *)
Fixpoint slice (n : nat) (s : string) : string :=
  match n, s with
  | O, _ => s
  | S n', String _ s' => slice n' s'
  | S _, EmptyString => EmptyString
  end.

(** [s.split(c)] for a one-character separator: never empty, the pieces
    between the separators in order. *)
Fixpoint split (c : ascii) (s : string) : list string :=
  match s with
  | EmptyString => [EmptyString]
  | String a s' =>
      if Ascii.eqb a c then EmptyString :: split c s'
      else match split c s' with
           | h :: t => String a h :: t
           | [] => [String a EmptyString]
           end
  end.

(** [parts.join(sep)] *)
Fixpoint join (sep : string) (parts : list string) : string :=
  match parts with
  | [] => EmptyString
  | [p] => p
  | p :: rest => p +:+ sep +:+ join sep rest
  end.

Definition lower (a : ascii) : ascii :=
  let n := nat_of_ascii a in
  if (65 <=? n)%nat && (n <=? 90)%nat then ascii_of_nat (n + 32) else a.

(** [s.toLowerCase()] (on the code units below 256 that a [string] holds) *)
Fixpoint toLowerCase (s : string) : string :=
  match s with
  | EmptyString => EmptyString
  | String a s' => String (lower a) (toLowerCase s')
  end.

(** White space and line terminators of ECMAScript below 256:
    TAB, LF, VT, FF, CR, SP and NBSP. *)
Definition is_white (a : ascii) : bool :=
  let n := nat_of_ascii a in
  ((9 <=? n)%nat && (n <=? 13)%nat) || (n =? 32)%nat || (n =? 160)%nat.

Fixpoint trimStart (s : string) : string :=
  match s with
  | EmptyString => EmptyString
  | String a s' => if is_white a then trimStart s' else s
  end.

Fixpoint trimEnd (s : string) : string :=
  match s with
  | EmptyString => EmptyString
  | String a s' =>
      match trimEnd s' with
      | EmptyString => if is_white a then EmptyString else String a EmptyString
      | t => String a t
      end
  end.

(** [s.trim()] *)
Definition trim (s : string) : string := trimEnd (trimStart s).

Definition nonempty (s : string) : bool :=
  match s with EmptyString => false | _ => true end.

(** Every code unit of [s] satisfies [f]. *)
Fixpoint every (f : ascii -> bool) (s : string) : bool :=
  match s with
  | EmptyString => true
  | String a s' => f a && every f s'
  end.

(** [s.includes(c)] for a one-character [c] *)
Fixpoint includes (c : ascii) (s : string) : bool :=
  match s with
  | EmptyString => false
  | String a s' => Ascii.eqb a c || includes c s'
  end.

(** The text made of [lines], each followed by the terminator [c], and
    then of [tail]. *)
Fixpoint terminated (c : ascii) (lines : list string) (tail : string) : string :=
  match lines with
  | [] => tail
  | l :: rest => l +:+ String c (terminated c rest tail)
  end.

End JsString.

(** ** JavaScript values *)

#[warnings="-register-all"]
Inductive JsValue : Type :=
| JUndefined
| JNull
| JBool (b : bool)
| JNum (q : Q)
| JStr (s : string)
| JArr (items : list JsValue)
| JObj (fields : list (string * JsValue)).

Module Js.

(** ToBoolean *)
Definition truthy (v : JsValue) : bool :=
  match v with
  | JUndefined | JNull => false
  | JBool b => b
  | JNum q => negb (Qnum q =? 0)
  | JStr s => JsString.nonempty s
  | JArr _ | JObj _ => true
  end.

Definition is_undefined (v : JsValue) : bool :=
  match v with JUndefined => true | _ => false end.

Definition nullish (v : JsValue) : bool :=
  match v with JUndefined | JNull => true | _ => false end.

(** [a || b] *)
Definition or (a b : JsValue) : JsValue := if truthy a then a else b.

Fixpoint assoc (k : string) (fields : list (string * JsValue)) : JsValue :=
  match fields with
  | [] => JUndefined
  | (k', v) :: rest => if String.eqb k k' then v else assoc k rest
  end.

(** [fields] has an own property [k]. *)
Definition has_own (k : string) (fields : list (string * JsValue)) : bool :=
  existsb (fun field => String.eqb k field.1) fields.

(** [v.k] for a base [v] that is neither [null] nor [undefined] and a key
    that no prototype defines (all keys read by the client are such). *)
Definition get (v : JsValue) (k : string) : JsValue :=
  match v with
  | JObj fields => assoc k fields
  | _ => JUndefined
  end.

(** [v?.k] *)
Definition opt_get (v : JsValue) (k : string) : JsValue :=
  if nullish v then JUndefined else get v k.

(** [v[0]] for a base that is neither [null] nor [undefined] *)
Definition first (v : JsValue) : JsValue :=
  match v with
  | JArr (x :: _) => x
  | JStr (String a _) => JStr (String a EmptyString)
  | JObj fields => assoc "0" fields
  | _ => JUndefined
  end.

Fixpoint chars (s : string) : list JsValue :=
  match s with
  | EmptyString => []
  | String a s' => JStr (String a EmptyString) :: chars s'
  end.

(** [...v] inside an array literal; [None] is the TypeError of a value
    that is not iterable. *)
Definition spread (v : JsValue) : option (list JsValue) :=
  match v with
  | JArr l => Some l
  | JStr s => Some (chars s)
  | _ => None
  end.

End Js.

(** ** Regular expressions

    The validators use three anchored patterns.  Since each is anchored at
    both ends ([^...$], no flags), [RegExp.prototype.test] answers whether
    the whole string belongs to the language of the pattern; [test] decides
    that by Brzozowski derivatives. *)

Inductive Regex : Type :=
| RNone
| REps
| RClass (p : ascii -> bool)
| RSeq (r1 r2 : Regex)
| RAlt (r1 r2 : Regex)
| RStar (r : Regex).

Module RegExp.

(** [r?], [r+], [r{n}] and [r{0,n}] *)
Definition opt (r : Regex) : Regex := RAlt REps r.
Definition plus (r : Regex) : Regex := RSeq r (RStar r).

Fixpoint exactly (n : nat) (r : Regex) : Regex :=
  match n with
  | O => REps
  | S n' => RSeq r (exactly n' r)
  end.

Fixpoint upto (n : nat) (r : Regex) : Regex :=
  match n with
  | O => REps
  | S n' => opt (RSeq r (upto n' r))
  end.

Definition in_range (lo hi : nat) (a : ascii) : bool :=
  let n := nat_of_ascii a in (lo <=? n)%nat && (n <=? hi)%nat.

Definition is_digit (a : ascii) : bool := in_range 48 57 a.
Definition is_alnum (a : ascii) : bool :=
  in_range 97 122 a || in_range 65 90 a || in_range 48 57 a.
Definition is_char (c a : ascii) : bool := Ascii.eqb a c.

(** The dot: any code unit but a line terminator (LF and CR below 256). *)
Definition is_dot (a : ascii) : bool :=
  negb ((nat_of_ascii a =? 10)%nat || (nat_of_ascii a =? 13)%nat).

Fixpoint nullable (r : Regex) : bool :=
  match r with
  | RNone => false
  | REps => true
  | RClass _ => false
  | RSeq r1 r2 => nullable r1 && nullable r2
  | RAlt r1 r2 => nullable r1 || nullable r2
  | RStar _ => true
  end.

Definition seq (r1 r2 : Regex) : Regex :=
  match r1, r2 with
  | RNone, _ => RNone
  | _, RNone => RNone
  | REps, _ => r2
  | _, _ => RSeq r1 r2
  end.

Definition alt (r1 r2 : Regex) : Regex :=
  match r1, r2 with
  | RNone, _ => r2
  | _, RNone => r1
  | _, _ => RAlt r1 r2
  end.

Fixpoint der (a : ascii) (r : Regex) : Regex :=
  match r with
  | RNone | REps => RNone
  | RClass p => if p a then REps else RNone
  | RSeq r1 r2 =>
      if nullable r1 then alt (seq (der a r1) r2) (der a r2)
      else seq (der a r1) r2
  | RAlt r1 r2 => alt (der a r1) (der a r2)
  | RStar r' => seq (der a r') (RStar r')
  end.

(** [/^r$/.test(s)] *)
Fixpoint test (r : Regex) (s : string) : bool :=
  match s with
  | EmptyString => nullable r
  | String a s' => test (der a r) s'
  end.

(** The language of a pattern. *)
Inductive matches : Regex -> string -> Prop :=
| MEps : matches REps EmptyString
| MClass p a : p a = true -> matches (RClass p) (String a EmptyString)
| MSeq r1 r2 s1 s2 :
    matches r1 s1 -> matches r2 s2 -> matches (RSeq r1 r2) (s1 +:+ s2)
| MAltL r1 r2 s : matches r1 s -> matches (RAlt r1 r2) s
| MAltR r1 r2 s : matches r2 s -> matches (RAlt r1 r2) s
| MStar0 r : matches (RStar r) EmptyString
| MStarS r s1 s2 :
    matches r s1 -> matches (RStar r) s2 -> matches (RStar r) (s1 +:+ s2).

End RegExp.

(** ** The platform and the HTTP layer *)

(** What a [catch] clause reads of a thrown value: [e.message] and
    [e.response?.data] ([JUndefined] when the error carries no response). *)
Record Exn : Type := {
  exn_message : string;
  exn_response_data : JsValue
}.

(** Services of the JavaScript platform that the client calls.
    [URL_parses s]: [new URL(s)] does not throw.
    [Date_parse s]: [new Date(s).getTime()], [None] when it is NaN.
    [JSON_parse s]: the value of [JSON.parse(s)], [None] when it throws.
    [Number_toString q]: the string of a number in a concatenation.
    [decoder_step]: [TextDecoder.decode(_, {stream: true})] consumes its
    input byte by byte, keeping the bytes of an unfinished sequence in its
    state.
    [URLSearchParams_toString]: the form-urlencoded query string.
    [type_error]: the TypeError that the engine throws when a property of
    [null] is read, when what is called is not a function, or when an
    object without a string form is converted to a string; its message is
    the engine's. *)
Record Platform : Type := {
  URL_parses : string -> bool;
  Date_parse : string -> option Z;
  JSON_parse : string -> option JsValue;
  Number_toString : Q -> string;
  decoder_state : Type;
  decoder_init : decoder_state;
  decoder_step : decoder_state -> Byte.byte -> decoder_state * string;
  URLSearchParams_toString : list (string * string) -> string;
  type_error : Exn
}.

Inductive Method : Type := GET | POST | DELETE.

Record Request : Type := {
  req_method : Method;
  req_url : string;
  req_body : option (gmap string JsValue);
  req_headers : gmap string string
}.

(** A response body read through [getReader()]: the chunks that [read()]
    delivers, then either the end of the stream or a thrown error. *)
Record Body : Type := {
  body_chunks : list (list Byte.byte);
  body_error : option Exn
}.

(** [resp_data] is axios' [response.data]; [resp_json] is the value of
    fetch's [response.json()], [None] when that promise rejects;
    [resp_body] is fetch's [response.body]. *)
Record HttpResponse : Type := {
  resp_status : Z;
  resp_data : JsValue;
  resp_content_type : JsValue;
  resp_json : option JsValue;
  resp_body : option Body
}.

Inductive HttpResult : Type :=
| HttpOk (r : HttpResponse)
| HttpThrow (e : Exn).

(** The server and the network, as seen from one call. *)
Definition Http : Type := Request -> HttpResult.

(** A JavaScript completion: a value, or a thrown error.  For an [async]
    function, [Normal v] is a promise resolved with [v] and [Throw e] a
    promise rejected with [e]. *)
Inductive Completion (A : Type) : Type :=
| Normal (a : A)
| Throw (e : Exn).
Arguments Normal {A} a.
Arguments Throw {A} e.

(** An operation: given the server, a completion and the requests issued. *)
Definition Op (A : Type) : Type := Http -> Completion A * list Request.

Module OpM.

Definition ret {A} (a : A) : Op A := fun _ => (Normal a, []).

Definition throw {A} (e : Exn) : Op A := fun _ => (Throw e, []).

Definition bind {A B} (m : Op A) (k : A -> Op B) : Op B :=
  fun http =>
    match m http with
    | (Normal a, t) => let '(r, t') := k a http in (r, t ++ t')
    | (Throw e, t) => (Throw e, t)
    end.

(** [try { m } catch (e) { h e }] *)
Definition try_catch {A} (m : Op A) (h : Exn -> Op A) : Op A :=
  fun http =>
    match m http with
    | (Throw e, t) => let '(r, t') := h e http in (r, t ++ t')
    | done => done
    end.

(** [await axios.get/post/delete(...)] and [await fetch(...)] *)
Definition axios (req : Request) : Op HttpResponse :=
  fun http =>
    (match http req with HttpOk r => Normal r | HttpThrow e => Throw e end,
     [req]).

End OpM.

#[global] Instance op_ret : MRet Op := @OpM.ret.
#[global] Instance op_bind : MBind Op := fun A B k m => OpM.bind m k.

(** The resolved value and the trace of an operation. *)
Definition completion {A} (r : Completion A * list Request) : Completion A := fst r.
Definition requests {A} (r : Completion A * list Request) : list Request := snd r.

(** ** The client *)

Record Valyu : Type := {
  baseUrl : string;
  headers : gmap string string
}.

Definition default_baseUrl : string := "https://api.valyu.ai/v1".

(** The key after [if (!apiKey) apiKey = process.env.VALYU_API_KEY]: the
    argument when it is given and not empty, else the environment
    variable; [env] is [process.env]. *)
Definition resolved_key (apiKey : option string) (env : gmap string string)
    : option string :=
  match apiKey with
  | Some k => if JsString.nonempty k then Some k else env !! "VALYU_API_KEY"
  | None => env !! "VALYU_API_KEY"
  end.

Definition key_not_set : Exn :=
  {| exn_message := "VALYU_API_KEY is not set"; exn_response_data := JUndefined |}.

(** [new Valyu(apiKey, baseUrl)] *)
Definition constructor (apiKey : option string) (base : option string)
    (env : gmap string string) : Completion Valyu :=
  match resolved_key apiKey env with
  | Some k =>
      if JsString.nonempty k then
        Normal {| baseUrl := default default_baseUrl base;
                  headers := <["x-api-key" := k]>
                               (<["Content-Type" := "application/json"]> ∅) |}
      else Throw key_not_set
  | None => Throw key_not_set
  end.

(** [e.response?.data?.error || e.message] *)
Definition catch_error (e : Exn) : JsValue :=
  Js.or (Js.opt_get (exn_response_data e) "error") (JStr (exn_message e)).

Definition num (z : Z) : JsValue := JNum (inject_Z z).
Definition strings (l : list string) : JsValue := JArr (JStr <$> l).

(** ** Option records (from [types.ts]) *)

(** A value passed where the types ask for [string[]]: at run time it may
    be something else, which [Array.isArray] detects. *)
Inductive ArrayArg : Type :=
| NotArray
| IsArray (items : list string).

Inductive ResponseLength : Type :=
| RLWord (s : string)
| RLNumber (q : Q).

Definition ResponseLength_value (r : ResponseLength) : JsValue :=
  match r with RLWord s => JStr s | RLNumber q => JNum q end.

Module SearchOptions.
Record t : Type := {
  searchType : option string;
  maxNumResults : option Q;
  maxPrice : option Q;
  isToolCall : option bool;
  relevanceThreshold : option Q;
  includedSources : option ArrayArg;
  excludeSources : option ArrayArg;
  category : option string;
  startDate : option string;
  endDate : option string;
  countryCode : option string;
  responseLength : option ResponseLength;
  fastMode : option bool;
  urlOnly : option bool
}.
Definition empty : t :=
  Build_t None None None None None None None None None None None None None None.
End SearchOptions.

Module ContentsOptions.
Record t : Type := {
  summary : option JsValue;
  extractEffort : option string;
  responseLength : option ResponseLength;
  maxPriceDollars : option Q;
  screenshot : option bool
}.
Definition empty : t := Build_t None None None None None.
End ContentsOptions.

Module AnswerOptions.
Record t : Type := {
  structuredOutput : option JsValue;
  systemInstructions : option string;
  searchType : option string;
  dataMaxPrice : option Q;
  countryCode : option string;
  includedSources : option ArrayArg;
  excludedSources : option ArrayArg;
  startDate : option string;
  endDate : option string;
  fastMode : option bool;
  streaming : option bool
}.
Definition empty : t :=
  Build_t None None None None None None None None None None None.
End AnswerOptions.

(** ** Validators *)

Definition str_in (s : string) (l : list string) : bool :=
  existsb (String.eqb s) l.

(** [/^\d{4}-\d{2}-\d{2}$/] *)
Definition dateRegex : Regex :=
  RSeq (RegExp.exactly 4 (RClass RegExp.is_digit))
    (RSeq (RClass (RegExp.is_char "-"))
       (RSeq (RegExp.exactly 2 (RClass RegExp.is_digit))
          (RSeq (RClass (RegExp.is_char "-"))
             (RegExp.exactly 2 (RClass RegExp.is_digit))))).

Definition is_label_char (a : ascii) : bool :=
  RegExp.is_alnum a || RegExp.is_char "-" a.

(** [[a-zA-Z0-9]([a-zA-Z0-9-]{0,61}[a-zA-Z0-9])?] *)
Definition labelRegex : Regex :=
  RSeq (RClass RegExp.is_alnum)
    (RegExp.opt (RSeq (RegExp.upto 61 (RClass is_label_char))
                   (RClass RegExp.is_alnum))).

(** [/^label(\.label)+(\/.+)?$/] *)
Definition domainRegex : Regex :=
  RSeq labelRegex
    (RSeq (RegExp.plus (RSeq (RClass (RegExp.is_char ".")) labelRegex))
       (RegExp.opt (RSeq (RClass (RegExp.is_char "/"))
                      (RegExp.plus (RClass RegExp.is_dot))))).

Definition is_id_char (a : ascii) : bool :=
  RegExp.is_alnum a || RegExp.is_char "_" a || RegExp.is_char "-" a.

(** [/^[a-zA-Z0-9_-]+$/], used for both parts of a dataset identifier *)
Definition providerRegex : Regex := RegExp.plus (RClass is_id_char).
Definition datasetRegex : Regex := RegExp.plus (RClass is_id_char).

Definition validateDomain (domain : string) : bool :=
  RegExp.test domainRegex domain.

Definition validateDatasetId (datasetId : string) : bool :=
  match JsString.split "/" datasetId with
  | [p0; p1] =>
      RegExp.test providerRegex p0 && RegExp.test datasetRegex p1
      && (0 <? String.length p0)%nat && (0 <? String.length p1)%nat
  | _ => false
  end.

(** A domain in words. A label is 1 to 63 letters, digits and hyphens and
    neither starts nor ends with a hyphen; a domain is two or more labels
    joined by dots, optionally followed by ["/"] and a non-empty path
    without line breaks. *)
Definition starts_with_alnum (l : string) : bool :=
  match l with
  | String a _ => RegExp.is_alnum a
  | EmptyString => false
  end.

Fixpoint ends_with_alnum (l : string) : bool :=
  match l with
  | EmptyString => false
  | String a EmptyString => RegExp.is_alnum a
  | String _ rest => ends_with_alnum rest
  end.

Definition is_label (l : string) : bool :=
  (String.length l <=? 63)%nat
  && JsString.every is_label_char l
  && starts_with_alnum l
  && ends_with_alnum l.

Definition is_path_suffix (p : string) : bool :=
  match p with
  | EmptyString => true
  | String a q =>
      RegExp.is_char "/" a && JsString.nonempty q && JsString.every RegExp.is_dot q
  end.

(** [.l1.l2...] *)
Fixpoint dotted (labels : list string) : string :=
  match labels with
  | [] => ""
  | l :: rest => String "." (l +:+ dotted rest)
  end.

Definition is_domain (s : string) : Prop :=
  exists label labels path,
    s = label +:+ dotted labels +:+ path
    /\ labels <> []
    /\ is_label label = true
    /\ Forall (fun l => is_label l = true) labels
    /\ is_path_suffix path = true.

(** A dataset identifier in words: exactly one ["/"], with a non-empty
    string of letters, digits, hyphens and underscores on either side. *)
Definition is_dataset_id (s : string) : Prop :=
  exists provider dataset,
    s = provider +:+ "/" +:+ dataset
    /\ JsString.includes "/" provider = false
    /\ JsString.includes "/" dataset = false
    /\ JsString.nonempty provider = true
    /\ JsString.nonempty dataset = true
    /\ JsString.every is_id_char provider = true
    /\ JsString.every is_id_char dataset = true.

Section Validators.

Context (P : Platform).

Definition validateDateFormat (date : string) : bool :=
  if negb (RegExp.test dateRegex date) then false
  else bool_decide (is_Some (Date_parse P date)).

Definition validateUrl (url : string) : bool := URL_parses P url.

Definition validateSource (source : string) : bool :=
  if validateUrl source then true
  else if validateDomain source then true
  else if validateDatasetId source then true
  else false.

(** The pair is [{ valid, invalidSources }]. *)
Definition validateSources (sources : list string) : bool * list string :=
  let invalidSources := filter (fun s => validateSource s = false) sources in
  (bool_decide (length invalidSources = 0%nat), invalidSources).

End Validators.

(** ** [search] and [contents] *)

Definition search_failure (query : string) (error : JsValue) : JsValue :=
  JObj [("success", JBool false); ("error", error); ("tx_id", JNull);
        ("query", JStr query); ("results", JArr []);
        ("results_by_source", JObj [("web", num 0); ("proprietary", num 0)]);
        ("total_deduction_dollars", num 0); ("total_characters", num 0)].

Definition contents_failure (error : JsValue) (requested failed : Z) : JsValue :=
  JObj [("success", JBool false); ("error", error);
        ("urls_requested", num requested); ("urls_processed", num 0);
        ("urls_failed", num failed); ("results", JArr []);
        ("total_cost_dollars", num 0); ("total_characters", num 0)].

Definition invalid_sources_message (field : string) (invalid : list string) : string :=
  "Invalid " +:+ field +:+ " format. Invalid sources: "
  +:+ JsString.join ", " invalid
  +:+ ". Sources must be valid URLs, domains (with optional paths), or dataset identifiers in 'provider/dataset' format.".

(** [payload.k = v] when the option was provided *)
Definition set_opt (k : string) (v : option JsValue)
    (payload : gmap string JsValue) : gmap string JsValue :=
  match v with
  | Some x => <[k := x]> payload
  | None => payload
  end.

(** [options.x && ...]: the option is there and not the empty string *)
Definition provided_nonempty (o : option string) : bool :=
  match o with Some s => JsString.nonempty s | None => false end.

Definition bad_status (status : Z) : bool :=
  (status =? 0) || (status <? 200) || (300 <=? status).

Section SearchContents.

Context (P : Platform) (self : Valyu).

Definition search_payload (query : string) (options : SearchOptions.t)
    (finalSearchType : string) (maxNumResults : Q) : gmap string JsValue :=
  let payload : gmap string JsValue :=
    <["relevance_threshold" :=
        JNum (default (1 # 2)%Q (SearchOptions.relevanceThreshold options))]>
    (<["is_tool_call" := JBool (default true (SearchOptions.isToolCall options))]>
    (<["max_num_results" := JNum maxNumResults]>
    (<["search_type" := JStr finalSearchType]>
    (<["query" := JStr query]> ∅)))) in
  let payload := set_opt "max_price" (JNum <$> SearchOptions.maxPrice options) payload in
  let payload := set_opt "included_sources"
    ((fun a => match a with IsArray l => strings l | NotArray => JUndefined end)
       <$> SearchOptions.includedSources options) payload in
  let payload := set_opt "exclude_sources"
    ((fun a => match a with IsArray l => strings l | NotArray => JUndefined end)
       <$> SearchOptions.excludeSources options) payload in
  let payload := set_opt "category" (JStr <$> SearchOptions.category options) payload in
  let payload := set_opt "start_date" (JStr <$> SearchOptions.startDate options) payload in
  let payload := set_opt "end_date" (JStr <$> SearchOptions.endDate options) payload in
  let payload := set_opt "country_code" (JStr <$> SearchOptions.countryCode options) payload in
  let payload := set_opt "response_length"
    (ResponseLength_value <$> SearchOptions.responseLength options) payload in
  let payload := set_opt "fast_mode" (JBool <$> SearchOptions.fastMode options) payload in
  let payload := set_opt "url_only" (JBool <$> SearchOptions.urlOnly options) payload in
  payload.

Definition search_request (payload : gmap string JsValue) : Request :=
  {| req_method := POST; req_url := baseUrl self +:+ "/deepsearch";
     req_body := Some payload; req_headers := headers self |}.

(** The source-list check of [search], for [includedSources] and for
    [excludeSources]: [Some message] when the list is rejected. *)
Definition check_sources (field : string) (arg : option ArrayArg) : option string :=
  match arg with
  | None => None
  | Some NotArray => Some (field +:+ " must be an array")
  | Some (IsArray l) =>
      let validation := validateSources P l in
      if negb validation.1
      then Some (invalid_sources_message field validation.2)
      else None
  end.

(** The search type that [search] posts: the provided one in lower case,
    ["all"] when none is provided *)
Definition final_searchType (options : SearchOptions.t) : string :=
  match SearchOptions.searchType options with
  | Some s => JsString.toLowerCase s
  | None => "all"
  end.

(** The checks of [search] one by one, as conditions on the options *)
Definition bad_searchType (options : SearchOptions.t) : bool :=
  match SearchOptions.searchType options with
  | Some s => negb (str_in (JsString.toLowerCase s) ["web"; "proprietary"; "all"; "news"])
  | None => false
  end.

Definition bad_date (date : option string) : bool :=
  provided_nonempty date && negb (validateDateFormat P (default "" date)).

Definition bad_maxNumResults (options : SearchOptions.t) : bool :=
  let maxNumResults := default (inject_Z 10) (SearchOptions.maxNumResults options) in
  negb (Qle_bool (inject_Z 1) maxNumResults)
  || negb (Qle_bool maxNumResults (inject_Z 100)).

Definition bad_sources (arg : option ArrayArg) : bool :=
  match arg with
  | Some NotArray => true
  | Some (IsArray l) => existsb (fun s => negb (validateSource P s)) l
  | None => false
  end.

(** The validation of [search] rejects the options. *)
Definition search_rejects (options : SearchOptions.t) : bool :=
  bad_searchType options
  || bad_date (SearchOptions.startDate options)
  || bad_date (SearchOptions.endDate options)
  || bad_maxNumResults options
  || bad_sources (SearchOptions.includedSources options)
  || bad_sources (SearchOptions.excludeSources options).

(** The checks that come before the source lists all pass. *)
Definition early_checks_pass (options : SearchOptions.t) : bool :=
  negb (bad_searchType options
        || bad_date (SearchOptions.startDate options)
        || bad_date (SearchOptions.endDate options)
        || bad_maxNumResults options).

(** The elements of a source list that fail [validateSource], in order *)
Definition invalid_sources (l : list string) : list string :=
  filter (fun s => validateSource P s = false) l.

Definition search (query : string) (options : SearchOptions.t) : Op JsValue :=
  OpM.try_catch
    (let providedSearchTypeString :=
       JsString.toLowerCase <$> SearchOptions.searchType options in
     let known :=
       match providedSearchTypeString with
       | Some s => str_in s ["web"; "proprietary"; "all"; "news"]
       | None => false
       end in
     let finalSearchType :=
       if known then default "all" providedSearchTypeString else "all" in
     if negb known && bool_decide (is_Some (SearchOptions.searchType options)) then
       mret (search_failure query
         (JStr "Invalid searchType provided. Must be one of: all, web, proprietary, news"))
     else if provided_nonempty (SearchOptions.startDate options)
             && negb (validateDateFormat P (default "" (SearchOptions.startDate options))) then
       mret (search_failure query (JStr "Invalid startDate format. Must be YYYY-MM-DD"))
     else if provided_nonempty (SearchOptions.endDate options)
             && negb (validateDateFormat P (default "" (SearchOptions.endDate options))) then
       mret (search_failure query (JStr "Invalid endDate format. Must be YYYY-MM-DD"))
     else
       let maxNumResults := default (inject_Z 10) (SearchOptions.maxNumResults options) in
       if negb (Qle_bool (inject_Z 1) maxNumResults)
          || negb (Qle_bool maxNumResults (inject_Z 100)) then
         mret (search_failure query (JStr "maxNumResults must be between 1 and 100"))
       else
         match check_sources "includedSources" (SearchOptions.includedSources options) with
         | Some message => mret (search_failure query (JStr message))
         | None =>
         match check_sources "excludeSources" (SearchOptions.excludeSources options) with
         | Some message => mret (search_failure query (JStr message))
         | None =>
             let payload := search_payload query options finalSearchType maxNumResults in
             response ← OpM.axios (search_request payload);
             if bad_status (resp_status response) then
               mret (search_failure query (Js.opt_get (resp_data response) "error"))
             else mret (resp_data response)
         end
         end)
    (fun e => mret (search_failure query (catch_error e))).

Definition contents_payload (urls : list string) (options : ContentsOptions.t)
    : gmap string JsValue :=
  let payload : gmap string JsValue := <["urls" := strings urls]> ∅ in
  let payload := set_opt "summary" (ContentsOptions.summary options) payload in
  let payload := set_opt "extract_effort"
    (JStr <$> ContentsOptions.extractEffort options) payload in
  let payload := set_opt "response_length"
    (ResponseLength_value <$> ContentsOptions.responseLength options) payload in
  let payload := set_opt "max_price_dollars"
    (JNum <$> ContentsOptions.maxPriceDollars options) payload in
  let payload := set_opt "screenshot"
    (JBool <$> ContentsOptions.screenshot options) payload in
  payload.

Definition contents_request (payload : gmap string JsValue) : Request :=
  {| req_method := POST; req_url := baseUrl self +:+ "/contents";
     req_body := Some payload; req_headers := headers self |}.

(** [urls.length] as the [catch] clause reads it *)
Definition urls_length (urls : ArrayArg) : Z :=
  match urls with IsArray l => Z.of_nat (length l) | NotArray => 0 end.

Definition check_responseLength (r : option ResponseLength) : option string :=
  match r with
  | Some (RLWord w) =>
      if negb (str_in w ["short"; "medium"; "large"; "max"])
      then Some "responseLength must be 'short', 'medium', 'large', 'max', or a number"
      else None
  | Some (RLNumber q) =>
      if Qle_bool q 0 then Some "responseLength number must be positive" else None
  | None => None
  end.

(** What [search] does once its validation has passed: one POST, and the
    response of the server or the failure object of the [catch] clause. *)
Definition search_posted (query : string) (options : SearchOptions.t) (http : Http)
    : Completion JsValue * list Request :=
  let req :=
    search_request
      (search_payload query options (final_searchType options)
         (default (inject_Z 10) (SearchOptions.maxNumResults options))) in
  (Normal match http req with
          | HttpOk response =>
              if bad_status (resp_status response)
              then search_failure query (Js.opt_get (resp_data response) "error")
              else resp_data response
          | HttpThrow e => search_failure query (catch_error e)
          end, [req]).

(** What [search] does when a check rejects: no request *)
Definition rejected (query message : string) : Completion JsValue * list Request :=
  (Normal (search_failure query (JStr message)), []).

(** The validation of [contents] rejects the arguments. *)
Definition contents_rejects (urls : ArrayArg) (options : ContentsOptions.t) : bool :=
  match urls with
  | NotArray => true
  | IsArray l =>
      bool_decide (length l = 0%nat)
      || (10 <? length l)%nat
      || (provided_nonempty (ContentsOptions.extractEffort options)
          && negb (str_in (default "" (ContentsOptions.extractEffort options))
                     ["normal"; "high"; "auto"]))
      || match ContentsOptions.responseLength options with
         | Some (RLWord w) => negb (str_in w ["short"; "medium"; "large"; "max"])
         | Some (RLNumber q) => Qle_bool q 0
         | None => false
         end
  end.

Definition contents (urls : ArrayArg) (options : ContentsOptions.t) : Op JsValue :=
  OpM.try_catch
    (match urls with
     | NotArray => mret (contents_failure (JStr "urls must be an array") 0 0)
     | IsArray l =>
         let n := Z.of_nat (length l) in
         if bool_decide (length l = 0%nat) then
           mret (contents_failure (JStr "urls array cannot be empty") 0 0)
         else if (10 <? length l)%nat then
           mret (contents_failure (JStr "Maximum 10 URLs allowed per request") n n)
         else if provided_nonempty (ContentsOptions.extractEffort options)
                 && negb (str_in (default "" (ContentsOptions.extractEffort options))
                            ["normal"; "high"; "auto"]) then
           mret (contents_failure
                   (JStr "extractEffort must be 'normal', 'high', or 'auto'") n n)
         else
           match check_responseLength (ContentsOptions.responseLength options) with
           | Some message => mret (contents_failure (JStr message) n n)
           | None =>
               response ← OpM.axios (contents_request (contents_payload l options));
               if bad_status (resp_status response) then
                 mret (contents_failure
                         (Js.or (Js.opt_get (resp_data response) "error")
                            (JStr "Request failed")) n n)
               else mret (resp_data response)
           end
     end)
    (fun e => mret (contents_failure (catch_error e) (urls_length urls) (urls_length urls))).

End SearchContents.

(** ** The other single-call operations *)

Module DeepResearchSearchConfig.
Record t : Type := {
  searchType : option string;
  includedSources : option (list string);
  excludedSources : option (list string);
  startDate : option string;
  endDate : option string;
  category : option string
}.
End DeepResearchSearchConfig.

Inductive AlertEmail : Type :=
| AlertAddress (s : string)
| AlertConfig (email custom_url : JsValue).

Module DeepResearchCreateOptions.
Record t : Type := {
  query : option string;
  input : option string;
  mode : option string;
  model : option string;
  outputFormats : option JsValue;
  strategy : option string;
  search : option DeepResearchSearchConfig.t;
  urls : option (list string);
  files : option JsValue;
  deliverables : option JsValue;
  mcpServers : option JsValue;
  codeExecution : option bool;
  previousReports : option (list string);
  webhookUrl : option string;
  brandCollectionId : option string;
  alertEmail : option AlertEmail;
  metadata : option JsValue
}.
End DeepResearchCreateOptions.

Module CreateBatchOptions.
Record t : Type := {
  name : option string;
  mode : option string;
  model : option string;
  outputFormats : option JsValue;
  search : option DeepResearchSearchConfig.t;
  webhookUrl : option string;
  metadata : option JsValue
}.
End CreateBatchOptions.

Module BatchTaskInput.
Record t : Type := {
  id : option string;
  query : option string;
  input : option string;
  strategy : option string;
  urls : option (list string);
  metadata : option JsValue
}.
End BatchTaskInput.

Module ListBatchTasksOptions.
Record t : Type := {
  status : option string;
  limit : option Q;
  lastKey : option string;
  includeOutput : option bool
}.
End ListBatchTasksOptions.

(** [if (o) ...] on an optional string: there and not empty *)
Definition truthy_string (o : option string) : option JsValue :=
  match o with
  | Some s => if JsString.nonempty s then Some (JStr s) else None
  | None => None
  end.

(** [if (o) ...] on an optional value of any type *)
Definition truthy_value (o : option JsValue) : option JsValue :=
  match o with
  | Some v => if Js.truthy v then Some v else None
  | None => None
  end.

(** [a ?? b] on optional strings *)
Definition coalesce (a b : option string) : option string :=
  match a with Some _ => a | None => b end.

Definition field_if (k : string) (v : option JsValue) : list (string * JsValue) :=
  match v with Some x => [(k, x)] | None => [] end.

Definition search_config (c : DeepResearchSearchConfig.t) : JsValue :=
  JObj (field_if "search_type" (truthy_string (DeepResearchSearchConfig.searchType c))
        ++ field_if "included_sources" (strings <$> DeepResearchSearchConfig.includedSources c)
        ++ field_if "excluded_sources" (strings <$> DeepResearchSearchConfig.excludedSources c)
        ++ field_if "start_date" (truthy_string (DeepResearchSearchConfig.startDate c))
        ++ field_if "end_date" (truthy_string (DeepResearchSearchConfig.endDate c))
        ++ field_if "category" (truthy_string (DeepResearchSearchConfig.category c))).

Definition bool_string (b : bool) : string := if b then "true" else "false".

Fixpoint indexed (i : nat) (l : list JsValue) : list (string * JsValue) :=
  match l with
  | [] => []
  | x :: rest => (pretty i, x) :: indexed (S i) rest
  end.

(** The own enumerable properties that [{...v}] copies *)
Definition own_fields (v : JsValue) : list (string * JsValue) :=
  match v with
  | JObj fields => fields
  | JArr l => indexed 0 l
  | JStr s => indexed 0 (Js.chars s)
  | _ => []
  end.

(** [{ success: true, ...data }]: a [success] key of [data] wins. *)
Definition with_success (data : JsValue) : JsValue :=
  JObj (own_fields data ++ [("success", JBool true)]).

Definition failure (error : JsValue) : JsValue :=
  JObj [("success", JBool false); ("error", error)].

(** The [catch] clause shared by the operations below. *)
Definition catch_failure (e : Exn) : Op JsValue := mret (failure (catch_error e)).

Section Operations.

Context (P : Platform) (self : Valyu).

(** A value has a string form unless an object in it has an own
    [toString] property: no value here is a function, so the conversion of
    such an object finds nothing to call and throws a TypeError. The
    elements of an array are converted by [join], which skips [null] and
    [undefined]. *)
Fixpoint stringifiable (v : JsValue) : bool :=
  match v with
  | JArr l => forallb (fun x => Js.nullish x || stringifiable x) l
  | JObj fields => negb (Js.has_own "toString" fields)
  | _ => true
  end.

(** ToString of a value that has a string form, as string concatenation
    and [new Error(v)] apply it *)
Fixpoint ToString (v : JsValue) : string :=
  match v with
  | JUndefined => "undefined"
  | JNull => "null"
  | JBool b => bool_string b
  | JNum q => Number_toString P q
  | JStr s => s
  | JArr l =>
      JsString.join ","
        (map (fun x => if Js.nullish x then "" else ToString x) l)
  | JObj _ => "[object Object]"
  end.

(** [new Error(v)]: the message is the string form of [v], and there is
    none for [undefined]; a TypeError is thrown when [v] has no string
    form. *)
Definition Error (v : JsValue) : Completion Exn :=
  if stringifiable v then
    Normal {| exn_message := if Js.is_undefined v then "" else ToString v;
              exn_response_data := JUndefined |}
  else Throw (type_error P).

(** What [throw new Error(v)] throws *)
Definition thrown (c : Completion Exn) : Exn :=
  match c with Normal e => e | Throw e => e end.

Definition get_request (url : string) : Request :=
  {| req_method := GET; req_url := url; req_body := None;
     req_headers := headers self |}.

Definition post_request (url : string) (body : gmap string JsValue) : Request :=
  {| req_method := POST; req_url := url; req_body := Some body;
     req_headers := headers self |}.

Definition delete_request (url : string) : Request :=
  {| req_method := DELETE; req_url := url; req_body := None;
     req_headers := headers self |}.

Definition query_suffix (params : list (string * string)) : string :=
  let q := URLSearchParams_toString P params in
  if JsString.nonempty q then "?" +:+ q else "".

Definition param_if (k : string) (v : option string) : list (string * string) :=
  match v with Some x => [(k, x)] | None => [] end.

Definition create_payload (o : DeepResearchCreateOptions.t) (queryValue : string)
    : gmap string JsValue :=
  let mode := coalesce (DeepResearchCreateOptions.mode o) (DeepResearchCreateOptions.model o) in
  let payload : gmap string JsValue :=
    <["code_execution" :=
        JBool (negb (bool_decide (DeepResearchCreateOptions.codeExecution o = Some false)))]>
    (<["output_formats" :=
        default (strings ["markdown"])
          (truthy_value (DeepResearchCreateOptions.outputFormats o))]>
    (<["mode" := default (JStr "fast") (truthy_string mode)]>
    (<["query" := JStr queryValue]> ∅))) in
  let payload := set_opt "strategy" (truthy_string (DeepResearchCreateOptions.strategy o)) payload in
  let payload := set_opt "search" (search_config <$> DeepResearchCreateOptions.search o) payload in
  let payload := set_opt "urls" (strings <$> DeepResearchCreateOptions.urls o) payload in
  let payload := set_opt "files" (truthy_value (DeepResearchCreateOptions.files o)) payload in
  let payload := set_opt "deliverables"
    (truthy_value (DeepResearchCreateOptions.deliverables o)) payload in
  let payload := set_opt "mcp_servers"
    (truthy_value (DeepResearchCreateOptions.mcpServers o)) payload in
  let payload := set_opt "previous_reports"
    (strings <$> DeepResearchCreateOptions.previousReports o) payload in
  let payload := set_opt "webhook_url"
    (truthy_string (DeepResearchCreateOptions.webhookUrl o)) payload in
  let payload := set_opt "brand_collection_id"
    (truthy_string (DeepResearchCreateOptions.brandCollectionId o)) payload in
  let payload :=
    match DeepResearchCreateOptions.alertEmail o with
    | Some (AlertAddress a) => set_opt "alert_email" (truthy_string (Some a)) payload
    | Some (AlertConfig email custom_url) =>
        <["alert_email" := JObj [("email", email); ("custom_url", custom_url)]]> payload
    | None => payload
    end in
  set_opt "metadata" (truthy_value (DeepResearchCreateOptions.metadata o)) payload.

Definition _deepresearchCreate (options : DeepResearchCreateOptions.t) : Op JsValue :=
  OpM.try_catch
    (let queryValue :=
       coalesce (DeepResearchCreateOptions.query options)
         (DeepResearchCreateOptions.input options) in
     if negb (provided_nonempty (JsString.trim <$> queryValue)) then
       mret (failure (JStr "query is required and cannot be empty"))
     else
       response ← OpM.axios
         (post_request (baseUrl self +:+ "/deepresearch/tasks")
            (create_payload options (default "" queryValue)));
       mret (with_success (resp_data response)))
    catch_failure.

Definition _deepresearchStatus (taskId : string) : Op JsValue :=
  OpM.try_catch
    (response ← OpM.axios
       (get_request (baseUrl self +:+ "/deepresearch/tasks/" +:+ taskId +:+ "/status"));
     mret (with_success (resp_data response)))
    catch_failure.

Definition _deepresearchList (limit : option Q) : Op JsValue :=
  OpM.try_catch
    (let limit := Js.or (default JUndefined (JNum <$> limit)) (num 10) in
     response ← OpM.axios
       (get_request (baseUrl self +:+ "/deepresearch/list?limit=" +:+ ToString limit));
     mret (JObj [("success", JBool true); ("data", resp_data response)]))
    catch_failure.

Definition _deepresearchUpdate (taskId instruction : string) : Op JsValue :=
  OpM.try_catch
    (if negb (JsString.nonempty (JsString.trim instruction)) then
       mret (failure (JStr "instruction is required and cannot be empty"))
     else
       response ← OpM.axios
         (post_request (baseUrl self +:+ "/deepresearch/tasks/" +:+ taskId +:+ "/update")
            (<["instruction" := JStr instruction]> ∅));
       mret (with_success (resp_data response)))
    catch_failure.

Definition _deepresearchCancel (taskId : string) : Op JsValue :=
  OpM.try_catch
    (response ← OpM.axios
       (post_request (baseUrl self +:+ "/deepresearch/tasks/" +:+ taskId +:+ "/cancel") ∅);
     mret (with_success (resp_data response)))
    catch_failure.

Definition _deepresearchDelete (taskId : string) : Op JsValue :=
  OpM.try_catch
    (response ← OpM.axios
       (delete_request (baseUrl self +:+ "/deepresearch/tasks/" +:+ taskId +:+ "/delete"));
     mret (with_success (resp_data response)))
    catch_failure.

Definition _deepresearchTogglePublic (taskId : string) (isPublic : bool) : Op JsValue :=
  OpM.try_catch
    (response ← OpM.axios
       (post_request (baseUrl self +:+ "/deepresearch/tasks/" +:+ taskId +:+ "/public")
          (<["public" := JBool isPublic]> ∅));
     mret (with_success (resp_data response)))
    catch_failure.

(** The request asks for an [arraybuffer], so that [response.data] is the
    buffer of which [Buffer.from] makes the [data] of the result. *)
Definition _deepresearchGetAssets (taskId assetId : string) (token : option string)
    : Op JsValue :=
  OpM.try_catch
    (let token := if provided_nonempty token then token else None in
     let params := param_if "token" token in
     let hdrs : gmap string string :=
       match token with
       | Some _ => ∅
       | None =>
           match headers self !! "x-api-key" with
           | Some k => <["x-api-key" := k]> ∅
           | None => ∅
           end
       end in
     response ← OpM.axios
       {| req_method := GET;
          req_url := baseUrl self +:+ "/deepresearch/tasks/" +:+ taskId +:+ "/assets/"
                     +:+ assetId +:+ query_suffix params;
          req_body := None; req_headers := hdrs |};
     mret (JObj [("success", JBool true); ("data", resp_data response);
                 ("contentType",
                  Js.or (resp_content_type response) (JStr "application/octet-stream"))]))
    catch_failure.

Definition batch_payload (o : CreateBatchOptions.t) : gmap string JsValue :=
  let payload : gmap string JsValue := ∅ in
  let payload := set_opt "name" (truthy_string (CreateBatchOptions.name o)) payload in
  let mode := coalesce (CreateBatchOptions.mode o) (CreateBatchOptions.model o) in
  let payload := set_opt "mode" (truthy_string mode) payload in
  let payload := set_opt "output_formats"
    (truthy_value (CreateBatchOptions.outputFormats o)) payload in
  let payload := set_opt "search" (search_config <$> CreateBatchOptions.search o) payload in
  let payload := set_opt "webhook_url" (truthy_string (CreateBatchOptions.webhookUrl o)) payload in
  set_opt "metadata" (truthy_value (CreateBatchOptions.metadata o)) payload.

Definition _batchCreate (options : CreateBatchOptions.t) : Op JsValue :=
  OpM.try_catch
    (response ← OpM.axios
       (post_request (baseUrl self +:+ "/deepresearch/batches") (batch_payload options));
     mret (with_success (resp_data response)))
    catch_failure.

Definition _batchStatus (batchId : string) : Op JsValue :=
  OpM.try_catch
    (response ← OpM.axios
       (get_request (baseUrl self +:+ "/deepresearch/batches/" +:+ batchId));
     mret (JObj [("success", JBool true); ("batch", resp_data response)]))
    catch_failure.

Definition task_payload (task : BatchTaskInput.t) : JsValue :=
  let queryValue := coalesce (BatchTaskInput.query task) (BatchTaskInput.input task) in
  JObj (field_if "query" (truthy_string queryValue)
        ++ field_if "id" (truthy_string (BatchTaskInput.id task))
        ++ field_if "strategy" (truthy_string (BatchTaskInput.strategy task))
        ++ field_if "urls" (strings <$> BatchTaskInput.urls task)
        ++ field_if "metadata" (truthy_value (BatchTaskInput.metadata task))).

(** [tasks] is [None] when [options.tasks] is missing or not an array. *)
Definition _batchAddTasks (batchId : string) (tasks : option (list BatchTaskInput.t))
    : Op JsValue :=
  OpM.try_catch
    (match tasks with
     | None => mret (failure (JStr "tasks must be an array"))
     | Some l =>
         if bool_decide (length l = 0%nat) then
           mret (failure (JStr "tasks array cannot be empty"))
         else if (100 <? length l)%nat then
           mret (failure (JStr "Maximum 100 tasks allowed per request"))
         else if existsb
                   (fun task => negb (provided_nonempty (BatchTaskInput.query task))
                                && negb (provided_nonempty (BatchTaskInput.input task))) l then
           mret (failure (JStr "Each task must have a 'query' field"))
         else
           response ← OpM.axios
             (post_request (baseUrl self +:+ "/deepresearch/batches/" +:+ batchId +:+ "/tasks")
                (<["tasks" := JArr (task_payload <$> l)]> ∅));
           mret (with_success (resp_data response))
     end)
    catch_failure.

Definition _batchListTasks (batchId : string) (options : ListBatchTasksOptions.t)
    : Op JsValue :=
  OpM.try_catch
    (let params :=
       param_if "status"
         (if provided_nonempty (ListBatchTasksOptions.status options)
          then ListBatchTasksOptions.status options else None)
       ++ param_if "limit"
            ((fun q => Number_toString P q) <$> ListBatchTasksOptions.limit options)
       ++ param_if "last_key"
            (if provided_nonempty (ListBatchTasksOptions.lastKey options)
             then ListBatchTasksOptions.lastKey options else None)
       ++ param_if "include_output"
            (bool_string <$> ListBatchTasksOptions.includeOutput options) in
     response ← OpM.axios
       (get_request (baseUrl self +:+ "/deepresearch/batches/" +:+ batchId +:+ "/tasks"
                     +:+ query_suffix params));
     mret (with_success (resp_data response)))
    catch_failure.

Definition _batchCancel (batchId : string) : Op JsValue :=
  OpM.try_catch
    (response ← OpM.axios
       (post_request (baseUrl self +:+ "/deepresearch/batches/" +:+ batchId +:+ "/cancel") ∅);
     mret (with_success (resp_data response)))
    catch_failure.

Definition _batchList (limit : option Q) : Op JsValue :=
  OpM.try_catch
    (let params := param_if "limit" ((fun q => Number_toString P q) <$> limit) in
     response ← OpM.axios
       (get_request (baseUrl self +:+ "/deepresearch/batches" +:+ query_suffix params));
     mret (JObj [("success", JBool true); ("batches", resp_data response)]))
    catch_failure.

(** [response.data.k]: a TypeError when [response.data] is [null] or
    [undefined] *)
Definition data_field (response : HttpResponse) (k : string) : Op JsValue :=
  if Js.nullish (resp_data response) then OpM.throw (type_error P)
  else mret (Js.get (resp_data response) k).

Definition _datasourcesList (category : option string) : Op JsValue :=
  OpM.try_catch
    (let params :=
       param_if "category" (if provided_nonempty category then category else None) in
     response ← OpM.axios
       (get_request (baseUrl self +:+ "/datasources" +:+ query_suffix params));
     datasources ← data_field response "datasources";
     mret (JObj [("success", JBool true); ("datasources", datasources)]))
    catch_failure.

Definition _datasourcesCategories : Op JsValue :=
  OpM.try_catch
    (response ← OpM.axios (get_request (baseUrl self +:+ "/datasources/categories"));
     categories ← data_field response "categories";
     mret (JObj [("success", JBool true); ("categories", categories)]))
    catch_failure.

End Operations.

(** ** The single-call operations as one family *)

Inductive Call : Type :=
| CallSearch (query : string) (options : SearchOptions.t)
| CallContents (urls : ArrayArg) (options : ContentsOptions.t)
| CallCreate (options : DeepResearchCreateOptions.t)
| CallStatus (taskId : string)
| CallList (limit : option Q)
| CallUpdate (taskId instruction : string)
| CallCancel (taskId : string)
| CallDelete (taskId : string)
| CallTogglePublic (taskId : string) (isPublic : bool)
| CallGetAssets (taskId assetId : string) (token : option string)
| CallBatchCreate (options : CreateBatchOptions.t)
| CallBatchStatus (batchId : string)
| CallBatchAddTasks (batchId : string) (tasks : option (list BatchTaskInput.t))
| CallBatchListTasks (batchId : string) (options : ListBatchTasksOptions.t)
| CallBatchCancel (batchId : string)
| CallBatchList (limit : option Q)
| CallDatasourcesList (category : option string)
| CallDatasourcesCategories.

Definition run (P : Platform) (self : Valyu) (call : Call) : Op JsValue :=
  match call with
  | CallSearch query options => search P self query options
  | CallContents urls options => contents self urls options
  | CallCreate options => _deepresearchCreate self options
  | CallStatus taskId => _deepresearchStatus self taskId
  | CallList limit => _deepresearchList P self limit
  | CallUpdate taskId instruction => _deepresearchUpdate self taskId instruction
  | CallCancel taskId => _deepresearchCancel self taskId
  | CallDelete taskId => _deepresearchDelete self taskId
  | CallTogglePublic taskId isPublic => _deepresearchTogglePublic self taskId isPublic
  | CallGetAssets taskId assetId token => _deepresearchGetAssets P self taskId assetId token
  | CallBatchCreate options => _batchCreate self options
  | CallBatchStatus batchId => _batchStatus self batchId
  | CallBatchAddTasks batchId tasks => _batchAddTasks self batchId tasks
  | CallBatchListTasks batchId options => _batchListTasks P self batchId options
  | CallBatchCancel batchId => _batchCancel self batchId
  | CallBatchList limit => _batchList P self limit
  | CallDatasourcesList category => _datasourcesList P self category
  | CallDatasourcesCategories => _datasourcesCategories P self
  end.

(** ** Polling helpers

    A polling helper talks to the server once per iteration and reads the
    clock; both are scripted by a [World]: [server w i] answers the [i]-th
    status request, [now w k] is the [k]-th value that [Date.now()]
    returns.  The loops are [while (true)] loops; here they run on fuel, one
    unit per iteration, and [Polling] is a loop that has not stopped when
    the fuel is spent.

    A callback is given or not; a call of it is an event of the trace, with
    its arguments, and returns normally. *)

Record World : Type := {
  server : nat -> Http;
  now : nat -> Z
}.

Inductive Event : Type :=
| EvRequest (r : Request)
| EvOnProgress (status : JsValue)
| EvSleep (ms : Z)
| EvOnStep (current_step total_steps : JsValue)
| EvOnMessage (message : JsValue)
| EvOnComplete (result : JsValue)
| EvOnError (e : Exn).

Inductive LoopResult : Type :=
| Returned (v : JsValue)
| Threw (e : Exn)
| Polling.

Module WaitOptions.
Record t : Type := {
  pollInterval : option Z;
  maxWaitTime : option Z;
  onProgress : bool
}.
Definition empty : t := Build_t None None false.
End WaitOptions.

Module StreamCallback.
Record t : Type := {
  onMessage : bool;
  onProgress : bool;
  onComplete : bool;
  onError : bool
}.
End StreamCallback.

(** [o || d] on an optional number *)
Definition or_default (o : option Z) (d : Z) : Z :=
  match o with
  | Some z => if z =? 0 then d else z
  | None => d
  end.

Definition is_string (expected : string) (v : JsValue) : bool :=
  match v with JStr s => String.eqb s expected | _ => false end.

Definition when (b : bool) (e : Event) : list Event := if b then [e] else [].

Definition deepresearch_terminal (status : JsValue) : bool :=
  is_string "completed" (Js.get status "status")
  || is_string "failed" (Js.get status "status")
  || is_string "cancelled" (Js.get status "status").

Definition batch_terminal (batch : JsValue) : bool :=
  is_string "completed" (Js.get batch "status")
  || is_string "completed_with_errors" (Js.get batch "status")
  || is_string "cancelled" (Js.get batch "status").

(** What a trace shows: the number of status requests, the arguments of
    the [onProgress] calls, the delays slept, all in order. *)
Fixpoint polls (events : list Event) : nat :=
  match events with
  | [] => O
  | EvRequest _ :: rest => S (polls rest)
  | _ :: rest => polls rest
  end.

Fixpoint progress_calls (events : list Event) : list JsValue :=
  match events with
  | [] => []
  | EvOnProgress status :: rest => status :: progress_calls rest
  | _ :: rest => progress_calls rest
  end.

Fixpoint sleeps (events : list Event) : list Z :=
  match events with
  | [] => []
  | EvSleep ms :: rest => ms :: sleeps rest
  | _ :: rest => sleeps rest
  end.

Section Statuses.

Context (self : Valyu) (w : World).

Definition status_request (taskId : string) : Request :=
  get_request self (baseUrl self +:+ "/deepresearch/tasks/" +:+ taskId +:+ "/status").

Definition batch_request (batchId : string) : Request :=
  get_request self (baseUrl self +:+ "/deepresearch/batches/" +:+ batchId).

(** The [i]-th status that a helper polls: the value that the [i]-th call
    of [_deepresearchStatus] (of [_batchStatus]) resolves with. *)
Definition status_at (taskId : string) (i : nat) : JsValue :=
  match completion (_deepresearchStatus self taskId (server w i)) with
  | Normal status => status
  | Throw _ => JUndefined
  end.

Definition batch_status_at (batchId : string) (i : nat) : JsValue :=
  match completion (_batchStatus self batchId (server w i)) with
  | Normal statusResponse => statusResponse
  | Throw _ => JUndefined
  end.

End Statuses.

(** [stream] can walk the [messages] of a status: they are falsy, or an
    array, or no [onMessage] callback was given. *)
Definition messages_ok (callback : StreamCallback.t) (status : JsValue) : bool :=
  negb (Js.truthy (Js.get status "messages") && StreamCallback.onMessage callback)
  || match Js.get status "messages" with JArr _ => true | _ => false end.

Section Polling.

Context (P : Platform) (self : Valyu) (w : World).

Definition timeout_error : Exn :=
  thrown (Error P (JStr "Maximum wait time exceeded")).

Section Wait.

Context (taskId : string) (options : WaitOptions.t).

Definition wait_pollInterval : Z := or_default (WaitOptions.pollInterval options) 5000.
Definition wait_maxWaitTime : Z := or_default (WaitOptions.maxWaitTime options) 7200000.

(** The body of [while (true)] in [_deepresearchWait], from its [i]-th
    iteration on; [startTime] is [now w 0]. *)
Fixpoint wait_loop (fuel i : nat) : LoopResult * list Event :=
  match fuel with
  | O => (Polling, [])
  | S fuel' =>
      let '(c, reqs) := _deepresearchStatus self taskId (server w i) in
      match c with
      | Throw e => (Threw e, EvRequest <$> reqs)
      | Normal status =>
          if negb (Js.truthy (Js.get status "success")) then
            (Threw (thrown (Error P (Js.get status "error"))), EvRequest <$> reqs)
          else
            let seen := (EvRequest <$> reqs)
                          ++ when (WaitOptions.onProgress options) (EvOnProgress status) in
            if deepresearch_terminal status then (Returned status, seen)
            else if now w (S i) - now w 0 >? wait_maxWaitTime then
              (Threw timeout_error, seen)
            else
              let '(r, rest) := wait_loop fuel' (S i) in
              (r, seen ++ EvSleep wait_pollInterval :: rest)
      end
  end.

Definition _deepresearchWait (fuel : nat) : LoopResult * list Event :=
  wait_loop fuel 0.

End Wait.

Section Stream.

Context (taskId : string) (callback : StreamCallback.t).

(** What the [catch] clause of the loop body does. *)
Definition stream_catch (seen : list Event) (error : Exn) : LoopResult * list Event :=
  (Threw error, seen ++ when (StreamCallback.onError callback) (EvOnError error)).

(** [if (callback.onError) callback.onError(new Error(v))] at the end of
    the [try] block, after the events [seen]: the helper then returns,
    unless [new Error(v)] throws. *)
Definition stream_report (seen : list Event) (v : JsValue) : LoopResult * list Event :=
  if StreamCallback.onError callback then
    match Error P v with
    | Normal e => (Returned JUndefined, seen ++ [EvOnError e])
    | Throw e => stream_catch seen e
    end
  else (Returned JUndefined, seen).

Fixpoint stream_loop (fuel i lastMessageCount : nat) : LoopResult * list Event :=
  match fuel with
  | O => (Polling, [])
  | S fuel' =>
      let '(c, reqs) := _deepresearchStatus self taskId (server w i) in
      match c with
      | Throw e => stream_catch (EvRequest <$> reqs) e
      | Normal status =>
          if negb (Js.truthy (Js.get status "success")) then
            stream_report (EvRequest <$> reqs) (Js.get status "error")
          else
            let progress := Js.get status "progress" in
            let seen := (EvRequest <$> reqs)
              ++ when (Js.truthy progress && StreamCallback.onProgress callback)
                   (EvOnStep (Js.get progress "current_step")
                      (Js.get progress "total_steps")) in
            let messages := Js.get status "messages" in
            let after_messages : option (list Event * nat) :=
              if Js.truthy messages && StreamCallback.onMessage callback then
                match messages with
                | JArr l =>
                    Some (seen ++ (EvOnMessage <$> drop lastMessageCount l), length l)
                | _ => None
                end
              else Some (seen, lastMessageCount) in
            match after_messages with
            | None => stream_catch seen (type_error P)
            | Some (seen, lastMessageCount) =>
                if is_string "completed" (Js.get status "status") then
                  (Returned JUndefined,
                   seen ++ when (StreamCallback.onComplete callback) (EvOnComplete status))
                else if is_string "failed" (Js.get status "status")
                        || is_string "cancelled" (Js.get status "status") then
                  stream_report seen
                    (Js.or (Js.get status "error")
                       (JStr ("Task " +:+ ToString P (Js.get status "status"))))
                else
                  let '(r, rest) := stream_loop fuel' (S i) lastMessageCount in
                  (r, seen ++ EvSleep 5000 :: rest)
            end
      end
  end.

Definition _deepresearchStream (fuel : nat) : LoopResult * list Event :=
  stream_loop fuel 0 0.

End Stream.

Section BatchWait.

Context (batchId : string) (options : WaitOptions.t).

Definition batch_pollInterval : Z := or_default (WaitOptions.pollInterval options) 10000.
Definition batch_maxWaitTime : Z := or_default (WaitOptions.maxWaitTime options) 7200000.

Fixpoint batch_loop (fuel i : nat) : LoopResult * list Event :=
  match fuel with
  | O => (Polling, [])
  | S fuel' =>
      let '(c, reqs) := _batchStatus self batchId (server w i) in
      match c with
      | Throw e => (Threw e, EvRequest <$> reqs)
      | Normal statusResponse =>
          if negb (Js.truthy (Js.get statusResponse "success"))
             || negb (Js.truthy (Js.get statusResponse "batch")) then
            (Threw (thrown (Error P (Js.or (Js.get statusResponse "error")
                                         (JStr "Failed to get batch status")))),
             EvRequest <$> reqs)
          else
            let batch := Js.get statusResponse "batch" in
            let seen := (EvRequest <$> reqs)
                          ++ when (WaitOptions.onProgress options) (EvOnProgress batch) in
            if batch_terminal batch then (Returned batch, seen)
            else if now w (S i) - now w 0 >? batch_maxWaitTime then
              (Threw timeout_error, seen)
            else
              let '(r, rest) := batch_loop fuel' (S i) in
              (r, seen ++ EvSleep batch_pollInterval :: rest)
      end
  end.

Definition _batchWaitForCompletion (fuel : nat) : LoopResult * list Event :=
  batch_loop fuel 0.

End BatchWait.

End Polling.

(** *** The shape shared by the two wait loops

    [_deepresearchWait] and [_batchWaitForCompletion] are the same loop up
    to what a poll delivers: [failed i] is the error thrown when the [i]-th
    poll is unsuccessful, [answer i] is what a successful poll hands to
    [onProgress] and returns when [terminal i] holds. *)

Section PollShape.

Context (request : Request) (answer : nat -> JsValue)
  (failed : nat -> option Exn) (terminal : nat -> bool)
  (clock : nat -> Z) (interval maxWait : Z) (onProgress : bool)
  (expiry : Exn).

Fixpoint poll_loop (fuel i : nat) : LoopResult * list Event :=
  match fuel with
  | O => (Polling, [])
  | S fuel' =>
      match failed i with
      | Some e => (Threw e, [EvRequest request])
      | None =>
          let seen := [EvRequest request] ++ when onProgress (EvOnProgress (answer i)) in
          if terminal i then (Returned (answer i), seen)
          else if clock (S i) - clock 0 >? maxWait then (Threw expiry, seen)
          else
            let '(r, rest) := poll_loop fuel' (S i) in
            (r, seen ++ EvSleep interval :: rest)
      end
  end.

(** The [i]-th poll neither fails, nor is terminal, nor finds the wait
    time exceeded: the loop sleeps and polls again. *)
Definition continues (i : nat) : bool :=
  match failed i with
  | Some _ => false
  | None => negb (terminal i) && negb (clock (S i) - clock 0 >? maxWait)
  end.

(** The events of the iterations [i], ..., [i + k - 1] when each of them
    continues *)
Definition rounds (i k : nat) : list Event :=
  flat_map (fun j => [EvRequest request]
                       ++ when onProgress (EvOnProgress (answer j))
                       ++ [EvSleep interval])
           (seq i k).

(** How the loop ends at an iteration that does not continue *)
Definition stop_result (k : nat) : LoopResult :=
  match failed k with
  | Some e => Threw e
  | None => if terminal k then Returned (answer k) else Threw expiry
  end.

Definition stop_events (k : nat) : list Event :=
  match failed k with
  | Some _ => [EvRequest request]
  | None => [EvRequest request] ++ when onProgress (EvOnProgress (answer k))
  end.

End PollShape.

Section WaitShape.

Context (P : Platform) (self : Valyu) (w : World).

Definition wait_failed (taskId : string) (i : nat) : option Exn :=
  let status := status_at self w taskId i in
  if negb (Js.truthy (Js.get status "success"))
  then Some (thrown (Error P (Js.get status "error"))) else None.

Definition wait_terminal (taskId : string) (i : nat) : bool :=
  deepresearch_terminal (status_at self w taskId i).

Definition batch_at (batchId : string) (i : nat) : JsValue :=
  Js.get (batch_status_at self w batchId i) "batch".

Definition batch_failed (batchId : string) (i : nat) : option Exn :=
  let statusResponse := batch_status_at self w batchId i in
  if negb (Js.truthy (Js.get statusResponse "success"))
     || negb (Js.truthy (Js.get statusResponse "batch"))
  then Some (thrown (Error P (Js.or (Js.get statusResponse "error")
                                  (JStr "Failed to get batch status"))))
  else None.

Definition batch_is_terminal (batchId : string) (i : nat) : bool :=
  batch_terminal (batch_at batchId i).

End WaitShape.

Section StreamShape.

Context (P : Platform) (self : Valyu) (w : World)
  (taskId : string) (callback : StreamCallback.t).

(** What one iteration of [stream] shows before it tests for a terminal
    status: the request, the progress callback and the new messages *)
Definition stream_seen (i lastMessageCount : nat) : list Event :=
  let status := status_at self w taskId i in
  [EvRequest (status_request self taskId)]
  ++ when (Js.truthy (Js.get status "progress")
           && StreamCallback.onProgress callback)
       (EvOnStep (Js.get (Js.get status "progress") "current_step")
          (Js.get (Js.get status "progress") "total_steps"))
  ++ (if Js.truthy (Js.get status "messages") && StreamCallback.onMessage callback
      then match Js.get status "messages" with
           | JArr l => EvOnMessage <$> drop lastMessageCount l
           | _ => []
           end
      else []).

(** How [stream] ends at a terminal status: [onComplete] for "completed",
    [onError] for "failed" and "cancelled" *)
Definition stream_finish (i : nat) : LoopResult * list Event :=
  let status := status_at self w taskId i in
  if is_string "completed" (Js.get status "status") then
    (Returned JUndefined, when (StreamCallback.onComplete callback) (EvOnComplete status))
  else
    stream_report P callback []
      (Js.or (Js.get status "error")
         (JStr ("Task " +:+ ToString P (Js.get status "status")))).

(** A status on which [stream] sleeps and polls again *)
Definition stream_continues (i : nat) : bool :=
  let status := status_at self w taskId i in
  Js.truthy (Js.get status "success")
  && messages_ok callback status
  && negb (deepresearch_terminal status).

End StreamShape.

(** ** The answer endpoint: server-sent events *)

Inductive AnswerStreamChunk : Type :=
| ChunkSearchResults (search_results : JsValue)
| ChunkContent (content finish_reason : JsValue)
| ChunkMetadata (tx_id original_query contents search_results search_metadata
                   ai_usage cost extraction_metadata : JsValue)
| ChunkDone
| ChunkError (error : JsValue).

(** How a parsed payload is classified: search results, a content delta
    ([choices]), final metadata, or nothing. *)
Inductive Branch : Type :=
| SearchResultsBranch
| ChoicesBranch
| MetadataBranch
| NoBranch.

Definition LF : ascii := "010".

(** A payload with search results and a [success] field that is there but
    falsy: [!parsed.success] holds and [parsed.success === undefined] does
    not. *)
Definition conflicting (parsed : JsValue) : bool :=
  Js.truthy (Js.get parsed "search_results")
  && negb (Js.is_undefined (Js.get parsed "success"))
  && negb (Js.truthy (Js.get parsed "success")).

(** A response whose body is [body] *)
Definition with_body (response : HttpResponse) (body : Body) : HttpResponse :=
  {| resp_status := resp_status response;
     resp_data := resp_data response;
     resp_content_type := resp_content_type response;
     resp_json := resp_json response;
     resp_body := Some body |}.

(** A server that answers every request with [response], its body cut
    into [chunks] and ended by [failure] *)
Definition serve (response : HttpResponse) (failure : option Exn)
    (chunks : list (list Byte.byte)) : Http :=
  fun _ => HttpOk (with_body response {| body_chunks := chunks; body_error := failure |}).

(** The accumulators of [fetchAnswer] *)
Record Collected : Type := {
  fullContent : string;
  searchResults : list JsValue;
  finalMetadata : JsValue
}.

Definition collected_init : Collected :=
  {| fullContent := ""; searchResults := []; finalMetadata := JObj [] |}.

Section Answer.

Context (P : Platform) (self : Valyu).

(** *** Reading the body *)

(** [decoder.decode(value, { stream: true })] *)
Definition decode (d : decoder_state P) (value : list Byte.byte)
    : decoder_state P * string :=
  foldl (fun acc b =>
           let '(d', s) := decoder_step P acc.1 b in (d', acc.2 +:+ s))
        (d, "") value.

(** The text of a whole body: what the decoder makes of all its bytes *)
Definition body_text (chunks : list (list Byte.byte)) : string :=
  (decode (decoder_init P) (concat chunks)).2.

Section Reader.

Context {S : Type} (on_line : S -> string -> S).

(** One turn of the read loop: append the decoded chunk to the buffer,
    split at line feeds, keep the last piece as the new buffer and
    hand the others to the line handler. *)
Definition read_chunk (state : decoder_state P * string * S) (value : list Byte.byte)
    : decoder_state P * string * S :=
  let '(d, buffer, st) := state in
  let '(d', text) := decode d value in
  let buffer := buffer +:+ text in
  let lines := JsString.split LF buffer in
  (d', List.last lines "", foldl on_line st (removelast lines)).

Definition read_all (st : S) (chunks : list (list Byte.byte)) : S :=
  (foldl read_chunk (decoder_init P, "", st) chunks).2.

End Reader.

(** *** [fetchAnswer] *)

(** The branch of the [if / else if] chain that [fetchAnswer] takes for a
    parsed payload that is neither [null] nor [undefined]. *)
Definition fetch_branch (parsed : JsValue) : Branch :=
  if Js.truthy (Js.get parsed "search_results")
     && negb (Js.truthy (Js.get parsed "success")) then SearchResultsBranch
  else if Js.truthy (Js.get parsed "choices") then ChoicesBranch
  else if negb (Js.is_undefined (Js.get parsed "success")) then MetadataBranch
  else NoBranch.

(** The [try] block applied to a parsed payload; [None] is a thrown
    TypeError, which the [catch] around it swallows. *)
Definition fetch_payload (st : Collected) (parsed : JsValue) : option Collected :=
  if Js.nullish parsed then None
  else match fetch_branch parsed with
  | SearchResultsBranch =>
      items ← Js.spread (Js.get parsed "search_results");
      Some {| fullContent := fullContent st;
              searchResults := searchResults st ++ items;
              finalMetadata := finalMetadata st |}
  | ChoicesBranch =>
      let content :=
        Js.or (Js.opt_get (Js.opt_get (Js.first (Js.get parsed "choices")) "delta") "content")
          (JStr "") in
      if Js.truthy content then
        if stringifiable content then
          Some {| fullContent := fullContent st +:+ ToString P content;
                  searchResults := searchResults st;
                  finalMetadata := finalMetadata st |}
        else None
      else Some st
  | MetadataBranch =>
      Some {| fullContent := fullContent st;
              searchResults := searchResults st;
              finalMetadata := parsed |}
  | NoBranch => Some st
  end.

Definition fetch_line (st : Collected) (line : string) : Collected :=
  if negb (JsString.startsWith "data: " line) then st
  else
    let dataStr := JsString.slice 6 line in
    if String.eqb dataStr "[DONE]" then st
    else match JSON_parse P dataStr with
         | None => st
         | Some parsed => default st (fetch_payload st parsed)
         end.

Definition answer_failure (error : JsValue) : JsValue :=
  JObj [("success", JBool false); ("error", error)].

(** "Build final response" *)
Definition fetch_result (payload : gmap string JsValue) (st : Collected) : JsValue :=
  let fm := finalMetadata st in
  if Js.truthy (Js.get fm "success") then
    JObj ([("success", JBool true);
           ("tx_id", Js.or (Js.get fm "tx_id") (JStr ""));
           ("original_query",
            Js.or (Js.get fm "original_query") (default JUndefined (payload !! "query")));
           ("contents",
            Js.or (Js.or (Js.get fm "contents") (JStr (fullContent st))) (JStr ""));
           ("search_results",
            Js.or (Js.get fm "search_results") (JArr (searchResults st)));
           ("search_metadata",
            Js.or (Js.get fm "search_metadata")
              (JObj [("tx_ids", JArr []); ("number_of_results", num 0);
                     ("total_characters", num 0)]));
           ("ai_usage",
            Js.or (Js.get fm "ai_usage")
              (JObj [("input_tokens", num 0); ("output_tokens", num 0)]));
           ("cost",
            Js.or (Js.get fm "cost")
              (JObj [("total_deduction_dollars", num 0);
                     ("search_deduction_dollars", num 0);
                     ("ai_deduction_dollars", num 0)]))]
          ++ (if Js.truthy (Js.get fm "extraction_metadata")
              then [("extraction_metadata", Js.get fm "extraction_metadata")]
              else []))
  else answer_failure (Js.or (Js.get fm "error") (JStr "Unknown error occurred")).

Definition answer_request (payload : gmap string JsValue) : Request :=
  {| req_method := POST; req_url := baseUrl self +:+ "/answer";
     req_body := Some payload;
     req_headers := <["Accept" := "text/event-stream"]> (headers self) |}.

Definition resp_ok (response : HttpResponse) : bool :=
  (200 <=? resp_status response) && (resp_status response <? 300).

(** [errorData.error || `HTTP Error: ${response.status}`], where
    [errorData] is [await response.json().catch(() => ({}))] *)
Definition http_error (response : HttpResponse) : Op JsValue :=
  let errorData := default (JObj []) (resp_json response) in
  if Js.nullish errorData then OpM.throw (type_error P)
  else mret (Js.or (Js.get errorData "error")
               (JStr ("HTTP Error: " +:+ ToString P (num (resp_status response))))).

(** [e.message || fallback] *)
Definition message_or (e : Exn) (fallback : string) : JsValue :=
  Js.or (JStr (exn_message e)) (JStr fallback).

Definition fetchAnswer (payload : gmap string JsValue) : Op JsValue :=
  OpM.try_catch
    (response ← OpM.axios (answer_request payload);
     if negb (resp_ok response) then
       error ← http_error response;
       mret (answer_failure error)
     else
       match resp_body response with
       | None => mret (fetch_result payload collected_init)
       | Some body =>
           let st := read_all fetch_line collected_init (body_chunks body) in
           match body_error body with
           | Some e => OpM.throw e
           | None => mret (fetch_result payload st)
           end
       end)
    (fun e => mret (answer_failure (message_or e "Request failed"))).

(** *** [streamAnswer] *)

(** The branch that [streamAnswer] takes for the same payload. *)
Definition stream_branch (parsed : JsValue) : Branch :=
  if Js.truthy (Js.get parsed "search_results")
     && Js.is_undefined (Js.get parsed "success") then SearchResultsBranch
  else if Js.truthy (Js.get parsed "choices") then ChoicesBranch
  else if negb (Js.is_undefined (Js.get parsed "success")) then MetadataBranch
  else NoBranch.

(** The chunks that the [try] block yields for a parsed payload; [None]
    is a thrown TypeError. *)
Definition stream_payload (parsed : JsValue) : option (list AnswerStreamChunk) :=
  if Js.nullish parsed then None
  else match stream_branch parsed with
  | SearchResultsBranch => Some [ChunkSearchResults (Js.get parsed "search_results")]
  | ChoicesBranch =>
      let choice := Js.first (Js.get parsed "choices") in
      let delta := Js.or (Js.opt_get choice "delta") (JObj []) in
      let content := Js.or (Js.get delta "content") (JStr "") in
      let finishReason := Js.opt_get choice "finish_reason" in
      if Js.truthy content || Js.truthy finishReason
      then Some [ChunkContent content finishReason]
      else Some []
  | MetadataBranch =>
      Some [ChunkMetadata (Js.get parsed "tx_id") (Js.get parsed "original_query")
              (Js.get parsed "contents") (Js.get parsed "search_results")
              (Js.get parsed "search_metadata") (Js.get parsed "ai_usage")
              (Js.get parsed "cost") (Js.get parsed "extraction_metadata")]
  | NoBranch => Some []
  end.

Definition stream_line (line : string) : list AnswerStreamChunk :=
  if negb (JsString.startsWith "data: " line) then []
  else
    let dataStr := JsString.slice 6 line in
    if String.eqb dataStr "[DONE]" then [ChunkDone]
    else match JSON_parse P dataStr with
         | None => []
         | Some parsed => default [] (stream_payload parsed)
         end.

(** The chunks yielded while reading a body, in order *)
Definition stream_chunks (chunks : list (list Byte.byte)) : list AnswerStreamChunk :=
  read_all (fun yielded line => yielded ++ stream_line line) [] chunks.

(** Everything the generator yields when it is run to its end, and the
    request it issues. *)
Definition streamAnswer (payload : gmap string JsValue) (http : Http)
    : list AnswerStreamChunk * list Request :=
  let req := answer_request payload in
  (match http req with
   | HttpThrow e => [ChunkError (message_or e "Stream failed")]
   | HttpOk response =>
       if negb (resp_ok response) then
         match http_error response http with
         | (Normal error, _) => [ChunkError error]
         | (Throw e, _) => [ChunkError (message_or e "Stream failed")]
         end
       else
         match resp_body response with
         | None => [ChunkError (JStr "No response body")]
         | Some body =>
             stream_chunks (body_chunks body)
             ++ match body_error body with
                | Some e => [ChunkError (message_or e "Stream failed")]
                | None => []
                end
         end
   end, [req]).

(** The concatenation of the [content] fields of the chunks of type
    content; there is none when one of them has no string form. *)
Fixpoint stream_content (chunks : list AnswerStreamChunk) : option string :=
  match chunks with
  | [] => Some ""
  | ChunkContent content _ :: rest =>
      if stringifiable content
      then String.append (ToString P content) <$> stream_content rest
      else None
  | _ :: rest => stream_content rest
  end.

(** The complete lines of a body: the pieces before its last line feed *)
Definition complete_lines (chunks : list (list Byte.byte)) : list string :=
  removelast (JsString.split LF (body_text chunks)).

(** No payload of the given lines is conflicting. *)
Definition unambiguous (lines : list string) : Prop :=
  forall line parsed,
    In line lines ->
    JsString.startsWith "data: " line = true ->
    JSON_parse P (JsString.slice 6 line) = Some parsed ->
    conflicting parsed = false.

(** *** [answer] *)

Definition known_searchType (s : string) : bool :=
  str_in s ["web"; "proprietary"; "all"; "news"].

(** The source-list check of [validateAnswerParams] *)
Definition check_answer_sources (field : string) (arg : option ArrayArg) : option string :=
  match arg with
  | None => None
  | Some NotArray => Some (field +:+ " must be an array")
  | Some (IsArray l) =>
      let validation := validateSources P l in
      if negb validation.1
      then Some ("Invalid " +:+ field +:+ " format. Invalid sources: "
                 +:+ JsString.join ", " validation.2 +:+ ".")
      else None
  end.

Definition first_error (checks : list (option string)) : option string :=
  foldr (fun c rest => match c with Some m => Some m | None => rest end) None checks.

Definition validateAnswerParams (query : string) (options : AnswerOptions.t)
    : option string :=
  first_error
    [ if negb (JsString.nonempty (JsString.trim query))
      then Some "Query is required and must be a non-empty string" else None;
      match JsString.toLowerCase <$> AnswerOptions.searchType options with
      | Some s =>
          if negb (known_searchType s)
          then Some "Invalid searchType provided. Must be one of: all, web, proprietary, news"
          else None
      | None => None
      end;
      match AnswerOptions.systemInstructions options with
      | Some i =>
          let trimmed := JsString.trim i in
          if bool_decide (String.length trimmed = 0%nat)
          then Some "systemInstructions cannot be empty when provided"
          else if (2000 <? String.length trimmed)%nat
          then Some "systemInstructions must be 2000 characters or less"
          else None
      | None => None
      end;
      match AnswerOptions.dataMaxPrice options with
      | Some q => if Qle_bool q 0 then Some "dataMaxPrice must be a positive number" else None
      | None => None
      end;
      if provided_nonempty (AnswerOptions.startDate options)
         && negb (validateDateFormat P (default "" (AnswerOptions.startDate options)))
      then Some "Invalid startDate format. Must be YYYY-MM-DD" else None;
      if provided_nonempty (AnswerOptions.endDate options)
         && negb (validateDateFormat P (default "" (AnswerOptions.endDate options)))
      then Some "Invalid endDate format. Must be YYYY-MM-DD" else None;
      if provided_nonempty (AnswerOptions.startDate options)
         && provided_nonempty (AnswerOptions.endDate options)
      then
        match Date_parse P (default "" (AnswerOptions.startDate options)),
              Date_parse P (default "" (AnswerOptions.endDate options)) with
        | Some a, Some b => if b <? a then Some "startDate must be before endDate" else None
        | _, _ => None
        end
      else None;
      check_answer_sources "includedSources" (AnswerOptions.includedSources options);
      check_answer_sources "excludedSources" (AnswerOptions.excludedSources options) ].

Definition array_value (a : ArrayArg) : JsValue :=
  match a with IsArray l => strings l | NotArray => JUndefined end.

Definition buildAnswerPayload (query : string) (options : AnswerOptions.t)
    : gmap string JsValue :=
  let providedSearchTypeString :=
    JsString.toLowerCase <$> AnswerOptions.searchType options in
  let finalSearchType :=
    match providedSearchTypeString with
    | Some s => if known_searchType s then s else "all"
    | None => "all"
    end in
  let payload : gmap string JsValue :=
    <["search_type" := JStr finalSearchType]>
      (<["query" := JStr (JsString.trim query)]> ∅) in
  let payload := set_opt "data_max_price" (JNum <$> AnswerOptions.dataMaxPrice options) payload in
  let payload := set_opt "structured_output" (AnswerOptions.structuredOutput options) payload in
  let payload := set_opt "system_instructions"
    ((fun i => JStr (JsString.trim i)) <$> AnswerOptions.systemInstructions options) payload in
  let payload := set_opt "country_code" (JStr <$> AnswerOptions.countryCode options) payload in
  let payload := set_opt "included_sources"
    (array_value <$> AnswerOptions.includedSources options) payload in
  let payload := set_opt "excluded_sources"
    (array_value <$> AnswerOptions.excludedSources options) payload in
  let payload := set_opt "start_date" (JStr <$> AnswerOptions.startDate options) payload in
  let payload := set_opt "end_date" (JStr <$> AnswerOptions.endDate options) payload in
  set_opt "fast_mode" (JBool <$> AnswerOptions.fastMode options) payload.

(** [answer] resolves with a response object, or with a generator, here
    given by the chunks it yields when run to its end. *)
Inductive AnswerResult : Type :=
| AnswerObject (response : JsValue)
| AnswerGenerator (chunks : list AnswerStreamChunk).

Definition answer (query : string) (options : AnswerOptions.t) : Op AnswerResult :=
  let streaming := default false (AnswerOptions.streaming options) in
  match validateAnswerParams query options with
  | Some validationError =>
      if streaming then mret (AnswerGenerator [ChunkError (JStr validationError)])
      else mret (AnswerObject (answer_failure (JStr validationError)))
  | None =>
      let payload := buildAnswerPayload query options in
      if streaming then
        fun http =>
          let '(chunks, reqs) := streamAnswer payload http in
          (Normal (AnswerGenerator chunks), reqs)
      else
        response ← fetchAnswer payload;
        mret (AnswerObject response)
  end.

End Answer.

(** ** Conditions and observations

    Conditions on options and calls, and what is read off a trace, as the
    properties state them. *)

(** The date form in words: four digits, a hyphen, two digits, a hyphen
    and two digits, ten characters in all *)
Definition date_shape (s : string) : bool :=
  match s with
  | String y1 (String y2 (String y3 (String y4 (String h1
      (String m1 (String m2 (String h2 (String d1 (String d2 EmptyString))))))))) =>
      RegExp.is_digit y1 && RegExp.is_digit y2 && RegExp.is_digit y3
      && RegExp.is_digit y4 && RegExp.is_char "-" h1
      && RegExp.is_digit m1 && RegExp.is_digit m2 && RegExp.is_char "-" h2
      && RegExp.is_digit d1 && RegExp.is_digit d2
  | _ => false
  end.

(** What [validateAnswerParams] asks of a query and its options, in
    words. *)
Definition answer_params_ok (P : Platform) (query : string) (o : AnswerOptions.t)
    : Prop :=
  JsString.trim query <> ""
  /\ (forall t, AnswerOptions.searchType o = Some t ->
        known_searchType (JsString.toLowerCase t) = true)
  /\ (forall i, AnswerOptions.systemInstructions o = Some i ->
        (1 <= String.length (JsString.trim i) <= 2000)%nat)
  /\ (forall price, AnswerOptions.dataMaxPrice o = Some price -> (0 < price)%Q)
  /\ (forall d, AnswerOptions.startDate o = Some d -> d <> "" ->
        validateDateFormat P d = true)
  /\ (forall d, AnswerOptions.endDate o = Some d -> d <> "" ->
        validateDateFormat P d = true)
  /\ (forall a b ta tb,
        AnswerOptions.startDate o = Some a -> AnswerOptions.endDate o = Some b ->
        a <> "" -> b <> "" ->
        Date_parse P a = Some ta -> Date_parse P b = Some tb -> ta <= tb)
  /\ (forall arg, AnswerOptions.includedSources o = Some arg ->
        exists l, arg = IsArray l /\ Forall (fun s => validateSource P s = true) l)
  /\ (forall arg, AnswerOptions.excludedSources o = Some arg ->
        exists l, arg = IsArray l /\ Forall (fun s => validateSource P s = true) l).

(** The call is [deepresearch.getAssets]. *)
Definition is_getAssets (call : Call) : bool :=
  match call with CallGetAssets _ _ _ => true | _ => false end.

(** A batch task has a query to post: [task.query || task.input] is
    truthy. *)
Definition task_has_query (task : BatchTaskInput.t) : bool :=
  provided_nonempty (BatchTaskInput.query task)
  || provided_nonempty (BatchTaskInput.input task).

(** The operations that resolve with [{ success: true, ...response.data }] *)
Definition spreads_body (call : Call) : bool :=
  match call with
  | CallCreate _ | CallStatus _ | CallUpdate _ _ | CallCancel _ | CallDelete _
  | CallTogglePublic _ _ | CallBatchCreate _ | CallBatchAddTasks _ _
  | CallBatchListTasks _ _ | CallBatchCancel _ => true
  | _ => false
  end.

(** The operations that resolve with [{ success: true, key: response.data }],
    and the key *)
Definition wraps_body (call : Call) : option string :=
  match call with
  | CallList _ => Some "data"
  | CallBatchStatus _ => Some "batch"
  | CallBatchList _ => Some "batches"
  | _ => None
  end.

(** The arguments of the [onMessage] calls of a trace, in order *)
Fixpoint message_calls (events : list Event) : list JsValue :=
  match events with
  | [] => []
  | EvOnMessage message :: rest => message :: message_calls rest
  | _ :: rest => message_calls rest
  end.

(** The errors handed to [onError] in a trace, in order *)
Fixpoint error_calls (events : list Event) : list Exn :=
  match events with
  | [] => []
  | EvOnError e :: rest => e :: error_calls rest
  | _ :: rest => error_calls rest
  end.

(** The chunk is of type error. *)
Definition is_error_chunk (chunk : AnswerStreamChunk) : bool :=
  match chunk with ChunkError _ => true | _ => false end.

(** ** A concrete platform

    The statements below hold for every [Platform].  To evaluate the client
    on concrete inputs, [Sample.platform] implements each service on a
    fragment of its domain: JSON without fractions, exponents and unicode
    escapes; UTF-8 restricted to code points below 256 (anything else is
    rendered as a question mark); dates in the form [YYYY-MM-DD]; URLs
    recognised by their scheme. *)

Module Sample.

Definition digit_value (a : ascii) : option Z :=
  if RegExp.is_digit a then Some (Z.of_nat (nat_of_ascii a) - 48) else None.

Fixpoint digits_value (acc : Z) (s : string) : option Z :=
  match s with
  | EmptyString => Some acc
  | String a s' => d ← digit_value a; digits_value (10 * acc + d) s'
  end.

(** Days since 1970-01-01 of a civil date *)
Definition days_from_civil (y m d : Z) : Z :=
  let y' := if m <=? 2 then y - 1 else y in
  let era := y' / 400 in
  let yoe := y' - era * 400 in
  let doy := (153 * (if 2 <? m then m - 3 else m + 9) + 2) / 5 + d - 1 in
  let doe := yoe * 365 + yoe / 4 - yoe / 100 + doy in
  era * 146097 + doe - 719468.

Definition Date_parse (s : string) : option Z :=
  if RegExp.test dateRegex s then
    y ← digits_value 0 (String.substring 0 4 s);
    m ← digits_value 0 (String.substring 5 2 s);
    d ← digits_value 0 (String.substring 8 2 s);
    if (1 <=? m) && (m <=? 12) && (1 <=? d) && (d <=? 31)
    then Some (days_from_civil y m d * 86400000) else None
  else None.

Definition is_scheme_char (a : ascii) : bool :=
  RegExp.is_alnum a || RegExp.is_char "+" a || RegExp.is_char "-" a
  || RegExp.is_char "." a.

Definition is_alpha (a : ascii) : bool :=
  RegExp.in_range 97 122 a || RegExp.in_range 65 90 a.

(** A letter, scheme characters, a colon, and at least one more character *)
Definition URL_parses (s : string) : bool :=
  RegExp.test
    (RSeq (RClass is_alpha)
       (RSeq (RStar (RClass is_scheme_char))
          (RSeq (RClass (RegExp.is_char ":"))
             (RegExp.plus (RClass (fun _ => true)))))) s.

Definition Number_toString (q : Q) : string :=
  if (Z.pos (Qden q) =? 1) then pretty (Qnum q)
  else pretty (Qnum q) +:+ "/" +:+ pretty (Z.pos (Qden q)).

Definition URLSearchParams_toString (params : list (string * string)) : string :=
  JsString.join "&" ((fun kv => kv.1 +:+ "=" +:+ kv.2) <$> params).

(** *** UTF-8 below U+0100 *)

Definition byte_value (b : Byte.byte) : nat := nat_of_ascii (ascii_of_byte b).

Definition unit (n : nat) : string := String (ascii_of_nat n) EmptyString.

Definition decode_fresh (b : Byte.byte) : option nat * string :=
  let n := byte_value b in
  if (n <? 128)%nat then (None, unit n)
  else if (n =? 194)%nat || (n =? 195)%nat then (Some n, "")
  else (None, "?").

(** The state is the pending lead byte of a two-byte sequence. *)
Definition decoder_step (pending : option nat) (b : Byte.byte) : option nat * string :=
  match pending with
  | None => decode_fresh b
  | Some lead =>
      let n := byte_value b in
      if (128 <=? n)%nat && (n <? 192)%nat
      then (None, unit ((lead - 192) * 64 + (n - 128)))
      else let '(p, s) := decode_fresh b in (p, "?" +:+ s)
  end.

(** *** JSON *)

Definition DQ : ascii := "034".
Definition BS : ascii := "092".

Definition is_ws (a : ascii) : bool :=
  let n := nat_of_ascii a in
  (n =? 32)%nat || (n =? 9)%nat || (n =? 10)%nat || (n =? 13)%nat.

Fixpoint skip_ws (s : string) : string :=
  match s with
  | String a s' => if is_ws a then skip_ws s' else s
  | EmptyString => EmptyString
  end.

Definition unescape (a : ascii) : option ascii :=
  if Ascii.eqb a DQ then Some DQ
  else if Ascii.eqb a BS then Some BS
  else if Ascii.eqb a "/" then Some "/"%char
  else if Ascii.eqb a "n" then Some "010"%char
  else if Ascii.eqb a "r" then Some "013"%char
  else if Ascii.eqb a "t" then Some "009"%char
  else if Ascii.eqb a "b" then Some "008"%char
  else if Ascii.eqb a "f" then Some "012"%char
  else None.

(** After the opening quote: the string and what follows the closing
    quote. *)
Fixpoint string_body (s : string) : option (string * string) :=
  match s with
  | EmptyString => None
  | String a s' =>
      if Ascii.eqb a DQ then Some (EmptyString, s')
      else if Ascii.eqb a BS then
        match s' with
        | String e s'' =>
            c ← unescape e;
            r ← string_body s'';
            Some (String c r.1, r.2)
        | EmptyString => None
        end
      else if (nat_of_ascii a <? 32)%nat then None
      else r ← string_body s'; Some (String a r.1, r.2)
  end.

Fixpoint digits (acc : Z) (s : string) : Z * string :=
  match s with
  | String a s' =>
      match digit_value a with
      | Some d => digits (10 * acc + d) s'
      | None => (acc, s)
      end
  | EmptyString => (acc, s)
  end.

Definition starts_fraction (s : string) : bool :=
  match s with
  | String a _ => RegExp.is_char "." a || RegExp.is_char "e" a || RegExp.is_char "E" a
  | EmptyString => false
  end.

(** An integer literal without a leading zero *)
Definition integer (s : string) : option (Z * string) :=
  match s with
  | String a s' =>
      d ← digit_value a;
      let '(n, rest) := if d =? 0 then (0, s') else digits d s' in
      if starts_fraction rest then None
      else match rest with
           | String b _ => if RegExp.is_digit b then None else Some (n, rest)
           | EmptyString => Some (n, rest)
           end
  | EmptyString => None
  end.

(** [o[k] = v]: replace in place, or add at the end *)
Fixpoint set_field (k : string) (v : JsValue) (fields : list (string * JsValue))
    : list (string * JsValue) :=
  match fields with
  | [] => [(k, v)]
  | (k', v') :: rest =>
      if String.eqb k k' then (k, v) :: rest else (k', v') :: set_field k v rest
  end.

Fixpoint value (fuel : nat) (s : string) : option (JsValue * string) :=
  match fuel with
  | O => None
  | S fuel' =>
      match skip_ws s with
      | String "n" (String "u" (String "l" (String "l" r))) => Some (JNull, r)
      | String "t" (String "r" (String "u" (String "e" r))) => Some (JBool true, r)
      | String "f" (String "a" (String "l" (String "s" (String "e" r)))) =>
          Some (JBool false, r)
      | String "[" r =>
          match skip_ws r with
          | String "]" r' => Some (JArr [], r')
          | _ => p ← elements fuel' r; Some (JArr p.1, p.2)
          end
      | String "{" r =>
          match skip_ws r with
          | String "}" r' => Some (JObj [], r')
          | _ => p ← members fuel' [] r; Some (JObj p.1, p.2)
          end
      | String "-" r => p ← integer r; Some (JNum (inject_Z (- p.1)), p.2)
      | String a r =>
          if Ascii.eqb a DQ then p ← string_body r; Some (JStr p.1, p.2)
          else p ← integer (String a r); Some (JNum (inject_Z p.1), p.2)
      | EmptyString => None
      end
  end
with elements (fuel : nat) (s : string) : option (list JsValue * string) :=
  match fuel with
  | O => None
  | S fuel' =>
      p ← value fuel' s;
      match skip_ws p.2 with
      | String "," r => q ← elements fuel' r; Some (p.1 :: q.1, q.2)
      | String "]" r => Some ([p.1], r)
      | _ => None
      end
  end
with members (fuel : nat) (acc : list (string * JsValue)) (s : string)
    : option (list (string * JsValue) * string) :=
  match fuel with
  | O => None
  | S fuel' =>
      match skip_ws s with
      | String a r =>
          if Ascii.eqb a DQ then
            k ← string_body r;
            match skip_ws k.2 with
            | String ":" r' =>
                p ← value fuel' r';
                let acc := set_field k.1 p.1 acc in
                match skip_ws p.2 with
                | String "," r'' => members fuel' acc r''
                | String "}" r'' => Some (acc, r'')
                | _ => None
                end
            | _ => None
            end
          else None
      | EmptyString => None
      end
  end.

Definition JSON_parse (s : string) : option JsValue :=
  p ← value (2 * String.length s + 2) s;
  match skip_ws p.2 with
  | EmptyString => Some p.1
  | _ => None
  end.

(** JSON text written with apostrophes in place of double quotes *)
Fixpoint json (s : string) : string :=
  match s with
  | EmptyString => EmptyString
  | String a s' => String (if Ascii.eqb a "'" then DQ else a) (json s')
  end.

Fixpoint bytes (s : string) : list Byte.byte :=
  match s with
  | EmptyString => []
  | String a s' => byte_of_ascii a :: bytes s'
  end.

Definition client : Valyu :=
  {| baseUrl := default_baseUrl;
     headers := <["x-api-key" := "sample-key"]>
                  (<["Content-Type" := "application/json"]> ∅) |}.

Definition ok_response (data : JsValue) : HttpResponse :=
  {| resp_status := 200; resp_data := data; resp_content_type := JUndefined;
     resp_json := Some data; resp_body := None |}.

(** A text line followed by a line feed *)
Definition line (s : string) : string := s +:+ String LF EmptyString.

(** A world in which the [i]-th status request is answered with
    [statuses i] and the clock advances by [tick] milliseconds between two
    readings *)
Definition world (statuses : nat -> JsValue) (tick : Z) : World :=
  {| server := fun i _ => HttpOk (ok_response (statuses i));
     now := fun k => tick * Z.of_nat k |}.

Definition task (status : string) : JsValue :=
  JObj [("deepresearch_id", JStr "dr_1"); ("status", JStr status)].

(** [n] statuses "running", then "completed" *)
Definition progressing (n : nat) : nat -> JsValue :=
  fun i => if (i <? n)%nat then task "running" else task "completed".

Definition with_progress : WaitOptions.t :=
  {| WaitOptions.pollInterval := None; WaitOptions.maxWaitTime := None;
     WaitOptions.onProgress := true |}.

(** [n] times the letter a *)
Fixpoint letters (n : nat) : string :=
  match n with
  | O => ""
  | S n' => String "a" (letters n')
  end.

(** Search options with a search type and source lists only *)
Definition sourced (searchType : option string) (included excluded : option ArrayArg)
    : SearchOptions.t :=
  {| SearchOptions.searchType := searchType;
     SearchOptions.maxNumResults := None;
     SearchOptions.maxPrice := None;
     SearchOptions.isToolCall := None;
     SearchOptions.relevanceThreshold := None;
     SearchOptions.includedSources := included;
     SearchOptions.excludeSources := excluded;
     SearchOptions.category := None;
     SearchOptions.startDate := None;
     SearchOptions.endDate := None;
     SearchOptions.countryCode := None;
     SearchOptions.responseLength := None;
     SearchOptions.fastMode := None;
     SearchOptions.urlOnly := None |}.

(** A server that answers every request with [data] *)
Definition answering (data : JsValue) : Http := fun _ => HttpOk (ok_response data).

(** A network that fails every request with [e] *)
Definition failing (e : Exn) : Http := fun _ => HttpThrow e.

Definition all_callbacks : StreamCallback.t :=
  {| StreamCallback.onMessage := true; StreamCallback.onProgress := true;
     StreamCallback.onComplete := true; StreamCallback.onError := true |}.

Definition platform : Platform :=
  Build_Platform URL_parses Date_parse JSON_parse Number_toString
    (option nat) None decoder_step URLSearchParams_toString
    {| exn_message := "Cannot read properties of null";
       exn_response_data := JUndefined |}.

End Sample.

(** * Properties *)

(** ** Strings *)

Lemma append_cons (a : ascii) (s t : string) :
  String a s +:+ t = String a (s +:+ t).
Proof. reflexivity. Qed.

Lemma append_nil_r (s : string) : s +:+ "" = s.
Proof.
  induction s as [|a s IH]; [reflexivity|].
  rewrite append_cons, IH. reflexivity.
Qed.

Lemma append_assoc (s t u : string) : (s +:+ t) +:+ u = s +:+ (t +:+ u).
Proof.
  induction s as [|a s IH]; [reflexivity|].
  rewrite !append_cons, IH. reflexivity.
Qed.

(** ** Splitting at a separator *)

Section SplitFacts.

Variable c : ascii.

Lemma split_not_nil (s : string) : JsString.split c s <> [].
Proof.
  destruct s as [|a s]; simpl; [discriminate|].
  destruct (Ascii.eqb a c); [discriminate|].
  destruct (JsString.split c s); discriminate.
Qed.

Lemma split_cons (a : ascii) (s : string) :
  Ascii.eqb a c = false ->
  exists h t, JsString.split c s = h :: t
              /\ JsString.split c (String a s) = String a h :: t.
Proof.
  intros Ha. simpl. rewrite Ha.
  destruct (JsString.split c s) as [|h t] eqn:E.
  - exfalso. exact (split_not_nil s E).
  - exists h, t. split; reflexivity.
Qed.

(** Appending text re-opens only the last piece. *)
Lemma split_app (s t : string) :
  JsString.split c (s +:+ t)
  = removelast (JsString.split c s)
    ++ JsString.split c (List.last (JsString.split c s) "" +:+ t).
Proof.
  induction s as [|a s IH].
  - reflexivity.
  - destruct (Ascii.eqb a c) eqn:Ha.
    + change (String a s +:+ t) with (String a (s +:+ t)).
      cbn [JsString.split]. rewrite Ha, IH.
      pose proof (split_not_nil s) as Hne.
      destruct (JsString.split c s) as [|h tl] eqn:E; [congruence|].
      reflexivity.
    + destruct (split_cons a s Ha) as (h & tl & E & E').
      rewrite E'. change (String a s +:+ t) with (String a (s +:+ t)).
      destruct (split_cons a (s +:+ t) Ha) as (h' & tl' & F & F').
      rewrite F'. rewrite IH, E in F.
      destruct tl as [|x tl].
      * cbn in F. cbn [removelast List.last app].
        change (String a h +:+ t) with (String a (h +:+ t)).
        destruct (split_cons a (h +:+ t) Ha) as (h2 & tl2 & G & G').
        rewrite G'. congruence.
      * cbn [removelast List.last] in F. cbn [removelast List.last].
        cbn [app] in *. congruence.
Qed.

Abbreviation occurs := (JsString.includes c).

Lemma split_without (s : string) :
  occurs s = false -> JsString.split c s = [s].
Proof.
  induction s as [|a s IH]; simpl; [reflexivity|].
  intros H. apply orb_false_iff in H as [Ha Hs].
  rewrite Ha, (IH Hs). reflexivity.
Qed.

Lemma last_split_without (s : string) :
  occurs (List.last (JsString.split c s) "") = false.
Proof.
  induction s as [|a s IH]; [reflexivity|].
  destruct (Ascii.eqb a c) eqn:Ha.
  - simpl. rewrite Ha.
    pose proof (split_not_nil s) as Hne.
    destruct (JsString.split c s) as [|h tl]; [congruence|]. exact IH.
  - destruct (split_cons a s Ha) as (h & tl & E & E').
    rewrite E'. rewrite E in IH.
    destruct tl as [|x tl]; [|exact IH].
    simpl in *. rewrite Ha. exact IH.
Qed.

Abbreviation terminated := (JsString.terminated c).

Lemma split_line (l rest : string) :
  occurs l = false ->
  JsString.split c (l +:+ String c rest) = l :: JsString.split c rest.
Proof.
  induction l as [|a l IH]; intros H.
  - simpl. rewrite Ascii.eqb_refl. reflexivity.
  - simpl in H. apply orb_false_iff in H as [Ha Hl].
    change (String a l +:+ String c rest) with (String a (l +:+ String c rest)).
    cbn [JsString.split]. rewrite Ha, (IH Hl). reflexivity.
Qed.


End SplitFacts.

Lemma last_app_ne {A} (l l' : list A) (d : A) :
  l' <> [] -> List.last (l ++ l') d = List.last l' d.
Proof.
  intros H. induction l as [|x l IH]; [reflexivity|].
  cbn [app]. destruct (l ++ l') eqn:E.
  - apply app_eq_nil in E as [_ E]. contradiction.
  - exact IH.
Qed.

(** ** Reading a body *)

Section ReaderFacts.

Context (P : Platform).

Lemma decode_from (d : decoder_state P) (out : string) (value : list Byte.byte) :
  foldl (fun acc b =>
           let '(d', s) := decoder_step P acc.1 b in (d', acc.2 +:+ s))
        (d, out) value
  = ((decode P d value).1, out +:+ (decode P d value).2).
Proof.
  unfold decode. revert d out.
  induction value as [|b value IH]; intros d out; simpl.
  - rewrite append_nil_r. reflexivity.
  - destruct (decoder_step P d b) as [d' s] eqn:E.
    rewrite (IH d' (out +:+ s)), (IH d' ("" +:+ s)). simpl.
    rewrite append_assoc. reflexivity.
Qed.

(** Decoding is a stream: the state carries over from chunk to chunk. *)
Lemma decode_app (d : decoder_state P) (a b : list Byte.byte) :
  decode P d (a ++ b)
  = ((decode P (decode P d a).1 b).1,
     (decode P d a).2 +:+ (decode P (decode P d a).1 b).2).
Proof.
  unfold decode at 1. rewrite foldl_app.
  fold (decode P d a). destruct (decode P d a) as [d1 s1] eqn:E.
  apply decode_from.
Qed.

Section Loop.

Context {S : Type} (on_line : S -> string -> S).

Lemma read_loop (chunks : list (list Byte.byte))
    (d : decoder_state P) (buffer : string) (st : S) :
  JsString.includes LF buffer = false ->
  foldl (read_chunk P on_line) (d, buffer, st) chunks
  = let text := (decode P d (concat chunks)).2 in
    let lines := JsString.split LF (buffer +:+ text) in
    ((decode P d (concat chunks)).1, List.last lines "",
     foldl on_line st (removelast lines)).
Proof.
  revert d buffer st.
  induction chunks as [|value chunks IH]; intros d buffer st Hb.
  - cbn. rewrite append_nil_r, (split_without LF buffer Hb). reflexivity.
  - cbn [foldl concat]. unfold read_chunk at 2.
    destruct (decode P d value) as [d1 text1] eqn:E1.
    rewrite IH by apply last_split_without.
    rewrite decode_app, E1. cbn [fst snd].
    destruct (decode P d1 (concat chunks)) as [d2 text2] eqn:E2.
    cbn [fst snd]. cbv zeta.
    rewrite <- append_assoc, (split_app LF (buffer +:+ text1) text2).
    pose proof (split_not_nil LF
      (List.last (JsString.split LF (buffer +:+ text1)) "" +:+ text2)) as Hne.
    destruct (JsString.split LF
      (List.last (JsString.split LF (buffer +:+ text1)) "" +:+ text2))
      as [|x rest] eqn:E3; [congruence|].
    rewrite last_app_ne, removelast_app, foldl_app by discriminate.
    reflexivity.
Qed.

(** The handler sees the pieces before the last line feed of the whole
    text, in order, however the body was cut into chunks. *)
Lemma read_all_lines (st : S) (chunks : list (list Byte.byte)) :
  read_all P on_line st chunks
  = foldl on_line st (removelast (JsString.split LF (body_text P chunks))).
Proof.
  unfold read_all. rewrite read_loop by reflexivity. reflexivity.
Qed.

End Loop.

Lemma foldl_yield {A B} (f : A -> list B) (acc : list B) (l : list A) :
  foldl (fun yielded x => yielded ++ f x) acc l = acc ++ flat_map f l.
Proof.
  revert acc. induction l as [|x l IH]; intros acc; simpl.
  - rewrite app_nil_r. reflexivity.
  - rewrite IH, <- app_assoc. reflexivity.
Qed.


End ReaderFacts.

(** ** The answer endpoint *)

Lemma http_error_with_body (P : Platform) (response : HttpResponse)
    (body : Body) (http http' : Http) :
  http_error P (with_body response body) http = http_error P response http'.
Proof.
  unfold http_error. cbn [with_body resp_json resp_status].
  destruct (Js.nullish _); reflexivity.
Qed.

(** C2. Reassembly of the event stream does not depend on how the response
    body is cut into chunks: two bodies with the same bytes make
    [streamAnswer] yield the same chunks and [fetchAnswer] resolve with the
    same response. *)
Theorem sse_chunking_invariant (P : Platform) (self : Valyu)
    (payload : gmap string JsValue) (response : HttpResponse)
    (failure : option Exn) (chunks1 chunks2 : list (list Byte.byte)) :
  concat chunks1 = concat chunks2 ->
  streamAnswer P self payload (serve response failure chunks1)
  = streamAnswer P self payload (serve response failure chunks2)
  /\ fetchAnswer P self payload (serve response failure chunks1)
     = fetchAnswer P self payload (serve response failure chunks2).
Proof.
  intros Hbytes.
  assert (Htext : body_text P chunks1 = body_text P chunks2)
    by (unfold body_text; rewrite Hbytes; reflexivity).
  split.
  - unfold streamAnswer, serve, stream_chunks.
    rewrite (http_error_with_body P response _ _ (fun _ => HttpOk response)).
    rewrite (http_error_with_body P response _ _ (fun _ => HttpOk response)).
    cbn [with_body resp_body body_chunks body_error].
    rewrite !read_all_lines, Htext. reflexivity.
  - unfold fetchAnswer, OpM.try_catch, mbind, op_bind, OpM.bind, OpM.axios, serve.
    change (resp_ok (with_body response _)) with (resp_ok response).
    destruct (resp_ok response); cbn [negb]; cbn beta.
    + cbn [with_body resp_body body_chunks body_error].
      rewrite !read_all_lines, Htext. destruct failure; reflexivity.
    + rewrite (http_error_with_body P response _ _ (fun _ => HttpOk response)).
      rewrite (http_error_with_body P response _ _ (fun _ => HttpOk response)).
      reflexivity.
Qed.

Lemma sse_chunking_invariant_witness :
  let whole := [Sample.bytes (Sample.line (Sample.json "data: {'choices':[{'delta':{'content':'Hi'}}]}"))] in
  let cut := [Sample.bytes "data: {"; Sample.bytes (Sample.line (Sample.json "'choices':[{'delta':{'content':'Hi'}}]}"))] in
  concat whole = concat cut
  /\ streamAnswer Sample.platform Sample.client ∅
       (serve (Sample.ok_response JNull) None whole)
     = streamAnswer Sample.platform Sample.client ∅
         (serve (Sample.ok_response JNull) None cut).
Proof.
  split; [reflexivity|].
  apply (sse_chunking_invariant Sample.platform Sample.client ∅
           (Sample.ok_response JNull) None). reflexivity.
Defined.

Lemma stream_chunks_lines (P : Platform) (chunks : list (list Byte.byte)) :
  stream_chunks P chunks
  = flat_map (stream_line P)
      (removelast (JsString.split LF (body_text P chunks))).
Proof.
  unfold stream_chunks. rewrite read_all_lines. apply (foldl_yield _ []).
Qed.

Lemma or_falsy (a : JsValue) (s : string) :
  Js.truthy (Js.or a (JStr s)) = false -> Js.or a (JStr s) = JStr s.
Proof. unfold Js.or. destruct (Js.truthy a) eqn:E; congruence. Qed.

(** Both readers take the same [content] out of a [choices] payload. *)
Lemma delta_content (choice : JsValue) :
  Js.opt_get (Js.opt_get choice "delta") "content"
  = Js.get (Js.or (Js.opt_get choice "delta") (JObj [])) "content".
Proof.
  unfold Js.or. destruct (Js.opt_get choice "delta") as [| |[]|q|s|l|f]; try reflexivity.
  - cbn. destruct (Qnum q =? 0); reflexivity.
  - destruct s; reflexivity.
Qed.



(** *** The two readers side by side *)

Section Agreement.

Context (P : Platform).

Lemma branches_agree (parsed : JsValue) :
  conflicting parsed = false -> fetch_branch parsed = stream_branch parsed.
Proof.
  unfold conflicting, fetch_branch, stream_branch.
  destruct (Js.truthy (Js.get parsed "search_results")); [|reflexivity].
  destruct (Js.get parsed "success") as [| |[]|q|s|l|f]; cbn; try reflexivity;
    try discriminate.
  - destruct (Qnum q =? 0); cbn; [discriminate | reflexivity].
  - destruct s; cbn; [discriminate | reflexivity].
Qed.

Lemma branches_differ (parsed : JsValue) :
  conflicting parsed = true ->
  fetch_branch parsed = SearchResultsBranch
  /\ stream_branch parsed <> SearchResultsBranch.
Proof.
  unfold conflicting, fetch_branch, stream_branch. intros H.
  apply andb_true_iff in H as [H Hfalsy].
  apply andb_true_iff in H as [Hsr Hdef].
  rewrite Hsr, Hfalsy. cbn [andb]. split; [reflexivity|].
  apply negb_true_iff in Hdef. rewrite Hdef.
  destruct (Js.truthy (Js.get parsed "choices")); [discriminate|].
  cbn [negb]. discriminate.
Qed.

Lemma payload_content (st : Collected) (parsed : JsValue) (s : string) :
  conflicting parsed = false ->
  stream_content P (default [] (stream_payload parsed)) = Some s ->
  fullContent (default st (fetch_payload P st parsed)) = fullContent st +:+ s.
Proof.
  intros Hc. unfold fetch_payload, stream_payload.
  destruct (Js.nullish parsed).
  { intros [= <-]. symmetry. apply append_nil_r. }
  rewrite (branches_agree parsed Hc).
  destruct (stream_branch parsed);
    cbn [default from_option id stream_content fullContent].
  - intros [= <-]. destruct (Js.spread _); cbn; symmetry; apply append_nil_r.
  - rewrite delta_content.
    set (content := Js.or (Js.get _ "content") (JStr "")).
    assert (Hfalsy : Js.truthy content = false -> content = JStr "")
      by apply or_falsy.
    clearbody content.
    destruct (Js.truthy content) eqn:Et;
      cbn [orb default from_option id stream_content fullContent].
    + destruct (stringifiable content); [|discriminate].
      cbn [fmap option_fmap option_map default from_option id fullContent].
      intros [= <-]. rewrite append_nil_r. reflexivity.
    + rewrite (Hfalsy eq_refl).
      destruct (Js.truthy (Js.opt_get _ "finish_reason"));
        cbn; intros [= <-]; symmetry; apply append_nil_r.
  - intros [= <-]. symmetry. apply append_nil_r.
  - intros [= <-]. symmetry. apply append_nil_r.
Qed.

Lemma line_content (st : Collected) (line s : string) :
  (forall parsed,
      JsString.startsWith "data: " line = true ->
      JSON_parse P (JsString.slice 6 line) = Some parsed ->
      conflicting parsed = false) ->
  stream_content P (stream_line P line) = Some s ->
  fullContent (fetch_line P st line) = fullContent st +:+ s.
Proof.
  intros H. unfold fetch_line, stream_line.
  destruct (JsString.startsWith "data: " line); cbn [negb].
  2: { intros [= <-]. symmetry. apply append_nil_r. }
  destruct (String.eqb _ "[DONE]").
  { intros [= <-]. symmetry. apply append_nil_r. }
  destruct (JSON_parse P _) as [parsed|].
  2: { intros [= <-]. symmetry. apply append_nil_r. }
  apply payload_content, H; reflexivity.
Qed.

(** The contents of two runs of chunks concatenate when each does. *)
Lemma stream_content_app (a b : list AnswerStreamChunk) (s : string) :
  stream_content P (a ++ b) = Some s ->
  exists sa sb,
    stream_content P a = Some sa /\ stream_content P b = Some sb
    /\ s = sa +:+ sb.
Proof.
  revert s. induction a as [|x a IH]; intros s H.
  - exists "", s. split; [reflexivity|]. split; [exact H | reflexivity].
  - destruct x; cbn [app stream_content] in *; try (apply IH; exact H).
    destruct (stringifiable content); [|discriminate].
    destruct (stream_content P (a ++ b)) as [rest|] eqn:E; [|discriminate].
    injection H as <-.
    destruct (IH rest eq_refl) as (sa & sb & -> & Hb & ->).
    exists (ToString P content +:+ sa), sb.
    split; [reflexivity|]. split; [exact Hb|].
    symmetry. apply append_assoc.
Qed.

Lemma lines_content (lines : list string) (st : Collected) (s : string) :
  unambiguous P lines ->
  stream_content P (flat_map (stream_line P) lines) = Some s ->
  fullContent (foldl (fetch_line P) st lines) = fullContent st +:+ s.
Proof.
  revert st s. induction lines as [|line lines IH]; intros st s H Hs.
  - injection Hs as <-. symmetry. apply append_nil_r.
  - cbn [foldl flat_map] in *.
    destruct (stream_content_app _ _ _ Hs) as (sa & sb & Ha & Hb & ->).
    rewrite (IH _ sb), (line_content st line sa), append_assoc.
    + reflexivity.
    + intros parsed Hstart Hp. apply (H line parsed); [left; reflexivity | | ]; assumption.
    + exact Ha.
    + intros l parsed Hin. apply H. right. exact Hin.
    + exact Hb.
Qed.

End Agreement.

(** X23. [fetchAnswer] and [streamAnswer] classify a
    parsed payload in the same way unless it carries search results
    together with a [success] field that is present but falsy; such a
    payload is search results for [fetchAnswer] and a content delta or
    final metadata for [streamAnswer]. For a body none of whose complete
    lines carries such a payload, the content that [fetchAnswer] collects
    is the concatenation of the [content] fields of the content chunks
    that [streamAnswer] yields (whenever these have a string form, as the
    strings of the protocol do), and it is the [contents] of the final
    response when the final metadata has no [contents]. *)
Theorem answer_paths_agree (P : Platform) :
  (forall parsed,
      conflicting parsed = false -> fetch_branch parsed = stream_branch parsed)
  /\ (forall parsed,
        conflicting parsed = true ->
        fetch_branch parsed = SearchResultsBranch
        /\ stream_branch parsed <> SearchResultsBranch)
  /\ (forall chunks s,
        unambiguous P (complete_lines P chunks) ->
        stream_content P (stream_chunks P chunks) = Some s ->
        fullContent (read_all P (fetch_line P) collected_init chunks) = s)
  /\ (forall payload st,
        Js.truthy (Js.get (finalMetadata st) "success") = true ->
        Js.truthy (Js.get (finalMetadata st) "contents") = false ->
        Js.get (fetch_result payload st) "contents" = JStr (fullContent st)).
Proof.
  split; [exact branches_agree|].
  split; [exact branches_differ|].
  split.
  - intros chunks s H Hs. unfold complete_lines in H.
    rewrite stream_chunks_lines in Hs. rewrite read_all_lines.
    rewrite (lines_content P _ collected_init s H Hs). reflexivity.
  - intros payload st Hs Hc. unfold fetch_result. rewrite Hs.
    cbn [Js.get Js.assoc String.eqb Ascii.eqb Bool.eqb app].
    unfold Js.or. rewrite Hc. cbn [Js.truthy].
    destruct (fullContent st); reflexivity.
Qed.

Lemma answer_paths_agree_witness :
  let body :=
    [Sample.bytes (Sample.line (Sample.json "data: {'choices':[{'delta':{'content':'Hel'}}]}"));
     Sample.bytes (Sample.line (Sample.json "data: {'choices':[{'delta':{'content':'lo'}}]}"));
     Sample.bytes (Sample.line (Sample.json "data: {'success':true,'tx_id':'t1'}"))] in
  stream_content Sample.platform (stream_chunks Sample.platform body) = Some "Hello"
  /\ fullContent (read_all Sample.platform (fetch_line Sample.platform) collected_init body)
     = "Hello".
Proof.
  intros body. split; [reflexivity|].
  apply (proj1 (proj2 (proj2 (answer_paths_agree Sample.platform)))); [|reflexivity].
  intros line parsed Hin _ Hparse.
  vm_compute in Hin.
  destruct Hin as [<-|[<-|[<-|[]]]]; vm_compute in Hparse;
    injection Hparse as <-; reflexivity.
Defined.

(** C6. The two paths do not agree on every stream: [fetchAnswer] tests
    [!parsed.success] where [streamAnswer] tests
    [parsed.success === undefined]. The payload below has search results
    and [success: false]: [fetchAnswer] appends the search results and
    drops the content delta, [streamAnswer] yields the content. After the
    final metadata, the response of [fetchAnswer] has empty [contents]
    while the content chunks of [streamAnswer] concatenate to ["x"]. *)
Lemma answer_paths_disagree :
  let text :=
    Sample.json "{'search_results':['r'],'success':false,'choices':[{'delta':{'content':'x'}}]}" in
  let body :=
    [Sample.bytes (Sample.line ("data: " +:+ text));
     Sample.bytes (Sample.line (Sample.json "data: {'success':true}"))] in
  (exists parsed,
      JSON_parse Sample.platform text = Some parsed
      /\ fetch_branch parsed = SearchResultsBranch
      /\ stream_branch parsed = ChoicesBranch)
  /\ (exists response,
        completion (fetchAnswer Sample.platform Sample.client ∅
                      (serve (Sample.ok_response JNull) None body))
        = Normal response
        /\ Js.get response "success" = JBool true
        /\ Js.get response "contents" = JStr "")
  /\ stream_content Sample.platform
       (streamAnswer Sample.platform Sample.client ∅
          (serve (Sample.ok_response JNull) None body)).1 = Some "x".
Proof.
  split; [|split].
  - eexists. split; [vm_compute; reflexivity|]. split; reflexivity.
  - eexists. split; [vm_compute; reflexivity|]. split; reflexivity.
  - vm_compute. reflexivity.
Qed.

(** ** Polling *)

Section PollingFacts.

Context (P : Platform) (self : Valyu) (w : World).

Lemma status_call (taskId : string) (i : nat) :
  _deepresearchStatus self taskId (server w i)
  = (Normal (status_at self w taskId i), [status_request self taskId]).
Proof.
  unfold status_at, completion, _deepresearchStatus, OpM.try_catch, mbind,
    op_bind, OpM.bind, OpM.axios, status_request.
  destruct (server w i _); reflexivity.
Qed.

Lemma batch_call (batchId : string) (i : nat) :
  _batchStatus self batchId (server w i)
  = (Normal (batch_status_at self w batchId i), [batch_request self batchId]).
Proof.
  unfold batch_status_at, completion, _batchStatus, OpM.try_catch, mbind,
    op_bind, OpM.bind, OpM.axios, batch_request.
  destruct (server w i _); reflexivity.
Qed.

Lemma polls_app (a b : list Event) : polls (a ++ b) = (polls a + polls b)%nat.
Proof.
  induction a as [|e a IH]; [reflexivity|].
  destruct e; cbn [app polls]; rewrite IH; reflexivity.
Qed.

Lemma progress_calls_app (a b : list Event) :
  progress_calls (a ++ b) = progress_calls a ++ progress_calls b.
Proof.
  induction a as [|e a IH]; [reflexivity|].
  destruct e; cbn [app progress_calls]; rewrite IH; reflexivity.
Qed.

Lemma sleeps_app (a b : list Event) : sleeps (a ++ b) = sleeps a ++ sleeps b.
Proof.
  induction a as [|e a IH]; [reflexivity|].
  destruct e; cbn [app sleeps]; rewrite IH; reflexivity.
Qed.

Lemma wait_loop_shape (taskId : string) (options : WaitOptions.t) (fuel i : nat) :
  wait_loop P self w taskId options fuel i
  = poll_loop (status_request self taskId) (status_at self w taskId)
      (wait_failed P self w taskId) (wait_terminal self w taskId) (now w)
      (wait_pollInterval options) (wait_maxWaitTime options)
      (WaitOptions.onProgress options) (timeout_error P) fuel i.
Proof.
  revert i. induction fuel as [|fuel IH]; intros i; [reflexivity|].
  cbn [wait_loop poll_loop]. rewrite status_call.
  unfold wait_failed, wait_terminal.
  destruct (negb (Js.truthy _)); [reflexivity|].
  cbn [fmap list_fmap].
  destruct (deepresearch_terminal _); [reflexivity|].
  destruct (_ >? _); [reflexivity|].
  rewrite IH. reflexivity.
Qed.

Lemma batch_loop_shape (batchId : string) (options : WaitOptions.t) (fuel i : nat) :
  batch_loop P self w batchId options fuel i
  = poll_loop (batch_request self batchId) (batch_at self w batchId)
      (batch_failed P self w batchId) (batch_is_terminal self w batchId) (now w)
      (batch_pollInterval options) (batch_maxWaitTime options)
      (WaitOptions.onProgress options) (timeout_error P) fuel i.
Proof.
  revert i. induction fuel as [|fuel IH]; intros i; [reflexivity|].
  cbn [batch_loop poll_loop]. rewrite batch_call.
  unfold batch_failed, batch_is_terminal, batch_at.
  destruct (negb (Js.truthy _) || negb (Js.truthy _)); [reflexivity|].
  cbn [fmap list_fmap].
  destruct (batch_terminal _); [reflexivity|].
  destruct (_ >? _); [reflexivity|].
  rewrite IH. reflexivity.
Qed.

End PollingFacts.

Section PollShapeFacts.

Context (request : Request) (answer : nat -> JsValue)
  (failed : nat -> option Exn) (terminal : nat -> bool)
  (clock : nat -> Z) (interval maxWait : Z) (onProgress : bool)
  (expiry : Exn).

Local Abbreviation loop :=
  (poll_loop request answer failed terminal clock interval maxWait onProgress expiry).
Local Abbreviation goes_on := (continues failed terminal clock maxWait).
Local Abbreviation laps := (rounds request answer interval onProgress).
Local Abbreviation last_result := (stop_result answer failed terminal expiry).
Local Abbreviation last_events := (stop_events request answer failed onProgress).

Lemma poll_step (fuel i : nat) :
  goes_on i = true ->
  loop (S fuel) i
  = ((loop fuel (S i)).1, laps i 1 ++ (loop fuel (S i)).2).
Proof.
  unfold continues. cbn [poll_loop]. intros H.
  destruct (failed i); [discriminate|].
  apply andb_true_iff in H as [Ht Hc].
  apply negb_true_iff in Ht, Hc. rewrite Ht, Hc.
  destruct (loop fuel (S i)) as [r rest].
  cbn [fst snd rounds seq flat_map]. rewrite app_nil_r, <- !app_assoc.
  reflexivity.
Qed.

Lemma rounds_S (i k : nat) : laps i (S k) = laps i 1 ++ laps (S i) k.
Proof. unfold rounds. cbn [seq flat_map]. rewrite app_nil_r. reflexivity. Qed.

Lemma poll_run (k : nat) : forall i fuel,
  (forall j, (i <= j < i + k)%nat -> goes_on j = true) ->
  loop (k + fuel) i
  = ((loop fuel (i + k)).1, laps i k ++ (loop fuel (i + k)).2).
Proof.
  induction k as [|k IH]; intros i fuel H.
  - rewrite Nat.add_0_r. cbn [Nat.add rounds seq flat_map app].
    destruct (loop fuel i); reflexivity.
  - cbn [Nat.add]. rewrite poll_step by (apply H; lia).
    rewrite IH by (intros j Hj; apply H; lia).
    replace (S i + k)%nat with (i + S k)%nat by lia.
    cbn [fst snd]. rewrite (rounds_S i k), <- app_assoc. reflexivity.
Qed.

Lemma poll_stop (fuel k : nat) :
  goes_on k = false ->
  loop (S fuel) k = (last_result k, last_events k).
Proof.
  unfold continues, stop_result, stop_events. cbn [poll_loop]. intros H.
  destruct (failed k); [reflexivity|].
  destruct (terminal k); [reflexivity|].
  cbn [negb andb] in H. apply negb_false_iff in H. rewrite H. reflexivity.
Qed.

(** The loop stops at the first iteration that does not continue. *)
Lemma poll_stops (k fuel : nat) :
  (forall j, (j < k)%nat -> goes_on j = true) ->
  goes_on k = false ->
  (k < fuel)%nat ->
  loop fuel 0 = (last_result k, laps 0 k ++ last_events k).
Proof.
  intros Hbefore Hk Hfuel.
  replace fuel with (k + S (fuel - S k))%nat by lia.
  rewrite poll_run by (intros j Hj; apply Hbefore; lia).
  cbn [Nat.add]. rewrite poll_stop by exact Hk. reflexivity.
Qed.

(** While every iteration continues, the loop is still polling. *)
Lemma poll_goes_on (fuel : nat) :
  (forall j, (j < fuel)%nat -> goes_on j = true) ->
  loop fuel 0 = (Polling, laps 0 fuel).
Proof.
  intros H. replace fuel with (fuel + 0)%nat at 1 by lia.
  rewrite poll_run by (intros j Hj; apply H; lia).
  cbn [poll_loop fst snd]. rewrite app_nil_r. reflexivity.
Qed.

Lemma polls_rounds (i k : nat) : polls (laps i k) = k.
Proof.
  revert i. induction k as [|k IH]; intros i; [reflexivity|].
  rewrite (rounds_S i k), polls_app, IH. unfold rounds. cbn [seq flat_map].
  destruct onProgress; reflexivity.
Qed.

Lemma sleeps_rounds (i k : nat) : sleeps (laps i k) = repeat interval k.
Proof.
  revert i. induction k as [|k IH]; intros i; [reflexivity|].
  rewrite (rounds_S i k), sleeps_app, IH. unfold rounds. cbn [seq flat_map].
  destruct onProgress; reflexivity.
Qed.

Lemma progress_rounds (i k : nat) :
  progress_calls (laps i k) = if onProgress then answer <$> seq i k else [].
Proof.
  revert i. induction k as [|k IH]; intros i.
  - destruct onProgress; reflexivity.
  - rewrite (rounds_S i k), progress_calls_app, IH. unfold rounds. cbn [seq flat_map].
    destruct onProgress; reflexivity.
Qed.

Lemma polls_stop_events (k : nat) : polls (last_events k) = 1%nat.
Proof.
  unfold stop_events. destruct (failed k); [reflexivity|].
  destruct onProgress; reflexivity.
Qed.

Lemma sleeps_stop_events (k : nat) : sleeps (last_events k) = [].
Proof.
  unfold stop_events. destruct (failed k); [reflexivity|].
  destruct onProgress; reflexivity.
Qed.

Lemma progress_stop_events (k : nat) :
  progress_calls (last_events k)
  = if onProgress then match failed k with Some _ => [] | None => [answer k] end
    else [].
Proof.
  unfold stop_events. destruct (failed k); destruct onProgress; reflexivity.
Qed.

(** Below a bound, either every iteration continues or there is a first
    one that does not. *)
Lemma first_stop (n : nat) :
  (forall j, (j < n)%nat -> goes_on j = true)
  \/ exists k, (k < n)%nat /\ goes_on k = false
               /\ forall j, (j < k)%nat -> goes_on j = true.
Proof.
  induction n as [|n [IH|(k & Hk & Hstop & Hbefore)]].
  - left. intros j Hj. lia.
  - destruct (goes_on n) eqn:E.
    + left. intros j Hj. destruct (decide (j = n)) as [->|]; [exact E|].
      apply IH. lia.
    + right. exists n. split; [lia|]. split; [exact E | exact IH].
  - right. exists k. split; [lia|]. split; assumption.
Qed.

(** With a clock that advances by at least [step] per iteration, the wait
    time is exceeded after [maxWait / step] iterations at the latest. *)
Lemma clock_expires (step : Z) :
  0 < step ->
  (forall i, clock i + step <= clock (S i)) ->
  (clock (S (Z.to_nat (maxWait / step))) - clock 0 >? maxWait) = true.
Proof.
  intros Hstep Hclock.
  assert (Hadv : forall i, clock 0 + Z.of_nat i * step <= clock i).
  { induction i as [|i IH]; [lia|]. specialize (Hclock i).
    rewrite Nat2Z.inj_succ, Z.mul_succ_l. lia. }
  specialize (Hadv (S (Z.to_nat (maxWait / step)))).
  apply Z.gtb_lt.
  destruct (Z.le_gt_cases 0 maxWait) as [Hpos|Hneg].
  - pose proof (Z.div_pos maxWait step Hpos Hstep) as Hq.
    pose proof (Z.mul_succ_div_gt maxWait step Hstep) as Hlt.
    rewrite Nat2Z.inj_succ, Z2Nat.id in Hadv by exact Hq. nia.
  - assert (Hq : maxWait / step < 0) by (apply Z.div_lt_upper_bound; lia).
    rewrite (Z2Nat.nonpos (maxWait / step)) in Hadv |- * by lia.
    cbn in Hadv. lia.
Qed.

(** Hence the loop stops within [maxWait / step + 1] polls. *)
Lemma poll_bounded (step : Z) (fuel : nat) :
  0 < step ->
  (forall i, clock i + step <= clock (S i)) ->
  (Z.to_nat (maxWait / step) < fuel)%nat ->
  exists k, (k <= Z.to_nat (maxWait / step))%nat
            /\ goes_on k = false
            /\ (forall j, (j < k)%nat -> goes_on j = true)
            /\ loop fuel 0 = (last_result k, laps 0 k ++ last_events k).
Proof.
  intros Hstep Hclock Hfuel.
  destruct (first_stop (S (Z.to_nat (maxWait / step))))
    as [Hall|(k & Hk & Hstop & Hbefore)].
  - exfalso. specialize (Hall (Z.to_nat (maxWait / step)) ltac:(lia)).
    unfold continues in Hall. rewrite (clock_expires step Hstep Hclock) in Hall.
    destruct (failed _); [discriminate|].
    rewrite andb_false_r in Hall. discriminate.
  - exists k. split; [lia|]. split; [exact Hstop|]. split; [exact Hbefore|].
    apply poll_stops; [exact Hbefore | exact Hstop | lia].
Qed.

End PollShapeFacts.

Section WaitFacts.

Context (P : Platform) (self : Valyu) (w : World)
  (taskId : string) (options : WaitOptions.t).

Local Abbreviation status := (status_at self w taskId).
Local Abbreviation ok := (fun i => Js.truthy (Js.get (status i) "success")).
Local Abbreviation expired :=
  (fun i => now w (S i) - now w 0 >? wait_maxWaitTime options).
Local Abbreviation goes_on :=
  (continues (wait_failed P self w taskId) (wait_terminal self w taskId)
     (now w) (wait_maxWaitTime options)).

Lemma wait_continues (i : nat) :
  goes_on i = ok i && negb (deepresearch_terminal (status i)) && negb (expired i).
Proof.
  unfold continues, wait_failed, wait_terminal.
  destruct (Js.truthy _); reflexivity.
Qed.

Lemma wait_goes_on_before (k : nat) :
  (forall j, (j < k)%nat ->
     ok j = true /\ deepresearch_terminal (status j) = false
     /\ expired j = false) ->
  forall j, (j < k)%nat -> goes_on j = true.
Proof.
  intros H j Hj. destruct (H j Hj) as (Hok & Ht & He).
  rewrite wait_continues, Hok, Ht, He. reflexivity.
Qed.

(** C3, as the code has it. [wait] polls the statuses in order up to the
    first that ends the wait; let the statuses before the [k]-th not end
    it: each is successful and not terminal, and the wait time is not
    exceeded after it. Then the [k]-th status is polled and decides:
    if it is unsuccessful, [wait] throws what [new Error(status.error)]
    gives, an Error whose message is the [error] when that is a string,
    and [onProgress] was called with the statuses before it only, in
    order; if it is successful and terminal (it is then the first such
    status), [wait] returns it, and [onProgress] was called once with each
    status up to it, in order; if it is successful and not terminal,
    [wait] polls again when the elapsed time is within the wait time, and
    throws "Maximum wait time exceeded" when it is not, [onProgress]
    having been called once with each status up to the [k]-th. *)
Theorem wait_returns_first_terminal (k fuel : nat) :
  (forall j, (j < k)%nat ->
     ok j = true /\ deepresearch_terminal (status j) = false
     /\ expired j = false) ->
  (k < fuel)%nat ->
  let run := _deepresearchWait P self w taskId options fuel in
  (ok k = false ->
     run.1 = Threw (thrown (Error P (Js.get (status k) "error")))
     /\ (forall message,
           Js.get (status k) "error" = JStr message ->
           run.1 = Threw {| exn_message := message; exn_response_data := JUndefined |})
     /\ progress_calls run.2
        = (if WaitOptions.onProgress options then status <$> seq 0 k else [])
     /\ polls run.2 = S k)
  /\ (ok k = true -> deepresearch_terminal (status k) = true ->
        run.1 = Returned (status k)
        /\ progress_calls run.2
           = (if WaitOptions.onProgress options then status <$> seq 0 (S k) else [])
        /\ polls run.2 = S k)
  /\ (ok k = true -> deepresearch_terminal (status k) = false ->
        expired k = false -> (S k < fuel)%nat ->
        (S k < polls run.2)%nat)
  /\ (ok k = true -> deepresearch_terminal (status k) = false ->
        expired k = true ->
        run.1 = Threw {| exn_message := "Maximum wait time exceeded";
                         exn_response_data := JUndefined |}
        /\ progress_calls run.2
           = (if WaitOptions.onProgress options then status <$> seq 0 (S k) else [])
        /\ polls run.2 = S k).
Proof.
  intros Hbefore Hfuel run. subst run. unfold _deepresearchWait.
  rewrite wait_loop_shape.
  pose proof (wait_goes_on_before k Hbefore) as Hgo.
  split; [|split; [|split]]; cycle 3.
  - intros Hk Hterm Hexp.
    assert (Hstop : goes_on k = false)
      by (rewrite wait_continues, Hk, Hterm, Hexp; reflexivity).
    rewrite (poll_stops _ _ _ _ _ _ _ _ _ k fuel Hgo Hstop Hfuel).
    cbn [fst snd].
    rewrite progress_calls_app, progress_rounds, progress_stop_events,
      polls_app, polls_rounds, polls_stop_events.
    unfold stop_result, wait_failed, wait_terminal. rewrite Hk, Hterm. cbn [negb].
    split; [reflexivity|]. split; [|lia].
    destruct (WaitOptions.onProgress options); [|reflexivity].
    rewrite seq_S, fmap_app. reflexivity.
  - intros Hk.
    assert (Hstop : goes_on k = false) by (rewrite wait_continues, Hk; reflexivity).
    rewrite (poll_stops _ _ _ _ _ _ _ _ _ k fuel Hgo Hstop Hfuel).
    cbn [fst snd].
    rewrite progress_calls_app, progress_rounds, progress_stop_events,
      polls_app, polls_rounds, polls_stop_events.
    unfold stop_result, wait_failed. rewrite Hk. cbn [negb].
    split; [reflexivity|].
    split; [intros message ->; reflexivity|]. split; [|lia].
    destruct (WaitOptions.onProgress options); [apply app_nil_r | reflexivity].
  - intros Hk Hterm.
    assert (Hstop : goes_on k = false)
      by (rewrite wait_continues, Hk, Hterm; reflexivity).
    rewrite (poll_stops _ _ _ _ _ _ _ _ _ k fuel Hgo Hstop Hfuel).
    cbn [fst snd].
    rewrite progress_calls_app, progress_rounds, progress_stop_events,
      polls_app, polls_rounds, polls_stop_events.
    unfold stop_result, wait_failed, wait_terminal. rewrite Hk, Hterm. cbn [negb].
    split; [reflexivity|]. split; [|lia].
    destruct (WaitOptions.onProgress options); [|reflexivity].
    rewrite seq_S, fmap_app. reflexivity.
  - intros Hk Hterm Hexp Hfuel'.
    assert (Hgo' : forall j, (j < S k)%nat -> goes_on j = true).
    { intros j Hj. destruct (decide (j = k)) as [->|].
      - rewrite wait_continues, Hk, Hterm, Hexp. reflexivity.
      - apply Hgo. lia. }
    destruct (first_stop (wait_failed P self w taskId)
                (wait_terminal self w taskId) (now w)
                (wait_maxWaitTime options) fuel)
      as [Hall|(k' & Hk' & Hstop & Hbefore')].
    + rewrite (poll_goes_on _ _ _ _ _ _ _ _ _ fuel Hall). cbn [snd].
      rewrite polls_rounds. exact Hfuel'.
    + rewrite (poll_stops _ _ _ _ _ _ _ _ _ k' fuel Hbefore' Hstop Hk').
      cbn [snd]. rewrite polls_app, polls_rounds, polls_stop_events.
      destruct (decide (k' < S k)%nat) as [Hlt|]; [|lia].
      rewrite (Hgo' k' Hlt) in Hstop. discriminate.
Qed.

End WaitFacts.

Lemma wait_returns_first_terminal_witness :
  let run :=
    _deepresearchWait Sample.platform Sample.client
      (Sample.world (Sample.progressing 2) 5000) "dr_1" Sample.with_progress 3 in
  run.1 = Returned (JObj [("deepresearch_id", JStr "dr_1");
                          ("status", JStr "completed"); ("success", JBool true)])
  /\ length (progress_calls run.2) = 3%nat
  /\ polls run.2 = 3%nat.
Proof.
  intros run.
  assert (Hbefore : forall j, (j < 2)%nat ->
            Js.truthy (Js.get (status_at Sample.client
                                 (Sample.world (Sample.progressing 2) 5000) "dr_1" j)
                         "success") = true
            /\ deepresearch_terminal
                 (status_at Sample.client
                    (Sample.world (Sample.progressing 2) 5000) "dr_1" j) = false
            /\ (now (Sample.world (Sample.progressing 2) 5000) (S j)
                - now (Sample.world (Sample.progressing 2) 5000) 0
                >? wait_maxWaitTime Sample.with_progress) = false).
  { intros j Hj. destruct j as [|[|j]]; [repeat split | repeat split | lia]. }
  destruct (wait_returns_first_terminal Sample.platform Sample.client
              (Sample.world (Sample.progressing 2) 5000) "dr_1"
              Sample.with_progress 2 3 Hbefore ltac:(lia)) as (_ & Hreturn & _).
  destruct (Hreturn eq_refl eq_refl) as (Hr & Hp & Hn).
  split; [exact Hr|]. split; [|exact Hn].
  fold run in Hp. rewrite Hp. reflexivity.
Defined.

(** C3 as stated fails. On a task that stays "running", with a wait time
    of 1000 ms and a clock that advances by 5000 ms per reading, [wait] does
    not keep polling: it throws "Maximum wait time exceeded" after its first
    poll. And the first polled response having success false, [wait]
    throws without a call of [onProgress] for it. *)
Lemma wait_gives_up :
  let impatient :=
    {| WaitOptions.pollInterval := None; WaitOptions.maxWaitTime := Some 1000;
       WaitOptions.onProgress := true |} in
  let late :=
    _deepresearchWait Sample.platform Sample.client
      (Sample.world (fun _ => Sample.task "running") 5000) "dr_1" impatient 10 in
  let refused :=
    _deepresearchWait Sample.platform Sample.client
      (Sample.world (fun _ => JObj [("success", JBool false); ("error", JStr "boom")])
         5000)
      "dr_1" Sample.with_progress 10 in
  (late.1 = Threw {| exn_message := "Maximum wait time exceeded";
                     exn_response_data := JUndefined |}
   /\ polls late.2 = 1%nat
   /\ length (progress_calls late.2) = 1%nat)
  /\ (refused.1 = Threw {| exn_message := "boom"; exn_response_data := JUndefined |}
      /\ polls refused.2 = 1%nat
      /\ progress_calls refused.2 = []).
Proof. vm_compute. repeat split. Qed.

Section PollOutcome.

Context (request : Request) (answer : nat -> JsValue)
  (failed : nat -> option Exn) (terminal : nat -> bool)
  (clock : nat -> Z) (interval maxWait : Z) (onProgress : bool)
  (expiry : Exn).

Lemma Forall_repeat {A} (x : A) (n : nat) : Forall (eq x) (repeat x n).
Proof. induction n; constructor; auto. Qed.

(** With successful polls and an advancing clock, the loop makes at most
    [maxWait / step + 1] polls, all [interval] apart. It ends with its
    [k]-th poll, the first one whose answer is terminal or after which the
    wait time is exceeded: it returns that answer when it is terminal and
    throws [expiry] otherwise. *)
Lemma poll_outcome (step : Z) (fuel : nat) :
  0 < step ->
  (forall i, clock i + step <= clock (S i)) ->
  (forall i, failed i = None) ->
  (Z.to_nat (maxWait / step) < fuel)%nat ->
  let run :=
    poll_loop request answer failed terminal clock interval maxWait
      onProgress expiry fuel 0 in
  (polls run.2 <= S (Z.to_nat (maxWait / step)))%nat
  /\ Forall (eq interval) (sleeps run.2)
  /\ exists k,
       polls run.2 = S k
       /\ (forall j, (j < k)%nat ->
             terminal j = false /\ clock (S j) - clock 0 <= maxWait)
       /\ ((terminal k = true /\ run.1 = Returned (answer k))
           \/ (terminal k = false
               /\ clock (S k) - clock 0 > maxWait
               /\ run.1 = Threw expiry)).
Proof.
  intros Hstep Hclock Hok Hfuel run. subst run.
  destruct (poll_bounded request answer failed terminal clock interval maxWait
              onProgress expiry step fuel Hstep Hclock Hfuel)
    as (k & Hk & Hstop & Hbefore & ->).
  cbn [fst snd].
  rewrite polls_app, polls_rounds, polls_stop_events,
    sleeps_app, sleeps_rounds, sleeps_stop_events, app_nil_r.
  split; [lia|]. split; [apply Forall_repeat|].
  exists k. split; [lia|]. split.
  - intros j Hj. specialize (Hbefore j Hj). unfold continues in Hbefore.
    rewrite Hok in Hbefore. apply andb_true_iff in Hbefore as [Ht He].
    apply negb_true_iff in Ht, He. split; [exact Ht|].
    destruct (Z.gtb_spec (clock (S j) - clock 0) maxWait); [discriminate | lia].
  - unfold stop_result, continues in *. rewrite Hok in *.
    destruct (terminal k) eqn:Ht.
    + left. split; reflexivity.
    + right. split; [reflexivity|]. split; [|reflexivity].
      cbn [negb andb] in Hstop. apply negb_false_iff, Z.gtb_lt in Hstop. lia.
Qed.

End PollOutcome.

Section StreamFacts.

Context (P : Platform) (self : Valyu) (w : World)
  (taskId : string) (callback : StreamCallback.t).

Local Abbreviation status := (status_at self w taskId).
Local Abbreviation loop := (stream_loop P self w taskId callback).

Lemma sleeps_messages (l : list JsValue) : sleeps (EvOnMessage <$> l) = [].
Proof. induction l; auto. Qed.

Lemma polls_messages (l : list JsValue) : polls (EvOnMessage <$> l) = 0%nat.
Proof. induction l; auto. Qed.

Lemma sleeps_when (b : bool) (e : Event) :
  match e with EvSleep _ => False | _ => True end -> sleeps (when b e) = [].
Proof. destruct b, e; cbn; tauto. Qed.

Lemma polls_when (b : bool) (e : Event) :
  match e with EvRequest _ => False | _ => True end -> polls (when b e) = 0%nat.
Proof. destruct b, e; cbn; tauto. Qed.

Local Abbreviation stream_seen := (stream_seen self w taskId callback).
Local Abbreviation stream_finish := (stream_finish P self w taskId callback).

Lemma polls_stream_seen (i n : nat) : polls (stream_seen i n) = 1%nat.
Proof.
  unfold stream_seen. cbn [app polls]. rewrite polls_app, polls_when by exact I.
  destruct (_ && _); [|reflexivity].
  destruct (Js.get _ "messages"); try reflexivity.
  rewrite polls_messages. reflexivity.
Qed.

Lemma sleeps_stream_seen (i n : nat) : sleeps (stream_seen i n) = [].
Proof.
  unfold stream_seen. cbn [app sleeps]. rewrite sleeps_app, sleeps_when by exact I.
  destruct (_ && _); [|reflexivity].
  destruct (Js.get _ "messages"); try reflexivity.
  apply sleeps_messages.
Qed.

(** The report of an error comes after what was seen before it. *)
Lemma stream_report_after (seen : list Event) (v : JsValue) :
  stream_report P callback seen v
  = ((stream_report P callback [] v).1, seen ++ (stream_report P callback [] v).2).
Proof.
  unfold stream_report, stream_catch.
  destruct (StreamCallback.onError callback); cbn [when app].
  - destruct (Error P v); reflexivity.
  - rewrite app_nil_r. reflexivity.
Qed.

Lemma sleeps_stream_report (seen : list Event) (v : JsValue) :
  sleeps (stream_report P callback seen v).2 = sleeps seen.
Proof.
  unfold stream_report, stream_catch.
  destruct (StreamCallback.onError callback); [|reflexivity].
  destruct (Error P v); cbn [snd when]; rewrite sleeps_app; apply app_nil_r.
Qed.

(** [stream] returns at a terminal status whose [error] has a string
    form, as every string has. *)
Lemma stream_finish_returns (i : nat) :
  stringifiable (Js.get (status i) "error") = true ->
  (stream_finish i).1 = Returned JUndefined.
Proof.
  intros H. unfold stream_finish, stream_report.
  destruct (is_string "completed" _); [reflexivity|].
  destruct (StreamCallback.onError callback); [|reflexivity].
  unfold Error, Js.or.
  destruct (Js.truthy (Js.get (status i) "error")); [rewrite H|]; reflexivity.
Qed.

Lemma stream_step (fuel i n : nat) :
  Js.truthy (Js.get (status i) "success") = true ->
  messages_ok callback (status i) = true ->
  exists n',
    loop (S fuel) i n
    = if deepresearch_terminal (status i)
      then ((stream_finish i).1, stream_seen i n ++ (stream_finish i).2)
      else ((loop fuel (S i) n').1,
            stream_seen i n ++ EvSleep 5000 :: (loop fuel (S i) n').2).
Proof.
  intros Hok Hmsg. cbn [stream_loop]. rewrite status_call, Hok. cbn [negb].
  unfold messages_ok in Hmsg. unfold stream_seen, stream_finish, deepresearch_terminal.
  cbn [fmap list_fmap].
  destruct (Js.truthy (Js.get (status i) "messages")
            && StreamCallback.onMessage callback) eqn:Em.
  - cbn [negb orb] in Hmsg.
    destruct (Js.get (status i) "messages") as [| | | | |l|]; try discriminate.
    exists (length l).
    destruct (is_string "completed" _); cbn [orb fst snd].
    + rewrite <- !app_assoc. reflexivity.
    + destruct (is_string "failed" _ || is_string "cancelled" _).
      * rewrite stream_report_after, <- !app_assoc. reflexivity.
      * destruct (loop fuel (S i) (length l)).
        cbn [fst snd]. rewrite <- !app_assoc. reflexivity.
  - exists n. rewrite !app_nil_r.
    destruct (is_string "completed" _); cbn [orb fst snd]; [reflexivity|].
    destruct (is_string "failed" _ || is_string "cancelled" _).
    + apply stream_report_after.
    + destruct (loop fuel (S i) n). reflexivity.
Qed.

(** Every delay of [stream] is 5000 ms. *)
Lemma stream_sleeps (fuel : nat) : forall i n,
  Forall (eq 5000) (sleeps (loop fuel i n).2).
Proof.
  induction fuel as [|fuel IH]; intros i n; [constructor|].
  cbn [stream_loop]. rewrite status_call.
  destruct (negb (Js.truthy _)).
  { rewrite sleeps_stream_report. constructor. }
  cbn [fmap list_fmap].
  set (seen := [EvRequest _] ++ when _ _).
  assert (Hseen : sleeps seen = []) by (apply (sleeps_when _ (EvOnStep _ _)), I).
  destruct (Js.truthy (Js.get (status i) "messages")
            && StreamCallback.onMessage callback).
  - destruct (Js.get (status i) "messages") as [| | | | |l|];
      try (unfold stream_catch; cbn [snd]; rewrite sleeps_app, Hseen, sleeps_when by exact I;
           constructor).
    destruct (is_string "completed" _).
    { cbn [snd]. rewrite !sleeps_app, Hseen, sleeps_messages, sleeps_when by exact I.
      constructor. }
    destruct (_ || _).
    { rewrite sleeps_stream_report, sleeps_app, Hseen, sleeps_messages. constructor. }
    specialize (IH (S i) (length l)). destruct (loop fuel (S i) (length l)).
    cbn [snd] in *. rewrite !sleeps_app, Hseen, sleeps_messages. cbn [app sleeps].
    constructor; [reflexivity | exact IH].
  - destruct (is_string "completed" _).
    { cbn [snd]. rewrite !sleeps_app, Hseen, sleeps_when by exact I. constructor. }
    destruct (_ || _).
    { rewrite sleeps_stream_report, Hseen. constructor. }
    specialize (IH (S i) n). destruct (loop fuel (S i) n).
    cbn [snd] in *. rewrite !sleeps_app, Hseen. cbn [app sleeps].
    constructor; [reflexivity | exact IH].
Qed.

(** [stream] has no time limit: while the statuses are successful and not
    terminal it keeps polling, one request per iteration. *)
Lemma stream_goes_on (fuel : nat) : forall i n,
  (forall j, (i <= j < i + fuel)%nat -> stream_continues self w taskId callback j = true) ->
  (loop fuel i n).1 = Polling /\ polls (loop fuel i n).2 = fuel.
Proof.
  induction fuel as [|fuel IH]; intros i n H; [split; reflexivity|].
  specialize (H i ltac:(lia)) as Hi. unfold stream_continues in Hi.
  apply andb_true_iff in Hi as [Hi Ht]. apply andb_true_iff in Hi as [Hok Hmsg].
  apply negb_true_iff in Ht.
  destruct (stream_step fuel i n Hok Hmsg) as [n' ->]. rewrite Ht.
  destruct (IH (S i) n' ltac:(intros j Hj; apply H; lia)) as [Hr Hp].
  cbn [fst snd]. split; [exact Hr|].
  rewrite polls_app, polls_stream_seen. cbn [polls]. rewrite Hp. reflexivity.
Qed.

(** [stream] stops at the first terminal status, after its callback. *)
Lemma stream_stops (k : nat) : forall fuel i n,
  (forall j, (i <= j < i + k)%nat -> stream_continues self w taskId callback j = true) ->
  Js.truthy (Js.get (status (i + k)) "success") = true ->
  messages_ok callback (status (i + k)) = true ->
  deepresearch_terminal (status (i + k)) = true ->
  (k < fuel)%nat ->
  exists seen,
    loop fuel i n
    = ((stream_finish (i + k)).1, seen ++ (stream_finish (i + k)).2)
    /\ polls seen = S k.
Proof.
  induction k as [|k IH]; intros fuel i n H Hok Hmsg Ht Hfuel.
  - destruct fuel as [|fuel]; [lia|]. rewrite Nat.add_0_r in *.
    destruct (stream_step fuel i n Hok Hmsg) as [n' ->]. rewrite Ht.
    exists (stream_seen i n). split; [reflexivity | apply polls_stream_seen].
  - destruct fuel as [|fuel]; [lia|].
    specialize (H i ltac:(lia)) as Hi. unfold stream_continues in Hi.
    apply andb_true_iff in Hi as [Hi Hti]. apply andb_true_iff in Hi as [Hoki Hmsgi].
    apply negb_true_iff in Hti.
    destruct (stream_step fuel i n Hoki Hmsgi) as [n' ->]. rewrite Hti.
    replace (i + S k)%nat with (S i + k)%nat in * by lia.
    destruct (IH fuel (S i) n' ltac:(intros j Hj; apply H; lia) Hok Hmsg Ht ltac:(lia))
      as (seen & -> & Hp).
    exists (stream_seen i n ++ EvSleep 5000 :: seen). cbn [fst snd]. split.
    + rewrite <- app_assoc. reflexivity.
    + rewrite polls_app, polls_stream_seen. cbn [polls]. rewrite Hp. reflexivity.
Qed.

End StreamFacts.

(** C1, as the code has it. [deepresearch.wait] and
    [batch.waitForCompletion] are bounded: whenever the polls are successful
    and the clock advances by at least [step] > 0 per iteration, each makes
    at most [maxWaitTime / step + 1] polls and sleeps its poll interval
    between two polls. It ends with its [k]-th poll, before which no status
    was terminal and the elapsed time never above [maxWaitTime] (7200000
    ms by default): either the [k]-th status is terminal and is returned,
    or it is not, the elapsed time after it is above [maxWaitTime], and
    "Maximum wait time exceeded" is thrown. [deepresearch.stream] polls
    every 5000 ms and stops at the first terminal status, where it calls
    the terminal callback and returns (the [error] of the status having a
    string form), but it has no time limit: on statuses that never become
    terminal it is still polling after any number of iterations. *)
Theorem polling_bounds (P : Platform) (self : Valyu) (w : World) :
  (forall taskId options step fuel,
      0 < step ->
      (forall i, now w i + step <= now w (S i)) ->
      (forall i, Js.truthy (Js.get (status_at self w taskId i) "success") = true) ->
      (Z.to_nat (wait_maxWaitTime options / step) < fuel)%nat ->
      let run := _deepresearchWait P self w taskId options fuel in
      (polls run.2 <= S (Z.to_nat (wait_maxWaitTime options / step)))%nat
      /\ Forall (eq (wait_pollInterval options)) (sleeps run.2)
      /\ exists k,
           polls run.2 = S k
           /\ (forall j, (j < k)%nat ->
                 deepresearch_terminal (status_at self w taskId j) = false
                 /\ now w (S j) - now w 0 <= wait_maxWaitTime options)
           /\ ((deepresearch_terminal (status_at self w taskId k) = true
                /\ run.1 = Returned (status_at self w taskId k))
               \/ (deepresearch_terminal (status_at self w taskId k) = false
                   /\ now w (S k) - now w 0 > wait_maxWaitTime options
                   /\ run.1 = Threw (timeout_error P))))
  /\ (forall batchId options step fuel,
        0 < step ->
        (forall i, now w i + step <= now w (S i)) ->
        (forall i, Js.truthy (Js.get (batch_status_at self w batchId i) "success") = true
                   /\ Js.truthy (batch_at self w batchId i) = true) ->
        (Z.to_nat (batch_maxWaitTime options / step) < fuel)%nat ->
        let run := _batchWaitForCompletion P self w batchId options fuel in
        (polls run.2 <= S (Z.to_nat (batch_maxWaitTime options / step)))%nat
        /\ Forall (eq (batch_pollInterval options)) (sleeps run.2)
        /\ exists k,
             polls run.2 = S k
             /\ (forall j, (j < k)%nat ->
                   batch_terminal (batch_at self w batchId j) = false
                   /\ now w (S j) - now w 0 <= batch_maxWaitTime options)
             /\ ((batch_terminal (batch_at self w batchId k) = true
                  /\ run.1 = Returned (batch_at self w batchId k))
                 \/ (batch_terminal (batch_at self w batchId k) = false
                     /\ now w (S k) - now w 0 > batch_maxWaitTime options
                     /\ run.1 = Threw (timeout_error P))))
  /\ (exn_message (timeout_error P) = "Maximum wait time exceeded"
      /\ wait_maxWaitTime WaitOptions.empty = 7200000
      /\ batch_maxWaitTime WaitOptions.empty = 7200000)
  /\ (forall taskId callback fuel,
        Forall (eq 5000) (sleeps (_deepresearchStream P self w taskId callback fuel).2))
  /\ (forall taskId callback k fuel,
        (forall j, (j < k)%nat -> stream_continues self w taskId callback j = true) ->
        Js.truthy (Js.get (status_at self w taskId k) "success") = true ->
        messages_ok callback (status_at self w taskId k) = true ->
        deepresearch_terminal (status_at self w taskId k) = true ->
        (k < fuel)%nat ->
        exists seen,
          _deepresearchStream P self w taskId callback fuel
          = ((stream_finish P self w taskId callback k).1,
             seen ++ (stream_finish P self w taskId callback k).2)
          /\ polls seen = S k
          /\ (stringifiable (Js.get (status_at self w taskId k) "error") = true ->
              (stream_finish P self w taskId callback k).1 = Returned JUndefined))
  /\ (forall taskId callback,
        (forall j, stream_continues self w taskId callback j = true) ->
        forall fuel,
          (_deepresearchStream P self w taskId callback fuel).1 = Polling
          /\ polls (_deepresearchStream P self w taskId callback fuel).2 = fuel).
Proof.
  split; [|split; [|split; [|split; [|split]]]].
  - intros taskId options step fuel Hstep Hclock Hok Hfuel run. subst run.
    unfold _deepresearchWait. rewrite wait_loop_shape.
    apply (poll_outcome _ _ _ _ _ _ _ _ _ step fuel Hstep Hclock); [|exact Hfuel].
    intros i. unfold wait_failed. rewrite Hok. reflexivity.
  - intros batchId options step fuel Hstep Hclock Hok Hfuel run. subst run.
    unfold _batchWaitForCompletion. rewrite batch_loop_shape.
    apply (poll_outcome _ _ _ _ _ _ _ _ _ step fuel Hstep Hclock); [|exact Hfuel].
    intros i. unfold batch_failed. destruct (Hok i) as [Hs Hb].
    unfold batch_at in Hb. rewrite Hs, Hb. reflexivity.
  - repeat split.
  - intros taskId callback fuel. apply stream_sleeps.
  - intros taskId callback k fuel Hbefore Hok Hmsg Ht Hfuel.
    destruct (stream_stops P self w taskId callback k fuel 0 0) as (seen & Hrun & Hpolls);
      try assumption.
    { intros j Hj. apply Hbefore. lia. }
    exists seen. split; [exact Hrun|]. split; [exact Hpolls|].
    apply stream_finish_returns.
  - intros taskId callback H fuel.
    apply (stream_goes_on P self w taskId callback fuel 0 0).
    intros j _. apply H.
Qed.

Lemma polling_bounds_witness :
  let w := Sample.world (fun _ => Sample.task "running") 5000 in
  let options :=
    {| WaitOptions.pollInterval := None; WaitOptions.maxWaitTime := Some 12000;
       WaitOptions.onProgress := false |} in
  let run := _deepresearchWait Sample.platform Sample.client w "dr_1" options 10 in
  (polls run.2 <= 3)%nat /\ Forall (eq 5000) (sleeps run.2)
  /\ run.1 = Threw {| exn_message := "Maximum wait time exceeded";
                      exn_response_data := JUndefined |}
  /\ exists k, polls run.2 = S k /\ 12000 < 5000 * Z.of_nat (S k).
Proof.
  intros w options run.
  destruct (proj1 (polling_bounds Sample.platform Sample.client w)
              "dr_1" options 5000 10%nat)
    as (Hpolls & Hsleeps & k & Hk & _ & [[Ht _]|(_ & Hlate & Hthrew)]).
  - reflexivity.
  - intros i. cbn [now w Sample.world]. lia.
  - intros i. reflexivity.
  - vm_compute. lia.
  - discriminate Ht.
  - split; [exact Hpolls|]. split; [exact Hsleeps|]. split; [exact Hthrew|].
    exists k. split; [exact Hk|]. cbn [now w Sample.world] in Hlate.
    change (wait_maxWaitTime options) with 12000 in Hlate. lia.
Defined.

(** C1 as stated fails for [deepresearch.stream]: on a task that stays
    "running", no amount of fuel makes the loop stop; it has made as many
    polls as it was given iterations, 2000 of them (10000 s of sleep, above
    the 7200 s of the claimed default) included. *)
Lemma stream_polls_forever :
  ~ (exists fuel,
        (_deepresearchStream Sample.platform Sample.client
           (Sample.world (fun _ => Sample.task "running") 5000) "dr_1"
           Sample.all_callbacks fuel).1 <> Polling)
  /\ polls (_deepresearchStream Sample.platform Sample.client
              (Sample.world (fun _ => Sample.task "running") 5000) "dr_1"
              Sample.all_callbacks 2000).2 = 2000%nat.
Proof.
  assert (H : forall fuel,
             (_deepresearchStream Sample.platform Sample.client
                (Sample.world (fun _ => Sample.task "running") 5000) "dr_1"
                Sample.all_callbacks fuel).1 = Polling
             /\ polls (_deepresearchStream Sample.platform Sample.client
                         (Sample.world (fun _ => Sample.task "running") 5000) "dr_1"
                         Sample.all_callbacks fuel).2 = fuel).
  { intros fuel. apply (stream_goes_on _ _ _ _ _ fuel 0 0).
    intros j _. reflexivity. }
  split.
  - intros [fuel Hstop]. apply Hstop, H.
  - apply H.
Qed.

(** ** Regular expressions: [test] decides the language *)

Section RegExpFacts.

Import RegExp.

Lemma append_nil_inv (s t : string) : s +:+ t = "" -> s = "" /\ t = "".
Proof. destruct s; [auto | discriminate]. Qed.

Lemma append_cons_inv (s t u : string) (a : ascii) :
  s +:+ t = String a u ->
  (s = "" /\ t = String a u) \/ (exists s', s = String a s' /\ u = s' +:+ t).
Proof.
  destruct s as [|b s]; [left; auto|].
  rewrite append_cons. intros H. injection H as -> <-. right. eauto.
Qed.

Lemma matches_none_inv (s : string) : matches RNone s -> False.
Proof. inversion 1. Qed.

Lemma matches_eps_inv (s : string) : matches REps s -> s = "".
Proof. inversion 1. reflexivity. Qed.

Lemma matches_class_inv (p : ascii -> bool) (s : string) :
  matches (RClass p) s -> exists a, s = String a "" /\ p a = true.
Proof. inversion 1; subst. eauto. Qed.

Lemma matches_seq_inv (r1 r2 : Regex) (s : string) :
  matches (RSeq r1 r2) s ->
  exists s1 s2, s = s1 +:+ s2 /\ matches r1 s1 /\ matches r2 s2.
Proof. inversion 1; subst. eauto. Qed.

Lemma matches_alt_inv (r1 r2 : Regex) (s : string) :
  matches (RAlt r1 r2) s -> matches r1 s \/ matches r2 s.
Proof. inversion 1; subst; auto. Qed.

Lemma nullable_matches (r : Regex) : nullable r = true <-> matches r "".
Proof.
  induction r as [| |p|r1 IH1 r2 IH2|r1 IH1 r2 IH2|r IH]; cbn [nullable].
  - split; [discriminate | intros H; destruct (matches_none_inv _ H)].
  - split; [constructor | reflexivity].
  - split; [discriminate|].
    intros H. apply matches_class_inv in H as (a & E & _). discriminate.
  - rewrite andb_true_iff, IH1, IH2. split.
    + intros [H1 H2]. apply (MSeq r1 r2 "" "" H1 H2).
    + intros H. apply matches_seq_inv in H as (s1 & s2 & E & H1 & H2).
      symmetry in E. apply append_nil_inv in E as [-> ->]. auto.
  - rewrite orb_true_iff, IH1, IH2. split.
    + intros [H|H]; [apply MAltL | apply MAltR]; exact H.
    + apply matches_alt_inv.
  - split; [constructor | reflexivity].
Qed.

Lemma seq_matches (r1 r2 : Regex) (s : string) :
  matches (seq r1 r2) s <-> matches (RSeq r1 r2) s.
Proof.
  assert (Hnone_l : forall r, matches (RSeq RNone r) s -> matches RNone s).
  { intros r H. apply matches_seq_inv in H as (s1 & s2 & _ & H1 & _).
    destruct (matches_none_inv _ H1). }
  assert (Hnone_r : forall r, matches (RSeq r RNone) s -> matches RNone s).
  { intros r H. apply matches_seq_inv in H as (s1 & s2 & _ & _ & H2).
    destruct (matches_none_inv _ H2). }
  assert (Heps : forall r, matches (RSeq REps r) s <-> matches r s).
  { intros r. split.
    - intros H. apply matches_seq_inv in H as (s1 & s2 & -> & H1 & H2).
      apply matches_eps_inv in H1 as ->. exact H2.
    - intros H. apply (MSeq REps r "" s MEps H). }
  destruct r1; destruct r2; cbn [seq]; try reflexivity;
    try (split; [intros H; destruct (matches_none_inv _ H) | apply Hnone_l]);
    try (split; [intros H; destruct (matches_none_inv _ H) | apply Hnone_r]);
    try (symmetry; apply Heps).
Qed.

Lemma alt_matches (r1 r2 : Regex) (s : string) :
  matches (alt r1 r2) s <-> matches (RAlt r1 r2) s.
Proof.
  assert (Hl : forall r, matches (RAlt RNone r) s <-> matches r s).
  { intros r. split.
    - intros H. apply matches_alt_inv in H as [H|H]; [destruct (matches_none_inv _ H) | exact H].
    - apply MAltR. }
  assert (Hr : forall r, matches (RAlt r RNone) s <-> matches r s).
  { intros r. split.
    - intros H. apply matches_alt_inv in H as [H|H]; [exact H | destruct (matches_none_inv _ H)].
    - apply MAltL. }
  destruct r1; destruct r2; cbn [alt]; try reflexivity;
    try (symmetry; apply Hl); try (symmetry; apply Hr).
Qed.

Lemma star_cons (r : Regex) (a : ascii) (s : string) :
  matches (RStar r) (String a s) ->
  exists s1 s2, s = s1 +:+ s2 /\ matches r (String a s1) /\ matches (RStar r) s2.
Proof.
  intros H. remember (RStar r) as r' eqn:Er. remember (String a s) as t eqn:Et.
  revert s Et. induction H as [| | | | | |r0 s1 s2 H1 _ H2 IH2]; intros u Et;
    try discriminate.
  injection Er as ->.
  apply append_cons_inv in Et as [[-> ->]|(s1' & -> & ->)].
  - apply IH2; reflexivity.
  - exists s1', s2. auto.
Qed.

Lemma seq_der_matches (a : ascii) (r1 r2 : Regex) (s : string) :
  (forall t, matches (der a r1) t <-> matches r1 (String a t)) ->
  matches (seq (der a r1) r2) s
  <-> exists s1 s2, s = s1 +:+ s2 /\ matches r1 (String a s1) /\ matches r2 s2.
Proof.
  intros IH1. rewrite seq_matches. split.
  - intros H. apply matches_seq_inv in H as (s1 & s2 & -> & H1 & H2).
    exists s1, s2. rewrite <- IH1. auto.
  - intros (s1 & s2 & -> & H1 & H2). constructor; [apply IH1, H1 | exact H2].
Qed.

Lemma der_matches (a : ascii) (r : Regex) : forall s,
  matches (der a r) s <-> matches r (String a s).
Proof.
  induction r as [| |p|r1 IH1 r2 IH2|r1 IH1 r2 IH2|r IH]; intros s; cbn [der].
  - split; intros H; destruct (matches_none_inv _ H).
  - split; intros H; [destruct (matches_none_inv _ H)|].
    apply matches_eps_inv in H. discriminate.
  - destruct (p a) eqn:Ep; split; intros H.
    + apply matches_eps_inv in H as ->. constructor. exact Ep.
    + apply matches_class_inv in H as (b & E & _). injection E as <- ->. constructor.
    + destruct (matches_none_inv _ H).
    + apply matches_class_inv in H as (b & E & Hb). injection E as <- ->. congruence.
  - pose proof (seq_der_matches a r1 r2 s IH1) as Hleft.
    destruct (nullable r1) eqn:En.
    + rewrite alt_matches. split.
      * intros H. apply matches_alt_inv in H as [H|H].
        -- apply Hleft in H as (s1 & s2 & -> & H1 & H2).
           apply (MSeq r1 r2 (String a s1) s2 H1 H2).
        -- apply nullable_matches in En.
           apply (MSeq r1 r2 "" (String a s) En). apply IH2, H.
      * intros H. apply matches_seq_inv in H as (s1 & s2 & E & H1 & H2).
        symmetry in E. apply append_cons_inv in E as [[-> ->]|(s1' & -> & ->)].
        -- apply MAltR, IH2, H2.
        -- apply MAltL, Hleft. eauto.
    + rewrite Hleft. split.
      * intros (s1 & s2 & -> & H1 & H2). apply (MSeq r1 r2 (String a s1) s2 H1 H2).
      * intros H. apply matches_seq_inv in H as (s1 & s2 & E & H1 & H2).
        symmetry in E. apply append_cons_inv in E as [[-> ->]|(s1' & -> & ->)].
        -- apply nullable_matches in H1. congruence.
        -- eauto.
  - rewrite alt_matches. split.
    + intros H. apply matches_alt_inv in H as [H|H];
        [apply MAltL, IH1 | apply MAltR, IH2]; exact H.
    + intros H. apply matches_alt_inv in H as [H|H];
        [apply MAltL, IH1 | apply MAltR, IH2]; exact H.
  - rewrite seq_matches. split.
    + intros H. apply matches_seq_inv in H as (s1 & s2 & -> & H1 & H2).
      apply (MStarS r (String a s1) s2); [apply IH, H1 | exact H2].
    + intros H. apply star_cons in H as (s1 & s2 & -> & H1 & H2).
      constructor; [apply IH, H1 | exact H2].
Qed.

(** [test] answers membership in the language of the pattern. *)
Lemma test_matches (s : string) : forall r, test r s = true <-> matches r s.
Proof.
  induction s as [|a s IH]; intros r; cbn [test].
  - apply nullable_matches.
  - rewrite IH. apply der_matches.
Qed.

End RegExpFacts.

(** ** Source validation *)

Section SourceFacts.

Import RegExp.

Lemma test_none (s : string) : test RNone s = false.
Proof. induction s; auto. Qed.

Lemma test_star_class (f : ascii -> bool) (s : string) :
  test (RStar (RClass f)) s = JsString.every f s.
Proof.
  induction s as [|a s IH]; [reflexivity|].
  cbn [test der JsString.every]. destruct (f a); cbn [seq andb].
  - exact IH.
  - apply test_none.
Qed.

Lemma test_plus_class (f : ascii -> bool) (s : string) :
  test (plus (RClass f)) s = JsString.nonempty s && JsString.every f s.
Proof.
  destruct s as [|a s]; [reflexivity|].
  unfold plus. cbn [test der nullable JsString.nonempty JsString.every andb].
  destruct (f a); cbn [seq andb].
  - apply test_star_class.
  - apply test_none.
Qed.

Lemma split_pieces (c : ascii) (s : string) :
  Forall (fun p => JsString.includes c p = false) (JsString.split c s).
Proof.
  induction s as [|a s IH]; [repeat constructor|].
  destruct (Ascii.eqb a c) eqn:Ha.
  - cbn [JsString.split]. rewrite Ha. constructor; [reflexivity | exact IH].
  - destruct (split_cons c a s Ha) as (h & t & E & ->).
    rewrite E in IH. inversion IH as [|? ? Hh Ht]; subst.
    constructor; [|exact Ht]. cbn [JsString.includes]. rewrite Ha. exact Hh.
Qed.

Lemma join_split (c : ascii) (s : string) :
  JsString.join (String c "") (JsString.split c s) = s.
Proof.
  induction s as [|a s IH]; [reflexivity|].
  destruct (Ascii.eqb a c) eqn:Ha.
  - cbn [JsString.split]. rewrite Ha. apply Ascii.eqb_eq in Ha as ->.
    pose proof (split_not_nil c s) as Hne.
    destruct (JsString.split c s) as [|h t] eqn:E; [congruence|].
    cbn [JsString.join]. rewrite <- IH. reflexivity.
  - destruct (split_cons c a s Ha) as (h & t & E & ->).
    rewrite E in IH. rewrite <- IH.
    destruct t; reflexivity.
Qed.

Lemma split_two (c : ascii) (s p d : string) :
  JsString.split c s = [p; d]
  <-> s = p +:+ String c d
      /\ JsString.includes c p = false /\ JsString.includes c d = false.
Proof.
  split.
  - intros H. pose proof (join_split c s) as Hj. pose proof (split_pieces c s) as Hp.
    rewrite H in Hj, Hp. apply Forall_cons in Hp as [Hp1 Hp].
    apply Forall_cons in Hp as [Hp2 _].
    split; [|split; assumption]. rewrite <- Hj. reflexivity.
  - intros (-> & Hp & Hd).
    rewrite (split_line c p d Hp), (split_without c d Hd). reflexivity.
Qed.

Lemma nonempty_length (s : string) :
  (0 <? String.length s)%nat = JsString.nonempty s.
Proof. destruct s; reflexivity. Qed.

(** [validateDatasetId] accepts exactly the dataset identifiers. *)
Lemma validateDatasetId_spec (s : string) :
  validateDatasetId s = true <-> is_dataset_id s.
Proof.
  unfold validateDatasetId, is_dataset_id, providerRegex, datasetRegex. split.
  - destruct (JsString.split "/" s) as [|p [|d [|x l]]] eqn:E; try discriminate.
    rewrite !test_plus_class, !nonempty_length, !andb_true_iff.
    intros [[[[Hp1 Hp2] [Hd1 Hd2]] _] _].
    apply split_two in E as (-> & Hp & Hd).
    exists p, d. repeat split; assumption.
  - intros (p & d & -> & Hp & Hd & Hp1 & Hd1 & Hp2 & Hd2).
    change (p +:+ "/" +:+ d) with (p +:+ String "/" d).
    rewrite (proj2 (split_two "/" _ p d) (conj eq_refl (conj Hp Hd))).
    rewrite !test_plus_class, !nonempty_length, Hp1, Hp2, Hd1, Hd2. reflexivity.
Qed.

Context (P : Platform).

Lemma validateSource_spec (s : string) :
  validateSource P s = true
  <-> URL_parses P s = true \/ matches domainRegex s \/ is_dataset_id s.
Proof.
  unfold validateSource, validateUrl, validateDomain.
  rewrite <- validateDatasetId_spec, <- test_matches.
  destruct (URL_parses P s); [tauto|].
  destruct (test domainRegex s); [tauto|].
  destruct (validateDatasetId s); [tauto|].
  split; [discriminate | intros [H|[H|H]]; discriminate].
Qed.

Lemma validateSources_valid (l : list string) :
  (validateSources P l).1 = negb (existsb (fun s => negb (validateSource P s)) l).
Proof.
  unfold validateSources. cbn [fst].
  induction l as [|x l IH]; [reflexivity|].
  cbn [existsb]. rewrite filter_cons.
  destruct (validateSource P x) eqn:Ex; cbn [negb orb].
  - destruct (decide (true = false)); [discriminate | exact IH].
  - destruct (decide (false = false)); [reflexivity | contradiction].
Qed.

Lemma validateSources_invalid (l : list string) :
  (validateSources P l).2 = invalid_sources P l.
Proof. reflexivity. Qed.

End SourceFacts.

(** ** The domain pattern in words *)

Section DomainFacts.

Import RegExp.

Lemma every_app (f : ascii -> bool) (s t : string) :
  JsString.every f (s +:+ t) = JsString.every f s && JsString.every f t.
Proof.
  induction s as [|a s IH]; [reflexivity|].
  rewrite append_cons. cbn [JsString.every]. rewrite IH, andb_assoc. reflexivity.
Qed.

Lemma length_app (s t : string) :
  String.length (s +:+ t) = (String.length s + String.length t)%nat.
Proof.
  induction s as [|a s IH]; [reflexivity|].
  rewrite append_cons. cbn [String.length]. rewrite IH. reflexivity.
Qed.

Lemma ends_with_alnum_snoc (s : string) (z : ascii) :
  ends_with_alnum (s +:+ String z "") = is_alnum z.
Proof.
  induction s as [|a s IH]; [reflexivity|].
  rewrite append_cons. cbn [ends_with_alnum]. rewrite IH.
  destruct s; reflexivity.
Qed.

Lemma snoc_decompose (a : ascii) (s : string) :
  exists mid z, String a s = mid +:+ String z "".
Proof.
  revert a. induction s as [|b s IH]; intros a.
  - exists "", a. reflexivity.
  - destruct (IH b) as (mid & z & E). exists (String a mid), z.
    rewrite append_cons, <- E. reflexivity.
Qed.

Lemma matches_class (f : ascii -> bool) (s : string) :
  matches (RClass f) s <-> exists a, s = String a "" /\ f a = true.
Proof.
  split; [apply matches_class_inv|]. intros (a & -> & H). constructor. exact H.
Qed.

Lemma matches_seq (r1 r2 : Regex) (s : string) :
  matches (RSeq r1 r2) s
  <-> exists s1 s2, s = s1 +:+ s2 /\ matches r1 s1 /\ matches r2 s2.
Proof.
  split; [apply matches_seq_inv|]. intros (s1 & s2 & -> & H1 & H2).
  constructor; assumption.
Qed.

Lemma matches_opt (r : Regex) (s : string) :
  matches (opt r) s <-> s = "" \/ matches r s.
Proof.
  unfold opt. split.
  - intros H. apply matches_alt_inv in H as [H|H]; [left; apply matches_eps_inv, H | auto].
  - intros [->|H]; [apply MAltL; constructor | apply MAltR, H].
Qed.

(** [[f]{0,n}]: at most [n] characters, each in the class *)
Lemma matches_upto_class (f : ascii -> bool) (n : nat) : forall s,
  matches (upto n (RClass f)) s
  <-> (String.length s <= n)%nat /\ JsString.every f s = true.
Proof.
  induction n as [|n IH]; intros s; cbn [upto].
  - split.
    + intros H. apply matches_eps_inv in H as ->. split; [cbn; lia | reflexivity].
    + intros [H _]. destruct s; [constructor | cbn in H; lia].
  - rewrite matches_opt, matches_seq. split.
    + intros [->|(s1 & s2 & -> & H1 & H2)]; [split; [cbn; lia | reflexivity]|].
      apply matches_class in H1 as (a & -> & Ha). apply IH in H2 as [Hl He].
      change (String a "" +:+ s2) with (String a s2).
      cbn [String.length JsString.every].
      rewrite Ha, He. split; [lia | reflexivity].
    + intros [Hl He]. destruct s as [|a s]; [left; reflexivity|]. right.
      cbn [String.length JsString.every] in *. apply andb_true_iff in He as [Ha He].
      exists (String a ""), s. split; [reflexivity|].
      split; [constructor; exact Ha | apply IH; split; [lia | exact He]].
Qed.

Lemma alnum_label_char (a : ascii) : is_alnum a = true -> is_label_char a = true.
Proof. unfold is_label_char. intros ->. reflexivity. Qed.

Lemma matches_label (l : string) : matches labelRegex l <-> is_label l = true.
Proof.
  unfold labelRegex, is_label. rewrite matches_seq. split.
  - intros (s1 & s2 & -> & H1 & H2).
    apply matches_class in H1 as (a & -> & Ha).
    apply matches_opt in H2 as [->|H2].
    + change (String a "" +:+ "") with (String a "").
      cbn [String.length JsString.every starts_with_alnum ends_with_alnum].
      rewrite Ha, (alnum_label_char a Ha). reflexivity.
    + apply matches_seq in H2 as (mid & t & -> & Hmid & Ht).
      apply matches_class in Ht as (z & -> & Hz).
      apply matches_upto_class in Hmid as [Hl He].
      rewrite append_cons. change ("" +:+ mid +:+ String z "") with (mid +:+ String z "").
      cbn [String.length JsString.every starts_with_alnum].
      rewrite length_app, every_app, He, Ha, (alnum_label_char a Ha).
      cbn [String.length JsString.every andb]. rewrite (alnum_label_char z Hz).
      assert (Hend : ends_with_alnum (String a (mid +:+ String z "")) = true).
      { change (String a (mid +:+ String z "")) with (String a mid +:+ String z "").
        rewrite ends_with_alnum_snoc. exact Hz. }
      rewrite Hend, !andb_true_r. apply Nat.leb_le. lia.
  - intros H. apply andb_true_iff in H as [H Hend]. apply andb_true_iff in H as [H Hstart].
    apply andb_true_iff in H as [Hlen Hevery]. apply Nat.leb_le in Hlen.
    destruct l as [|a rest]; [discriminate|]. cbn [starts_with_alnum] in Hstart.
    exists (String a ""), rest. split; [reflexivity|].
    split; [constructor; exact Hstart|]. apply matches_opt.
    destruct rest as [|b rest]; [left; reflexivity|]. right.
    destruct (snoc_decompose b rest) as (mid & z & E). rewrite E in *.
    change (String a (mid +:+ String z "")) with (String a mid +:+ String z "") in Hend.
    rewrite ends_with_alnum_snoc in Hend.
    cbn [JsString.every String.length] in Hevery, Hlen.
    apply andb_true_iff in Hevery as [_ Hevery].
    rewrite every_app in Hevery. apply andb_true_iff in Hevery as [Hevery _].
    rewrite length_app in Hlen. cbn [String.length] in Hlen.
    apply matches_seq. exists mid, (String z ""). split; [reflexivity|].
    split; [apply matches_upto_class; split; [lia | exact Hevery]|].
    constructor. exact Hend.
Qed.

(** [(\.label)*] is a sequence of dotted labels. *)
Lemma matches_dotted (s : string) :
  matches (RStar (RSeq (RClass (is_char ".")) labelRegex)) s
  <-> exists labels, s = dotted labels /\ Forall (fun l => is_label l = true) labels.
Proof.
  split.
  - intros H. remember (RStar _) as r eqn:Er.
    induction H as [| | | | | |r0 s1 s2 H1 _ H2 IH2]; try discriminate.
    + exists []. split; [reflexivity | constructor].
    + injection Er as ->. destruct (IH2 eq_refl) as (labels & -> & Hl).
      apply matches_seq in H1 as (d & l & -> & Hd & Hlabel).
      apply matches_class in Hd as (a & -> & Ha).
      apply Ascii.eqb_eq in Ha as ->. apply matches_label in Hlabel.
      exists (l :: labels). split; [reflexivity | constructor; assumption].
  - intros (labels & -> & Hl). induction Hl as [|l labels Hlabel _ IH]; [constructor|].
    cbn [dotted].
    change (String "." (l +:+ dotted labels)) with (String "." l +:+ dotted labels).
    constructor; [|exact IH]. apply matches_seq.
    exists ".", l. split; [reflexivity|].
    split; [constructor; reflexivity | apply matches_label, Hlabel].
Qed.

Lemma matches_path_suffix (p : string) :
  matches (opt (RSeq (RClass (is_char "/")) (plus (RClass is_dot)))) p
  <-> is_path_suffix p = true.
Proof.
  rewrite <- test_matches. destruct p as [|a q]; [split; reflexivity|].
  unfold opt. cbn [test der nullable alt is_path_suffix].
  destruct (is_char "/" a); cbn [seq alt andb plus].
  - rewrite <- (test_plus_class is_dot q). reflexivity.
  - rewrite test_none. reflexivity.
Qed.

(** The domain pattern accepts exactly the domains. *)
Lemma validateDomain_spec (s : string) : matches domainRegex s <-> is_domain s.
Proof.
  unfold domainRegex, is_domain, plus. split.
  - intros H. apply matches_seq in H as (label & rest & -> & Hlabel & H).
    apply matches_seq in H as (dots & path & -> & Hdots & Hpath).
    apply matches_seq in Hdots as (d1 & ds & -> & Hd1 & Hds).
    apply matches_label in Hlabel. apply matches_path_suffix in Hpath.
    apply matches_dotted in Hds as (labels & -> & Hlabels).
    apply matches_seq in Hd1 as (d & l & -> & Hd & Hl).
    apply matches_class in Hd as (a & -> & Ha). apply Ascii.eqb_eq in Ha as ->.
    apply matches_label in Hl.
    exists label, (l :: labels), path. split.
    + cbn [dotted]. rewrite !append_cons, !append_assoc. reflexivity.
    + split; [discriminate|]. split; [exact Hlabel|].
      split; [constructor; assumption | exact Hpath].
  - intros (label & labels & path & -> & Hne & Hlabel & Hlabels & Hpath).
    destruct labels as [|l labels]; [contradiction|].
    apply Forall_cons in Hlabels as [Hl Hlabels].
    apply matches_seq. exists label, (dotted (l :: labels) +:+ path).
    split; [reflexivity|]. split; [apply matches_label, Hlabel|].
    apply matches_seq. exists (dotted (l :: labels)), path.
    split; [reflexivity|]. split; [|apply matches_path_suffix, Hpath].
    apply matches_seq. exists (String "." l), (dotted labels). split.
    + cbn [dotted]. rewrite append_cons. reflexivity.
    + split.
      * apply matches_seq. exists ".", l. split; [reflexivity|].
        split; [constructor; reflexivity | apply matches_label, Hl].
      * apply matches_dotted. exists labels. split; [reflexivity | exact Hlabels].
Qed.

End DomainFacts.

(** ** [search] and [contents] *)

Section SearchFacts.

Context (P : Platform) (self : Valyu).

Lemma check_sources_spec (field : string) (arg : option ArrayArg) :
  check_sources P field arg
  = match arg with
    | None => None
    | Some NotArray => Some (field +:+ " must be an array")
    | Some (IsArray l) =>
        if bad_sources P arg
        then Some (invalid_sources_message field (invalid_sources P l))
        else None
    end.
Proof.
  destruct arg as [[|l]|]; try reflexivity.
  unfold check_sources, bad_sources.
  rewrite validateSources_valid, validateSources_invalid, negb_involutive.
  reflexivity.
Qed.

Lemma check_sources_bad (field : string) (arg : option ArrayArg) :
  bad_sources P arg = false -> check_sources P field arg = None.
Proof.
  intros H. rewrite check_sources_spec. destruct arg as [[|l]|]; try reflexivity.
  - discriminate.
  - rewrite H. reflexivity.
Qed.

Lemma search_unfold (query : string) (options : SearchOptions.t) (http : Http) :
  search P self query options http
  = if bad_searchType options then
      rejected query "Invalid searchType provided. Must be one of: all, web, proprietary, news"
    else if bad_date P (SearchOptions.startDate options) then
      rejected query "Invalid startDate format. Must be YYYY-MM-DD"
    else if bad_date P (SearchOptions.endDate options) then
      rejected query "Invalid endDate format. Must be YYYY-MM-DD"
    else if bad_maxNumResults options then
      rejected query "maxNumResults must be between 1 and 100"
    else match check_sources P "includedSources" (SearchOptions.includedSources options) with
    | Some message => rejected query message
    | None =>
    match check_sources P "excludeSources" (SearchOptions.excludeSources options) with
    | Some message => rejected query message
    | None => search_posted self query options http
    end
    end.
Proof.
  unfold search, bad_searchType, bad_date, bad_maxNumResults, search_posted,
    rejected, final_searchType.
  unfold OpM.try_catch, mbind, op_bind, OpM.bind, mret, op_ret, OpM.ret, OpM.axios.
  destruct (SearchOptions.searchType options) as [t|]; cbn [fmap option_fmap option_map].
  - destruct (str_in (JsString.toLowerCase t) _) eqn:Ek; cbn [negb andb default from_option id].
    + destruct (_ && _); [reflexivity|].
      destruct (_ && _); [reflexivity|].
      destruct (_ || _); [reflexivity|].
      destruct (check_sources P "includedSources" _); [reflexivity|].
      destruct (check_sources P "excludeSources" _); [reflexivity|].
      destruct (http _) as [response|e]; [|reflexivity].
      destruct (bad_status _); reflexivity.
    + rewrite bool_decide_eq_true_2 by (eexists; reflexivity). reflexivity.
  - cbn [negb andb default from_option id].
    rewrite bool_decide_eq_false_2 by (intros [x Hx]; discriminate).
    destruct (_ && _); [reflexivity|].
    destruct (_ && _); [reflexivity|].
    destruct (_ || _); [reflexivity|].
    destruct (check_sources P "includedSources" _); [reflexivity|].
    destruct (check_sources P "excludeSources" _); [reflexivity|].
    destruct (http _) as [response|e]; [|reflexivity].
    destruct (bad_status _); reflexivity.
Qed.

Lemma invalid_sources_nil (l : list string) :
  existsb (fun s => negb (validateSource P s)) l = false <-> invalid_sources P l = [].
Proof.
  pose proof (validateSources_valid P l) as H. unfold validateSources in H.
  cbn [fst] in H. fold (invalid_sources P l) in H.
  destruct (invalid_sources P l) as [|x t]; cbn [length] in H.
  - rewrite bool_decide_eq_true_2 in H by reflexivity.
    destruct (existsb _ l); [discriminate | tauto].
  - rewrite bool_decide_eq_false_2 in H by discriminate.
    destruct (existsb _ l); [|discriminate]. split; discriminate.
Qed.

Lemma bad_sources_array (l : list string) :
  invalid_sources P l <> [] -> bad_sources P (Some (IsArray l)) = true.
Proof.
  intros H. cbn [bad_sources]. destruct (existsb _ l) eqn:E; [reflexivity|].
  apply invalid_sources_nil in E. contradiction.
Qed.

Lemma search_failure_fields (query : string) (error : JsValue) :
  Js.get (search_failure query error) "success" = JBool false
  /\ Js.get (search_failure query error) "error" = error
  /\ Js.get (search_failure query error) "results" = JArr []
  /\ Js.get (search_failure query error) "total_deduction_dollars" = num 0
  /\ Js.get (search_failure query error) "total_characters" = num 0.
Proof. repeat split. Qed.

(** A rejecting validation leaves no request. *)
Lemma search_rejected (query : string) (options : SearchOptions.t) (http : Http) :
  search_rejects P options = true ->
  exists message, search P self query options http = rejected query message.
Proof.
  unfold search_rejects. rewrite search_unfold. intros H.
  destruct (bad_searchType options); [eauto|].
  destruct (bad_date P (SearchOptions.startDate options)); [eauto|].
  destruct (bad_date P (SearchOptions.endDate options)); [eauto|].
  destruct (bad_maxNumResults options); [eauto|].
  cbn [orb] in H. rewrite !check_sources_spec.
  destruct (SearchOptions.includedSources options) as [[|l]|]; [eauto| |].
  - destruct (bad_sources P (Some (IsArray l))); [eauto|].
    cbn [orb] in H.
    destruct (SearchOptions.excludeSources options) as [[|l']|]; [eauto| |discriminate].
    rewrite H. eauto.
  - cbn [bad_sources orb] in H.
    destruct (SearchOptions.excludeSources options) as [[|l']|]; [eauto| |discriminate].
    rewrite H. eauto.
Qed.

(** A passing validation posts the payload. *)
Lemma search_accepted (query : string) (options : SearchOptions.t) (http : Http) :
  search_rejects P options = false ->
  search P self query options http = search_posted self query options http.
Proof.
  unfold search_rejects. rewrite search_unfold. intros H.
  apply orb_false_iff in H as [H Hexc]. apply orb_false_iff in H as [H Hinc].
  apply orb_false_iff in H as [H Hmax]. apply orb_false_iff in H as [H Hend].
  apply orb_false_iff in H as [Htype Hstart].
  rewrite Htype, Hstart, Hend, Hmax, !check_sources_bad by assumption.
  reflexivity.
Qed.

End SearchFacts.

(** C5, as the code has it. (1) A source string passes [validateSource]
    if and only if the URL constructor accepts it, or it is a domain (two or
    more labels joined by dots, each of 1 to 63 letters, digits and hyphens
    and neither starting nor ending with a hyphen, optionally followed by
    ["/"] and a non-empty path without line breaks), or it is a dataset
    identifier: exactly one ["/"] with a non-empty string of letters,
    digits, hyphens and underscores on either side. (2, 3) When an element
    of the [includedSources] (of the [excludeSources]) array given to
    [search] fails this check, the call resolves with [success: false] and
    issues no request; its error message lists exactly the invalid elements
    of that array, in order and separated by ", ", between the fixed text
    before and after them, provided that no earlier check has rejected
    the call: search type, dates and maximal number of results, and
    [includedSources] before [excludeSources]. (4) The listed elements are
    the elements of the array that fail the check. (5) When an earlier
    check rejects the call, the message is the one of the first check that
    fails, in the order search type, start date, end date, maximal number
    of results, [includedSources], whatever the source lists hold. *)
Theorem source_validation (P : Platform) (self : Valyu) :
  (forall s,
      validateSource P s = true
      <-> URL_parses P s = true \/ is_domain s \/ is_dataset_id s)
  /\ (forall query options http l,
        SearchOptions.includedSources options = Some (IsArray l) ->
        invalid_sources P l <> [] ->
        exists response,
          search P self query options http = (Normal response, [])
          /\ Js.get response "success" = JBool false
          /\ (early_checks_pass P options = true ->
              Js.get response "error"
              = JStr ("Invalid includedSources format. Invalid sources: "
                      +:+ JsString.join ", " (invalid_sources P l)
                      +:+ ". Sources must be valid URLs, domains (with optional paths), or dataset identifiers in 'provider/dataset' format.")))
  /\ (forall query options http l,
        SearchOptions.excludeSources options = Some (IsArray l) ->
        invalid_sources P l <> [] ->
        exists response,
          search P self query options http = (Normal response, [])
          /\ Js.get response "success" = JBool false
          /\ (early_checks_pass P options = true ->
              bad_sources P (SearchOptions.includedSources options) = false ->
              Js.get response "error"
              = JStr ("Invalid excludeSources format. Invalid sources: "
                      +:+ JsString.join ", " (invalid_sources P l)
                      +:+ ". Sources must be valid URLs, domains (with optional paths), or dataset identifiers in 'provider/dataset' format.")))
  /\ (forall l s, s ∈ invalid_sources P l <-> s ∈ l /\ validateSource P s = false)
  /\ (forall query options http,
        (bad_searchType options = true ->
         search P self query options http
         = (Normal (search_failure query
                      (JStr "Invalid searchType provided. Must be one of: all, web, proprietary, news")),
            []))
        /\ (bad_searchType options = false ->
            bad_date P (SearchOptions.startDate options) = true ->
            search P self query options http
            = (Normal (search_failure query
                         (JStr "Invalid startDate format. Must be YYYY-MM-DD")), []))
        /\ (bad_searchType options = false ->
            bad_date P (SearchOptions.startDate options) = false ->
            bad_date P (SearchOptions.endDate options) = true ->
            search P self query options http
            = (Normal (search_failure query
                         (JStr "Invalid endDate format. Must be YYYY-MM-DD")), []))
        /\ (bad_searchType options = false ->
            bad_date P (SearchOptions.startDate options) = false ->
            bad_date P (SearchOptions.endDate options) = false ->
            bad_maxNumResults options = true ->
            search P self query options http
            = (Normal (search_failure query
                         (JStr "maxNumResults must be between 1 and 100")), []))
        /\ (early_checks_pass P options = true ->
            SearchOptions.includedSources options = Some NotArray ->
            search P self query options http
            = (Normal (search_failure query (JStr "includedSources must be an array")),
               []))).
Proof.
  split; [intros s; rewrite validateSource_spec, validateDomain_spec; reflexivity|].
  split; [|split; [|split]]; cycle 3.
  - intros query options http. rewrite search_unfold. unfold rejected.
    split; [intros ->; reflexivity|].
    split; [intros -> ->; reflexivity|].
    split; [intros -> -> ->; reflexivity|].
    split; [intros -> -> -> ->; reflexivity|].
    intros Hearly Hinc. unfold early_checks_pass in Hearly.
    apply negb_true_iff in Hearly.
    apply orb_false_iff in Hearly as [Hearly Hmax].
    apply orb_false_iff in Hearly as [Hearly Hend].
    apply orb_false_iff in Hearly as [Htype Hstart].
    rewrite Htype, Hstart, Hend, Hmax, Hinc. reflexivity.
  - intros query options http l Hl Hbad.
    destruct (search_rejected P self query options http) as [message Hm].
    { unfold search_rejects. rewrite Hl, (bad_sources_array P l Hbad).
      rewrite !orb_true_r. reflexivity. }
    exists (search_failure query (JStr message)).
    split; [exact Hm|]. split; [reflexivity|].
    intros Hearly. unfold early_checks_pass in Hearly.
    apply negb_true_iff in Hearly.
    apply orb_false_iff in Hearly as [Hearly Hmax].
    apply orb_false_iff in Hearly as [Hearly Hend].
    apply orb_false_iff in Hearly as [Htype Hstart].
    rewrite search_unfold, Htype, Hstart, Hend, Hmax, check_sources_spec, Hl,
      (bad_sources_array P l Hbad) in Hm.
    injection Hm as Hm. rewrite <- Hm. reflexivity.
  - intros query options http l Hl Hbad.
    destruct (search_rejected P self query options http) as [message Hm].
    { unfold search_rejects. rewrite Hl, (bad_sources_array P l Hbad).
      rewrite !orb_true_r. reflexivity. }
    exists (search_failure query (JStr message)).
    split; [exact Hm|]. split; [reflexivity|].
    intros Hearly Hinc. unfold early_checks_pass in Hearly.
    apply negb_true_iff in Hearly.
    apply orb_false_iff in Hearly as [Hearly Hmax].
    apply orb_false_iff in Hearly as [Hearly Hend].
    apply orb_false_iff in Hearly as [Htype Hstart].
    rewrite search_unfold, Htype, Hstart, Hend, Hmax, (check_sources_bad P _ _ Hinc),
      check_sources_spec, Hl, (bad_sources_array P l Hbad) in Hm.
    injection Hm as Hm. rewrite <- Hm. reflexivity.
  - intros l s. unfold invalid_sources. rewrite list_elem_of_filter. tauto.
Qed.

Lemma source_validation_witness :
  let sources := ["example.com"; "not a source"; "valyu/valyu-arxiv"; "!!"] in
  let options := Sample.sourced None (Some (IsArray sources)) None in
  invalid_sources Sample.platform sources = ["not a source"; "!!"]
  /\ exists response,
       search Sample.platform Sample.client "q" options (Sample.answering JNull)
       = (Normal response, [])
       /\ Js.get response "success" = JBool false
       /\ Js.get response "error"
          = JStr "Invalid includedSources format. Invalid sources: not a source, !!. Sources must be valid URLs, domains (with optional paths), or dataset identifiers in 'provider/dataset' format.".
Proof.
  intros sources options.
  assert (Hinvalid : invalid_sources Sample.platform sources = ["not a source"; "!!"])
    by (vm_compute; reflexivity).
  split; [exact Hinvalid|].
  destruct (proj1 (proj2 (source_validation Sample.platform Sample.client))
              "q" options (Sample.answering JNull) sources eq_refl)
    as (response & Hrun & Hsuccess & Herror).
  - rewrite Hinvalid. discriminate.
  - exists response. split; [exact Hrun|]. split; [exact Hsuccess|].
    rewrite (Herror eq_refl), Hinvalid. reflexivity.
Defined.

(** C5 as stated fails when an earlier check rejects the call. With an
    unknown search type and an invalid source, the error message is the one
    of the search type and names no source. With an invalid element in each
    list, the message lists the one of [includedSources] only, so the
    invalid element of the [excludeSources] array is not listed. *)
Lemma sources_message_shadowed :
  completion
    (search Sample.platform Sample.client "q"
       (Sample.sourced (Some "bogus") (Some (IsArray ["not a source"])) None)
       (Sample.answering JNull))
  = Normal (search_failure "q"
              (JStr "Invalid searchType provided. Must be one of: all, web, proprietary, news"))
  /\ invalid_sources Sample.platform ["not a source"] = ["not a source"]
  /\ completion
       (search Sample.platform Sample.client "q"
          (Sample.sourced None (Some (IsArray ["bad one"])) (Some (IsArray ["bad two"])))
          (Sample.answering JNull))
     = Normal (search_failure "q"
                 (JStr "Invalid includedSources format. Invalid sources: bad one. Sources must be valid URLs, domains (with optional paths), or dataset identifiers in 'provider/dataset' format."))
  /\ invalid_sources Sample.platform ["bad two"] = ["bad two"].
Proof. repeat split; vm_compute; reflexivity. Qed.

(** The domain pattern bounds a label by 63 characters: 63 letters followed
    by ".com" pass the validation, 64 letters followed by ".com" fail it. *)
Example label_length_bound :
  validateSource Sample.platform (Sample.letters 63 +:+ ".com") = true
  /\ validateSource Sample.platform (Sample.letters 64 +:+ ".com") = false.
Proof. split; vm_compute; reflexivity. Qed.

Section ContentsFacts.

Context (self : Valyu).

Lemma contents_failure_fields (error : JsValue) (requested failed : Z) :
  Js.get (contents_failure error requested failed) "success" = JBool false
  /\ Js.get (contents_failure error requested failed) "error" = error
  /\ Js.get (contents_failure error requested failed) "results" = JArr []
  /\ Js.get (contents_failure error requested failed) "total_cost_dollars" = num 0
  /\ Js.get (contents_failure error requested failed) "total_characters" = num 0.
Proof. repeat split. Qed.

Lemma contents_rejected (urls : ArrayArg) (options : ContentsOptions.t) (http : Http) :
  contents_rejects urls options = true ->
  exists message requested failed,
    contents self urls options http
    = (Normal (contents_failure (JStr message) requested failed), []).
Proof.
  unfold contents_rejects, contents, check_responseLength.
  unfold OpM.try_catch, mbind, op_bind, OpM.bind, mret, op_ret, OpM.ret, OpM.axios.
  destruct urls as [|l]; [eauto|]. intros H.
  destruct (bool_decide (length l = 0%nat)); [eauto|].
  destruct (10 <? length l)%nat; [eauto|].
  destruct (_ && _); [eauto|]. cbn [orb] in H.
  destruct (ContentsOptions.responseLength options) as [[word|q]|]; [| |discriminate].
  - rewrite H. eauto.
  - rewrite H. eauto.
Qed.

Lemma contents_accepted (urls : ArrayArg) (options : ContentsOptions.t) (http : Http) :
  contents_rejects urls options = false ->
  exists l,
    urls = IsArray l
    /\ requests (contents self urls options http)
       = [contents_request self (contents_payload l options)].
Proof.
  unfold contents_rejects, contents, check_responseLength, requests.
  unfold OpM.try_catch, mbind, op_bind, OpM.bind, mret, op_ret, OpM.ret, OpM.axios.
  destruct urls as [|l]; [discriminate|]. intros H. exists l. split; [reflexivity|].
  apply orb_false_iff in H as [H Hlength]. apply orb_false_iff in H as [H Heffort].
  apply orb_false_iff in H as [Hempty Hmany].
  rewrite Hempty, Hmany, Heffort.
  destruct (ContentsOptions.responseLength options) as [[word|q]|];
    try rewrite Hlength;
    destruct (http _) as [response|e]; try reflexivity;
    destruct (bad_status _); reflexivity.
Qed.

End ContentsFacts.

(** C7, as the code has it. A rejecting validation is atomic. Whenever
    the validation of [search] rejects (a search type outside all, web,
    proprietary, news; a start or end date that is given, is not the empty
    string and is not a YYYY-MM-DD date; a maximal number of results
    outside 1..100; a source list that is not an array or has an invalid
    element), and whenever the validation of [contents] rejects (urls not
    an array, empty, or more than 10; an extract effort that is given, is
    not the empty string and is unknown; an invalid response length), the
    call resolves with a [success: false] object with empty [results] and
    zero cost and character totals, and no HTTP request is issued.
    Otherwise exactly one request is issued. *)
Theorem validation_is_atomic (P : Platform) (self : Valyu) :
  (forall query options http,
      search_rejects P options = true ->
      exists response,
        search P self query options http = (Normal response, [])
        /\ Js.get response "success" = JBool false
        /\ Js.get response "results" = JArr []
        /\ Js.get response "total_deduction_dollars" = num 0
        /\ Js.get response "total_characters" = num 0)
  /\ (forall urls options http,
        contents_rejects urls options = true ->
        exists response,
          contents self urls options http = (Normal response, [])
          /\ Js.get response "success" = JBool false
          /\ Js.get response "results" = JArr []
          /\ Js.get response "total_cost_dollars" = num 0
          /\ Js.get response "total_characters" = num 0)
  /\ (forall query options http,
        search_rejects P options = false ->
        length (requests (search P self query options http)) = 1%nat)
  /\ (forall urls options http,
        contents_rejects urls options = false ->
        length (requests (contents self urls options http)) = 1%nat).
Proof.
  split; [|split; [|split]].
  - intros query options http H.
    destruct (search_rejected P self query options http H) as [message ->].
    exists (search_failure query (JStr message)). repeat split.
  - intros urls options http H.
    destruct (contents_rejected self urls options http H)
      as (message & requested & failed & ->).
    exists (contents_failure (JStr message) requested failed). repeat split.
  - intros query options http H. rewrite (search_accepted P self _ _ _ H).
    reflexivity.
  - intros urls options http H.
    destruct (contents_accepted self urls options http H) as (l & _ & ->).
    reflexivity.
Qed.

Lemma validation_is_atomic_witness :
  (exists response,
      search Sample.platform Sample.client "q"
        (Sample.sourced (Some "images") None None) (Sample.answering JNull)
      = (Normal response, [])
      /\ Js.get response "success" = JBool false
      /\ Js.get response "results" = JArr []
      /\ Js.get response "total_deduction_dollars" = num 0
      /\ Js.get response "total_characters" = num 0)
  /\ (exists response,
        contents Sample.client (IsArray []) ContentsOptions.empty (Sample.answering JNull)
        = (Normal response, [])
        /\ Js.get response "success" = JBool false
        /\ Js.get response "results" = JArr []
        /\ Js.get response "total_cost_dollars" = num 0
        /\ Js.get response "total_characters" = num 0).
Proof.
  destruct (validation_is_atomic Sample.platform Sample.client)
    as (Hsearch & Hcontents & _).
  split.
  - apply Hsearch. reflexivity.
  - apply Hcontents. reflexivity.
Defined.

(** C7 as stated fails for an empty string. The start date [""] does not
    match YYYY-MM-DD and the extract effort [""] is none of normal, high,
    auto, yet neither is rejected: the checks are guarded by the truth of
    the option, and each call posts the empty string to the server. *)
Lemma empty_strings_are_posted :
  let options :=
    {| SearchOptions.searchType := None;
       SearchOptions.maxNumResults := None;
       SearchOptions.maxPrice := None;
       SearchOptions.isToolCall := None;
       SearchOptions.relevanceThreshold := None;
       SearchOptions.includedSources := None;
       SearchOptions.excludeSources := None;
       SearchOptions.category := None;
       SearchOptions.startDate := Some "";
       SearchOptions.endDate := None;
       SearchOptions.countryCode := None;
       SearchOptions.responseLength := None;
       SearchOptions.fastMode := None;
       SearchOptions.urlOnly := None |} in
  let effort :=
    {| ContentsOptions.summary := None;
       ContentsOptions.extractEffort := Some "";
       ContentsOptions.responseLength := None;
       ContentsOptions.maxPriceDollars := None;
       ContentsOptions.screenshot := None |} in
  (validateDateFormat Sample.platform "" = false
   /\ exists payload,
        search Sample.platform Sample.client "q" options
          (Sample.answering (JObj [("success", JBool true)]))
        = (Normal (JObj [("success", JBool true)]),
           [{| req_method := POST;
               req_url := baseUrl Sample.client +:+ "/deepsearch";
               req_body := Some payload;
               req_headers := headers Sample.client |}])
        /\ payload !! "start_date" = Some (JStr ""))
  /\ (str_in "" ["normal"; "high"; "auto"] = false
      /\ exists payload,
           contents Sample.client (IsArray ["https://example.com"]) effort
             (Sample.answering (JObj [("success", JBool true)]))
           = (Normal (JObj [("success", JBool true)]),
              [{| req_method := POST;
                  req_url := baseUrl Sample.client +:+ "/contents";
                  req_body := Some payload;
                  req_headers := headers Sample.client |}])
           /\ payload !! "extract_effort" = Some (JStr "")).
Proof.
  intros options effort. split.
  - split; [reflexivity|]. eexists. split; [reflexivity|]. reflexivity.
  - split; [reflexivity|]. eexists. split; [reflexivity|]. reflexivity.
Qed.

(** ** Payloads *)

Lemma lookup_set_opt_eq (k : string) (v : option JsValue) (m : gmap string JsValue) :
  set_opt k v m !! k = match v with Some x => Some x | None => m !! k end.
Proof. destruct v; [apply lookup_insert_eq | reflexivity]. Qed.

Lemma lookup_set_opt_ne (k k' : string) (v : option JsValue) (m : gmap string JsValue) :
  k <> k' -> set_opt k v m !! k' = m !! k'.
Proof. intros H. destruct v; [apply lookup_insert_ne, H | reflexivity]. Qed.

Ltac lookup_payload :=
  repeat first
    [ rewrite lookup_set_opt_eq
    | rewrite lookup_set_opt_ne by discriminate
    | rewrite lookup_insert_eq
    | rewrite lookup_insert_ne by discriminate
    | rewrite lookup_empty ].

Lemma is_Some_fmap {A B} (f : A -> B) (o : option A) :
  is_Some (match f <$> o with Some x => Some x | None => None end) <-> is_Some o.
Proof. destruct o; cbn; split; intros [x H]; eauto; discriminate. Qed.

(** The request of [answer] when its validation passes, in either mode *)
Lemma answer_posts (P : Platform) (self : Valyu) (query : string)
    (options : AnswerOptions.t) (http : Http) :
  validateAnswerParams P query options = None ->
  requests (answer P self query options http)
  = [answer_request self (buildAnswerPayload query options)].
Proof.
  intros H. unfold answer, requests. rewrite H.
  destruct (default false (AnswerOptions.streaming options)).
  - unfold streamAnswer. reflexivity.
  - unfold fetchAnswer, OpM.try_catch, mbind, op_bind, OpM.bind, mret, op_ret,
      OpM.ret, OpM.axios, OpM.throw.
    destruct (http _) as [response|e]; [|reflexivity].
    destruct (negb (resp_ok response)).
    + unfold http_error. destruct (Js.nullish _); reflexivity.
    + destruct (resp_body response) as [body|]; [|reflexivity].
      destruct (body_error body); reflexivity.
Qed.

(** C9. For every input that the validation of [search] accepts, the call
    issues one request, a POST to [/deepsearch] whose body has [query],
    [search_type] (the provided value in lower case, ["all"] by default),
    [max_num_results] (10 by default), [is_tool_call] (true by default)
    and [relevance_threshold] (0.5 by default), and has each optional
    snake_case key if and only if the corresponding option was provided.
    The payload of [answer] has the trimmed query as its [query], and it
    is the body of the request that [answer] posts to [/answer]. *)
Theorem search_payload_shape (P : Platform) (self : Valyu) :
  (forall query options http,
  search_rejects P options = false ->
  exists payload,
    requests (search P self query options http)
    = [{| req_method := POST; req_url := baseUrl self +:+ "/deepsearch";
          req_body := Some payload; req_headers := headers self |}]
    /\ payload !! "query" = Some (JStr query)
    /\ payload !! "search_type"
       = Some (JStr (match SearchOptions.searchType options with
                     | Some t => JsString.toLowerCase t
                     | None => "all"
                     end))
    /\ payload !! "max_num_results"
       = Some (JNum (default (inject_Z 10) (SearchOptions.maxNumResults options)))
    /\ payload !! "is_tool_call"
       = Some (JBool (default true (SearchOptions.isToolCall options)))
    /\ payload !! "relevance_threshold"
       = Some (JNum (default (1 # 2)%Q (SearchOptions.relevanceThreshold options)))
    /\ (is_Some (payload !! "max_price") <-> is_Some (SearchOptions.maxPrice options))
    /\ (is_Some (payload !! "included_sources")
        <-> is_Some (SearchOptions.includedSources options))
    /\ (is_Some (payload !! "exclude_sources")
        <-> is_Some (SearchOptions.excludeSources options))
    /\ (is_Some (payload !! "category") <-> is_Some (SearchOptions.category options))
    /\ (is_Some (payload !! "start_date") <-> is_Some (SearchOptions.startDate options))
    /\ (is_Some (payload !! "end_date") <-> is_Some (SearchOptions.endDate options))
    /\ (is_Some (payload !! "country_code")
        <-> is_Some (SearchOptions.countryCode options))
    /\ (is_Some (payload !! "response_length")
        <-> is_Some (SearchOptions.responseLength options))
    /\ (is_Some (payload !! "fast_mode") <-> is_Some (SearchOptions.fastMode options))
    /\ (is_Some (payload !! "url_only") <-> is_Some (SearchOptions.urlOnly options)))
  /\ (forall query answerOptions,
        buildAnswerPayload query answerOptions !! "query"
        = Some (JStr (JsString.trim query)))
  /\ (forall query answerOptions http,
        validateAnswerParams P query answerOptions = None ->
        exists payload,
          requests (answer P self query answerOptions http)
          = [{| req_method := POST; req_url := baseUrl self +:+ "/answer";
                req_body := Some payload;
                req_headers := <["Accept" := "text/event-stream"]> (headers self) |}]
          /\ payload !! "query" = Some (JStr (JsString.trim query))).
Proof.
  split; [|split]; cycle 2.
  - intros query answerOptions http Hvalid.
    exists (buildAnswerPayload query answerOptions).
    split; [apply answer_posts, Hvalid|].
    unfold buildAnswerPayload. lookup_payload. reflexivity.
  - intros query options http Hvalid.
    exists (search_payload query options (final_searchType options)
              (default (inject_Z 10) (SearchOptions.maxNumResults options))).
    split; [rewrite (search_accepted P self _ _ _ Hvalid); reflexivity|].
    unfold search_payload, final_searchType.
    repeat split; lookup_payload; try reflexivity;
      try (apply is_Some_fmap; assumption);
      try (intros H; apply is_Some_fmap; exact H).
  - intros query answerOptions. unfold buildAnswerPayload.
    lookup_payload. reflexivity.
Qed.

Lemma search_payload_shape_witness :
  exists payload,
    requests (search Sample.platform Sample.client "quantum computing"
                (Sample.sourced (Some "WEB") (Some (IsArray ["arxiv.org"])) None)
                (Sample.answering JNull))
    = [{| req_method := POST; req_url := "https://api.valyu.ai/v1/deepsearch";
          req_body := Some payload; req_headers := headers Sample.client |}]
    /\ payload !! "search_type" = Some (JStr "web")
    /\ payload !! "max_num_results" = Some (JNum (inject_Z 10))
    /\ is_Some (payload !! "included_sources")
    /\ payload !! "exclude_sources" = None.
Proof.
  destruct (proj1 (search_payload_shape Sample.platform Sample.client)
              "quantum computing"
              (Sample.sourced (Some "WEB") (Some (IsArray ["arxiv.org"])) None)
              (Sample.answering JNull) eq_refl)
    as (payload & Hreq & _ & Htype & Hmax & _ & _ & _ & Hinc & Hexc & _).
  exists payload. split; [exact Hreq|]. split; [exact Htype|]. split; [exact Hmax|].
  split.
  - apply Hinc. eexists. reflexivity.
  - destruct (payload !! "exclude_sources") eqn:E; [|reflexivity].
    destruct (proj1 Hexc ltac:(eexists; reflexivity)) as [x Hx]. discriminate.
Defined.

(** ** The constructor *)

(** C10. Without an [apiKey] argument the constructor falls back to the
    environment variable VALYU_API_KEY, and throws an Error with the
    message "VALYU_API_KEY is not set" when that variable is absent too; in
    every construction that does not throw, the header [x-api-key] is the
    resolved key and [Content-Type] is "application/json". *)
Theorem constructor_key :
  (forall base env,
      env !! "VALYU_API_KEY" = None ->
      constructor None base env = Throw key_not_set
      /\ exn_message key_not_set = "VALYU_API_KEY is not set")
  /\ (forall base env k,
        env !! "VALYU_API_KEY" = Some k ->
        JsString.nonempty k = true ->
        exists client,
          constructor None base env = Normal client
          /\ headers client !! "x-api-key" = Some k)
  /\ (forall apiKey base env client,
        constructor apiKey base env = Normal client ->
        exists k,
          resolved_key apiKey env = Some k
          /\ headers client !! "x-api-key" = Some k
          /\ headers client !! "Content-Type" = Some "application/json").
Proof.
  split; [|split].
  - intros base env H. unfold constructor, resolved_key. rewrite H.
    split; reflexivity.
  - intros base env k H Hk. unfold constructor, resolved_key. rewrite H, Hk.
    eexists. split; [reflexivity|]. cbn [headers]. apply lookup_insert_eq.
  - intros apiKey base env client. unfold constructor.
    destruct (resolved_key apiKey env) as [k|]; [|discriminate].
    destruct (JsString.nonempty k); [|discriminate].
    intros H. injection H as <-. exists k. split; [reflexivity|].
    cbn [headers]. split; [apply lookup_insert_eq|].
    rewrite lookup_insert_ne by discriminate. apply lookup_insert_eq.
Qed.

Lemma constructor_key_witness :
  let env : gmap string string := <["VALYU_API_KEY" := "env-key"]> ∅ in
  let client :=
    {| baseUrl := default_baseUrl;
       headers := <["x-api-key" := "arg-key"]>
                    (<["Content-Type" := "application/json"]> ∅) |} in
  constructor None None ∅ = Throw key_not_set
  /\ (exists c,
        constructor None None env = Normal c
        /\ headers c !! "x-api-key" = Some "env-key")
  /\ (exists k,
        resolved_key (Some "arg-key") env = Some k
        /\ headers client !! "x-api-key" = Some k
        /\ headers client !! "Content-Type" = Some "application/json").
Proof.
  intros env client.
  destruct constructor_key as (Habsent & Hfallback & Hheaders).
  split; [|split].
  - apply Habsent. reflexivity.
  - apply (Hfallback None env "env-key"); reflexivity.
  - apply (Hheaders (Some "arg-key") None env client). reflexivity.
Defined.

(** ** Errors of the single-call operations *)

Lemma try_catch_total {A} (m : Op A) (h : Exn -> A) (http : Http) :
  exists a, completion (OpM.try_catch m (fun e => mret (h e)) http) = Normal a.
Proof.
  unfold OpM.try_catch, completion.
  destruct (m http) as [[a|e] t]; cbn; eauto.
Qed.

Lemma run_total (P : Platform) (self : Valyu) (call : Call) (http : Http) :
  exists response, completion (run P self call http) = Normal response.
Proof.
  destruct call; cbn [run];
    first [ apply (try_catch_total _ (fun e => failure (catch_error e)))
          | apply (try_catch_total _ (fun e => search_failure _ (catch_error e)))
          | apply (try_catch_total _ (fun e => contents_failure (catch_error e) _ _)) ].
Qed.

Ltac op_unfold :=
  unfold OpM.try_catch, catch_failure, mbind, op_bind, OpM.bind, mret, op_ret,
    OpM.ret, OpM.axios, OpM.throw, completion, requests.

Ltac op_finish :=
  cbn; eexists; split; [reflexivity|]; split; [reflexivity|];
  first [ intros _; reflexivity | intros H; exfalso; apply H; reflexivity ].

Lemma run_thrown (P : Platform) (self : Valyu) (call : Call) (e : Exn) :
  exists response,
    completion (run P self call (fun _ => HttpThrow e)) = Normal response
    /\ Js.get response "success" = JBool false
    /\ (requests (run P self call (fun _ => HttpThrow e)) <> [] ->
        Js.get response "error" = catch_error e).
Proof.
  destruct call; cbn [run].
  - rewrite search_unfold. unfold rejected, search_posted. op_unfold.
    destruct (bad_searchType options); [op_finish|].
    destruct (bad_date P _); [op_finish|].
    destruct (bad_date P _); [op_finish|].
    destruct (bad_maxNumResults options); [op_finish|].
    destruct (check_sources P "includedSources" _); [op_finish|].
    destruct (check_sources P "excludeSources" _); [op_finish|].
    op_finish.
  - unfold contents. op_unfold.
    destruct urls as [|l]; [op_finish|].
    destruct (bool_decide _); [op_finish|].
    destruct (10 <? length l)%nat; [op_finish|].
    destruct (_ && _); [op_finish|].
    destruct (check_responseLength _); op_finish.
  - unfold _deepresearchCreate. op_unfold.
    destruct (negb _); op_finish.
  - unfold _deepresearchStatus. op_unfold. op_finish.
  - unfold _deepresearchList. op_unfold. op_finish.
  - unfold _deepresearchUpdate. op_unfold.
    destruct (negb _); op_finish.
  - unfold _deepresearchCancel. op_unfold. op_finish.
  - unfold _deepresearchDelete. op_unfold. op_finish.
  - unfold _deepresearchTogglePublic. op_unfold. op_finish.
  - unfold _deepresearchGetAssets. op_unfold. op_finish.
  - unfold _batchCreate. op_unfold. op_finish.
  - unfold _batchStatus. op_unfold. op_finish.
  - unfold _batchAddTasks. op_unfold.
    destruct tasks as [l|]; [|op_finish].
    destruct (bool_decide _); [op_finish|].
    destruct (100 <? length l)%nat; [op_finish|].
    destruct (existsb _ l); op_finish.
  - unfold _batchListTasks. op_unfold. op_finish.
  - unfold _batchCancel. op_unfold. op_finish.
  - unfold _batchList. op_unfold. op_finish.
  - unfold _datasourcesList. op_unfold. op_finish.
  - unfold _datasourcesCategories. op_unfold. op_finish.
Qed.

Lemma answer_total (P : Platform) (self : Valyu) (query : string)
    (options : AnswerOptions.t) (http : Http) :
  default false (AnswerOptions.streaming options) = false ->
  exists response,
    completion (answer P self query options http) = Normal (AnswerObject response).
Proof.
  intros Hs. unfold answer. rewrite Hs.
  destruct (validateAnswerParams P query options); [eexists; reflexivity|].
  destruct (try_catch_total
              (response ← OpM.axios (answer_request self (buildAnswerPayload query options));
               if negb (resp_ok response) then
                 error ← http_error P response; mret (answer_failure error)
               else
                 match resp_body response with
                 | None => mret (fetch_result (buildAnswerPayload query options) collected_init)
                 | Some body =>
                     match body_error body with
                     | Some e => OpM.throw e
                     | None =>
                         mret (fetch_result (buildAnswerPayload query options)
                                 (read_all P (fetch_line P) collected_init (body_chunks body)))
                     end
                 end)
              (fun e => answer_failure (message_or e "Request failed")) http)
    as [response Hr].
  exists response. unfold completion in *. fold (fetchAnswer P self (buildAnswerPayload query options)) in Hr.
  unfold mbind, op_bind, OpM.bind.
  destruct (fetchAnswer P self (buildAnswerPayload query options) http) as [[v|e] t];
    cbn in *; congruence.
Qed.

Lemma answer_thrown (P : Platform) (self : Valyu) (query : string)
    (options : AnswerOptions.t) (e : Exn) :
  default false (AnswerOptions.streaming options) = false ->
  exists response,
    completion (answer P self query options (fun _ => HttpThrow e))
    = Normal (AnswerObject response)
    /\ Js.get response "success" = JBool false
    /\ (requests (answer P self query options (fun _ => HttpThrow e)) <> [] ->
        Js.get response "error" = message_or e "Request failed").
Proof.
  intros Hs. unfold answer. rewrite Hs.
  destruct (validateAnswerParams P query options); [op_unfold; op_finish|].
  unfold fetchAnswer. op_unfold. op_finish.
Qed.

(** C8, as the code has it. The single-call operations never reject.
    Whatever the server and the network do, [search], [contents], the
    deepresearch, batch and datasources operations and the non-streaming
    [answer] resolve. When the request is thrown back with an error [e],
    they resolve with an object whose [success] is false and whose [error]
    is the [error] field of the response body of [e] when that field is
    truthy, passed on as it is, and the message of [e] otherwise; it is a
    string whenever that field is a string or is falsy. For [answer], which
    uses [fetch], [error] is the message of [e], or "Request failed" when
    that message is empty. *)
Theorem single_calls_never_reject (P : Platform) (self : Valyu) :
  (forall call http,
      exists response, completion (run P self call http) = Normal response)
  /\ (forall call e,
        let outcome := run P self call (fun _ => HttpThrow e) in
        exists response,
          completion outcome = Normal response
          /\ Js.get response "success" = JBool false
          /\ (requests outcome <> [] ->
              Js.get response "error"
              = if Js.truthy (Js.opt_get (exn_response_data e) "error")
                then Js.opt_get (exn_response_data e) "error"
                else JStr (exn_message e)))
  /\ (forall query options http,
        default false (AnswerOptions.streaming options) = false ->
        exists response,
          completion (answer P self query options http)
          = Normal (AnswerObject response))
  /\ (forall query options e,
        default false (AnswerOptions.streaming options) = false ->
        let outcome := answer P self query options (fun _ => HttpThrow e) in
        exists response,
          completion outcome = Normal (AnswerObject response)
          /\ Js.get response "success" = JBool false
          /\ (requests outcome <> [] ->
              Js.get response "error"
              = if JsString.nonempty (exn_message e)
                then JStr (exn_message e) else JStr "Request failed"))
  /\ (forall call e response,
        let outcome := run P self call (fun _ => HttpThrow e) in
        completion outcome = Normal response ->
        requests outcome <> [] ->
        (exists s, Js.opt_get (exn_response_data e) "error" = JStr s)
        \/ Js.truthy (Js.opt_get (exn_response_data e) "error") = false ->
        exists message, Js.get response "error" = JStr message).
Proof.
  split; [exact (run_total P self)|].
  split; [exact (run_thrown P self)|].
  split; [exact (answer_total P self)|].
  split; [exact (answer_thrown P self)|].
  intros call e response outcome Hrun Hsent Hfield. subst outcome.
  destruct (run_thrown P self call e) as (response' & Hrun' & _ & Herror).
  rewrite Hrun' in Hrun. injection Hrun as <-.
  rewrite (Herror Hsent). unfold catch_error, Js.or.
  destruct Hfield as [[s Hs]|Hfalsy].
  - rewrite Hs. destruct (Js.truthy (JStr s)); eauto.
  - rewrite Hfalsy. eauto.
Qed.

Lemma single_calls_never_reject_witness :
  let network := {| exn_message := "Network Error"; exn_response_data := JUndefined |} in
  let refused :=
    {| exn_message := "Request failed with status code 401";
       exn_response_data := JObj [("error", JStr "Invalid API key")] |} in
  (exists response,
      completion (run Sample.platform Sample.client (CallStatus "dr_1")
                    (Sample.failing network)) = Normal response
      /\ Js.get response "success" = JBool false
      /\ Js.get response "error" = JStr "Network Error")
  /\ (exists response,
        completion (run Sample.platform Sample.client
                      (CallSearch "q" SearchOptions.empty)
                      (Sample.failing refused)) = Normal response
        /\ Js.get response "success" = JBool false
        /\ Js.get response "error" = JStr "Invalid API key")
  /\ (exists response,
        completion (answer Sample.platform Sample.client "q" AnswerOptions.empty
                      (Sample.failing network)) = Normal (AnswerObject response)
        /\ Js.get response "success" = JBool false
        /\ Js.get response "error" = JStr "Network Error").
Proof.
  intros network refused.
  destruct (single_calls_never_reject Sample.platform Sample.client)
    as (_ & Hthrown & _ & Hanswer & _).
  split; [|split].
  - destruct (Hthrown (CallStatus "dr_1") network) as (response & Hr & Hs & He).
    exists response. split; [exact Hr|]. split; [exact Hs|].
    apply He. discriminate.
  - destruct (Hthrown (CallSearch "q" SearchOptions.empty) refused)
      as (response & Hr & Hs & He).
    exists response. split; [exact Hr|]. split; [exact Hs|].
    apply He. discriminate.
  - destruct (Hanswer "q" AnswerOptions.empty network eq_refl)
      as (response & Hr & Hs & He).
    exists response. split; [exact Hr|]. split; [exact Hs|].
    apply He. discriminate.
Defined.

(** C8 as stated fails. When the body of the error response has the
    [error] field [""], the field is present but the result carries the
    message of the exception; when it has an object as its [error] field,
    the result carries that object, which is no string. *)
Lemma error_is_not_always_the_bodys :
  let blank :=
    {| exn_message := "Request failed with status code 500";
       exn_response_data := JObj [("error", JStr "")] |} in
  let structured :=
    {| exn_message := "Request failed with status code 400";
       exn_response_data := JObj [("error", JObj [("code", JStr "bad_request")])] |} in
  run Sample.platform Sample.client (CallStatus "dr_1") (Sample.failing blank)
  = (Normal (JObj [("success", JBool false);
                   ("error", JStr "Request failed with status code 500")]),
     [status_request Sample.client "dr_1"])
  /\ run Sample.platform Sample.client (CallStatus "dr_1") (Sample.failing structured)
     = (Normal (JObj [("success", JBool false);
                      ("error", JObj [("code", JStr "bad_request")])]),
        [status_request Sample.client "dr_1"]).
Proof. split; reflexivity. Qed.

(** * Further properties *)

(** ** Dates *)

Section DateFacts.

Import RegExp.

Context (p q : ascii -> bool).

(** A pattern of the form of [dateRegex] over two classes *)
Local Abbreviation pattern :=
  (RSeq (exactly 4 (RClass p))
     (RSeq (RClass q)
        (RSeq (exactly 2 (RClass p))
           (RSeq (RClass q) (exactly 2 (RClass p)))))).

Lemma test_date_pattern (s : string) :
  test pattern s
  = match s with
    | String y1 (String y2 (String y3 (String y4 (String h1
        (String m1 (String m2 (String h2 (String d1 (String d2 EmptyString))))))))) =>
        p y1 && p y2 && p y3 && p y4 && q h1 && p m1 && p m2 && q h2 && p d1 && p d2
    | _ => false
    end.
Proof.
  do 10 (destruct s as [|? s];
         [cbn; repeat (match goal with
                       | |- context [if p ?a then _ else _] => destruct (p a)
                       | |- context [if q ?a then _ else _] => destruct (q a)
                       end; cbn); reflexivity|]).
  destruct s as [|? s];
    cbn; repeat (match goal with
                 | |- context [if p ?a then _ else _] => destruct (p a)
                 | |- context [if q ?a then _ else _] => destruct (q a)
                 end; cbn); try reflexivity; apply test_none.
Qed.

End DateFacts.

(** X1. [validateDateFormat] accepts a string exactly when it has the form
    YYYY-MM-DD (four digits, a hyphen, two digits, a hyphen, two digits)
    and the platform parses it to a date; an accepted string has ten
    characters. *)
Theorem validateDateFormat_shape (P : Platform) (date : string) :
  (validateDateFormat P date = true
   <-> date_shape date = true /\ is_Some (Date_parse P date))
  /\ (validateDateFormat P date = true -> String.length date = 10%nat).
Proof.
  assert (Hshape : RegExp.test dateRegex date = date_shape date)
    by apply test_date_pattern.
  assert (Hiff : validateDateFormat P date = true
                 <-> date_shape date = true /\ is_Some (Date_parse P date)).
  { unfold validateDateFormat. rewrite Hshape.
    destruct (date_shape date); cbn [negb].
    - rewrite bool_decide_eq_true. tauto.
    - split; [discriminate | intros [H _]; discriminate]. }
  split; [exact Hiff|].
  intros H. apply Hiff in H as [H _].
  do 10 (destruct date as [|? date]; [discriminate|]).
  destruct date; [reflexivity | discriminate].
Qed.

Lemma validateDateFormat_shape_witness :
  validateDateFormat Sample.platform "2024-02-29" = true
  /\ String.length "2024-02-29" = 10%nat.
Proof.
  split; [reflexivity|].
  apply (proj2 (validateDateFormat_shape Sample.platform "2024-02-29")).
  reflexivity.
Defined.

(** ** Responses and payloads of [search] and [contents] *)

Lemma option_eta {A} (o : option A) :
  match o with Some x => Some x | None => None end = o.
Proof. destruct o; reflexivity. Qed.

Lemma bad_status_range (status : Z) :
  bad_status status = false <-> 200 <= status < 300.
Proof. unfold bad_status. lia. Qed.

(** X2. Once the validation has passed and the server has answered,
    [search] and [contents] return the body of a response whose status is
    in 200..299 as it is; for any other status they return their failure
    object, [search] with the [error] of the body (undefined when it has
    none), [contents] with that [error] or "Request failed". *)
Theorem http_status_handling (P : Platform) (self : Valyu) :
  (forall query options http response,
      search_rejects P options = false ->
      http (search_request self
              (search_payload query options (final_searchType options)
                 (default (inject_Z 10) (SearchOptions.maxNumResults options))))
      = HttpOk response ->
      (200 <= resp_status response < 300 ->
       completion (search P self query options http) = Normal (resp_data response))
      /\ (~ 200 <= resp_status response < 300 ->
          completion (search P self query options http)
          = Normal (search_failure query (Js.opt_get (resp_data response) "error"))))
  /\ (forall l options http response,
        contents_rejects (IsArray l) options = false ->
        http (contents_request self (contents_payload l options)) = HttpOk response ->
        (200 <= resp_status response < 300 ->
         completion (contents self (IsArray l) options http) = Normal (resp_data response))
        /\ (~ 200 <= resp_status response < 300 ->
            completion (contents self (IsArray l) options http)
            = Normal (contents_failure
                        (Js.or (Js.opt_get (resp_data response) "error")
                           (JStr "Request failed"))
                        (Z.of_nat (length l)) (Z.of_nat (length l))))).
Proof.
  split.
  - intros query options http response Hvalid Hhttp.
    rewrite (search_accepted P self _ _ _ Hvalid).
    unfold search_posted, completion. cbn [fst]. rewrite Hhttp.
    split; intros Hs.
    + apply bad_status_range in Hs. rewrite Hs. reflexivity.
    + destruct (bad_status (resp_status response)) eqn:E; [reflexivity|].
      apply bad_status_range in E. contradiction.
  - intros l options http response Hvalid Hhttp.
    unfold contents_rejects in Hvalid.
    apply orb_false_iff in Hvalid as [H Hlength].
    apply orb_false_iff in H as [H Heffort].
    apply orb_false_iff in H as [Hempty Hmany].
    assert (Hcheck : check_responseLength (ContentsOptions.responseLength options) = None).
    { unfold check_responseLength.
      destruct (ContentsOptions.responseLength options) as [[word|q]|];
        try rewrite Hlength; reflexivity. }
    unfold contents, completion.
    unfold OpM.try_catch, mbind, op_bind, OpM.bind, mret, op_ret, OpM.ret, OpM.axios.
    rewrite Hempty, Hmany, Heffort, Hcheck, Hhttp.
    split; intros Hs.
    + apply bad_status_range in Hs. rewrite Hs. reflexivity.
    + destruct (bad_status (resp_status response)) eqn:E; [reflexivity|].
      apply bad_status_range in E. contradiction.
Qed.

Lemma http_status_handling_witness :
  completion (search Sample.platform Sample.client "q" SearchOptions.empty
                (Sample.answering (JObj [("success", JBool true)])))
  = Normal (JObj [("success", JBool true)])
  /\ completion
       (contents Sample.client (IsArray ["https://example.com"]) ContentsOptions.empty
          (fun _ => HttpOk {| resp_status := 500; resp_data := JNull;
                              resp_content_type := JUndefined;
                              resp_json := None; resp_body := None |}))
     = Normal (contents_failure (JStr "Request failed") 1 1).
Proof.
  destruct (http_status_handling Sample.platform Sample.client) as [Hsearch Hcontents].
  split.
  - apply (Hsearch "q" SearchOptions.empty _ (Sample.ok_response _)).
    + reflexivity.
    + reflexivity.
    + cbn. lia.
  - apply (Hcontents ["https://example.com"] ContentsOptions.empty _
             {| resp_status := 500; resp_data := JNull;
                resp_content_type := JUndefined;
                resp_json := None; resp_body := None |}).
    + reflexivity.
    + reflexivity.
    + cbn. lia.
Defined.

(** X3. For arguments that the validation of [contents] accepts, the call
    posts one request to [/contents] whose body holds [urls] and, for each
    option that was provided, its snake_case key with the value given;
    it holds no other key. *)
Theorem contents_payload_shape (self : Valyu) :
  forall urls options http,
    contents_rejects urls options = false ->
    exists l payload,
      urls = IsArray l
      /\ (1 <= length l <= 10)%nat
      /\ requests (contents self urls options http)
         = [{| req_method := POST; req_url := baseUrl self +:+ "/contents";
               req_body := Some payload; req_headers := headers self |}]
      /\ payload !! "urls" = Some (strings l)
      /\ payload !! "summary" = ContentsOptions.summary options
      /\ payload !! "extract_effort" = JStr <$> ContentsOptions.extractEffort options
      /\ payload !! "response_length"
         = ResponseLength_value <$> ContentsOptions.responseLength options
      /\ payload !! "max_price_dollars" = JNum <$> ContentsOptions.maxPriceDollars options
      /\ payload !! "screenshot" = JBool <$> ContentsOptions.screenshot options
      /\ (forall k,
            k ∉ ["urls"; "summary"; "extract_effort"; "response_length";
                 "max_price_dollars"; "screenshot"] ->
            payload !! k = None).
Proof.
  intros urls options http Hvalid.
  destruct (contents_accepted self urls options http Hvalid) as (l & -> & Hreq).
  exists l, (contents_payload l options). split; [reflexivity|].
  split.
  { unfold contents_rejects in Hvalid.
    apply orb_false_iff in Hvalid as [H _]. apply orb_false_iff in H as [H _].
    apply orb_false_iff in H as [Hempty Hmany].
    apply bool_decide_eq_false in Hempty. apply Nat.ltb_ge in Hmany. lia. }
  split; [exact Hreq|].
  unfold contents_payload.
  split; [lookup_payload; reflexivity|].
  do 5 (split; [lookup_payload; apply option_eta|]).
  intros k Hk.
  repeat (apply not_elem_of_cons in Hk as [? Hk]).
  rewrite !lookup_set_opt_ne, lookup_insert_ne by congruence.
  apply lookup_empty.
Qed.

Lemma contents_payload_shape_witness :
  exists l payload,
    IsArray ["https://example.com"] = IsArray l
    /\ requests (contents Sample.client (IsArray ["https://example.com"])
                   ContentsOptions.empty (Sample.answering JNull))
       = [{| req_method := POST; req_url := baseUrl Sample.client +:+ "/contents";
             req_body := Some payload; req_headers := headers Sample.client |}]
    /\ payload !! "urls" = Some (strings l)
    /\ payload !! "summary" = None.
Proof.
  destruct (contents_payload_shape Sample.client (IsArray ["https://example.com"])
              ContentsOptions.empty (Sample.answering JNull) eq_refl)
    as (l & payload & Hl & _ & Hreq & Hurls & Hsummary & _).
  exists l, payload. repeat split; assumption.
Defined.

(** X4. [contents] always resolves, and with one of two things: the body
    of a response with a status in 200..299, or a failure object with
    [success: false], no results, [urls_processed] 0 and [urls_failed]
    equal to [urls_requested], both being the number of URLs given (0
    when [urls] is not an array). *)
Theorem contents_failure_counts (self : Valyu) (urls : ArrayArg)
    (options : ContentsOptions.t) (http : Http) :
  exists response,
    completion (contents self urls options http) = Normal response
    /\ ((exists l r,
            urls = IsArray l
            /\ http (contents_request self (contents_payload l options)) = HttpOk r
            /\ 200 <= resp_status r < 300
            /\ response = resp_data r)
        \/ (Js.get response "success" = JBool false
            /\ Js.get response "results" = JArr []
            /\ Js.get response "urls_processed" = num 0
            /\ Js.get response "urls_requested"
               = num (match urls with
                      | IsArray l => Z.of_nat (length l)
                      | NotArray => 0
                      end)
            /\ Js.get response "urls_failed" = Js.get response "urls_requested")).
Proof.
  unfold contents, completion.
  unfold OpM.try_catch, mbind, op_bind, OpM.bind, mret, op_ret, OpM.ret, OpM.axios.
  destruct urls as [|l].
  { eexists. split; [reflexivity|]. right. repeat split. }
  destruct (bool_decide (length l = 0%nat)) eqn:Hempty.
  { apply bool_decide_eq_true in Hempty. rewrite Hempty.
    eexists. split; [reflexivity|]. right. repeat split. }
  destruct (10 <? length l)%nat.
  { eexists. split; [reflexivity|]. right. repeat split. }
  destruct (_ && _).
  { eexists. split; [reflexivity|]. right. repeat split. }
  destruct (check_responseLength _).
  { eexists. split; [reflexivity|]. right. repeat split. }
  destruct (http _) as [r|e] eqn:Hhttp.
  - destruct (bad_status (resp_status r)) eqn:Hs.
    + eexists. split; [reflexivity|]. right. repeat split.
    + eexists. split; [reflexivity|]. left. exists l, r.
      apply bad_status_range in Hs. repeat split; try assumption; lia.
  - eexists. split; [reflexivity|]. right. repeat split.
Qed.

(** A list of twelve URLs is refused, and the counts are twelve. *)
Lemma contents_failure_counts_witness :
  exists response,
    completion (contents Sample.client
                  (IsArray (repeat "https://example.com" 12))
                  ContentsOptions.empty (Sample.answering JNull))
    = Normal response
    /\ Js.get response "success" = JBool false
    /\ Js.get response "urls_requested" = num 12
    /\ Js.get response "urls_failed" = num 12.
Proof.
  destruct (contents_failure_counts Sample.client
              (IsArray (repeat "https://example.com" 12))
              ContentsOptions.empty (Sample.answering JNull))
    as (response & Hrun & [(l & r & _ & Hsent & _)|(Hs & _ & _ & Hurls & Hfailed)]).
  - exists response. split; [exact Hrun|].
    vm_compute in Hrun. injection Hrun as <-. repeat split.
  - exists response. split; [exact Hrun|]. split; [exact Hs|].
    split; [exact Hurls|]. rewrite Hfailed. exact Hurls.
Defined.

(** ** The parameters of [answer] *)

Section AnswerParamsFacts.

Context (P : Platform).

Lemma first_error_none (checks : list (option string)) :
  first_error checks = None <-> Forall (fun c => c = None) checks.
Proof.
  induction checks as [|c checks IH]; cbn [first_error foldr].
  - split; [constructor | reflexivity].
  - destruct c as [m|].
    + split; [discriminate | intros H; inversion H; discriminate].
    + fold (first_error checks). rewrite IH. split.
      * intros H. constructor; [reflexivity | exact H].
      * intros H. inversion H; assumption.
Qed.

Lemma nonempty_ne (s : string) : JsString.nonempty s = true <-> s <> "".
Proof. destruct s; cbn; split; congruence. Qed.

Lemma date_check_none (date : option string) (message : string) :
  (if provided_nonempty date && negb (validateDateFormat P (default "" date))
   then Some message else None) = None
  <-> forall d, date = Some d -> d <> "" -> validateDateFormat P d = true.
Proof.
  destruct date as [d|]; cbn [provided_nonempty default from_option id].
  - destruct (JsString.nonempty d) eqn:En; cbn [andb].
    + destruct (validateDateFormat P d) eqn:Ev; cbn [negb].
      * split; [intros _ d' [= <-] _; exact Ev | reflexivity].
      * split; [discriminate|]. intros H.
        specialize (H d eq_refl (proj1 (nonempty_ne d) En)). congruence.
    + split; [|reflexivity]. intros _ d' [= <-] Hd.
      apply nonempty_ne in Hd. congruence.
  - cbn [andb]. split; [intros _ d H; discriminate | reflexivity].
Qed.

Lemma all_valid (l : list string) :
  (validateSources P l).1 = true <-> Forall (fun s => validateSource P s = true) l.
Proof.
  rewrite validateSources_valid, negb_true_iff, Forall_forall.
  split.
  - intros H s Hs. destruct (validateSource P s) eqn:E; [reflexivity|].
    assert (Hex : existsb (fun s => negb (validateSource P s)) l = true).
    { apply existsb_exists. exists s. split; [apply list_elem_of_In, Hs|].
      rewrite E. reflexivity. }
    congruence.
  - intros H. destruct (existsb _ l) eqn:E; [|reflexivity].
    apply existsb_exists in E as (s & Hs & Hbad).
    rewrite (H s) in Hbad by (apply list_elem_of_In, Hs). discriminate.
Qed.

Lemma sources_check_none (field : string) (arg : option ArrayArg) :
  check_answer_sources P field arg = None
  <-> forall a, arg = Some a ->
        exists l, a = IsArray l /\ Forall (fun s => validateSource P s = true) l.
Proof.
  destruct arg as [[|l]|]; cbn [check_answer_sources].
  - split; [discriminate|]. intros H.
    destruct (H NotArray eq_refl) as (l & Hl & _). discriminate.
  - destruct ((validateSources P l).1) eqn:E; cbn [negb].
    + apply all_valid in E. split; [|reflexivity].
      intros _ a [= <-]. exists l. split; [reflexivity | exact E].
    + split; [discriminate|]. intros H.
      destruct (H (IsArray l) eq_refl) as (l' & [= <-] & Hall).
      apply all_valid in Hall. congruence.
  - split; [|reflexivity]. intros _ a H. discriminate.
Qed.

Lemma validateAnswerParams_ok (query : string) (o : AnswerOptions.t) :
  validateAnswerParams P query o = None <-> answer_params_ok P query o.
Proof.
  unfold validateAnswerParams, answer_params_ok.
  rewrite first_error_none, !Forall_cons, Forall_nil.
  rewrite !date_check_none, !sources_check_none.
  assert (Hq : (if negb (JsString.nonempty (JsString.trim query))
                then Some "Query is required and must be a non-empty string"
                else None) = None
               <-> JsString.trim query <> "").
  { rewrite <- nonempty_ne. destruct (JsString.nonempty _); cbn; split; congruence. }
  assert (Ht : match JsString.toLowerCase <$> AnswerOptions.searchType o with
               | Some s =>
                   if negb (known_searchType s)
                   then Some "Invalid searchType provided. Must be one of: all, web, proprietary, news"
                   else None
               | None => None
               end = None
               <-> forall t, AnswerOptions.searchType o = Some t ->
                     known_searchType (JsString.toLowerCase t) = true).
  { destruct (AnswerOptions.searchType o) as [t|]; cbn [fmap option_fmap option_map].
    - destruct (known_searchType (JsString.toLowerCase t)) eqn:Ek; cbn [negb].
      + split; [intros _ t' [= <-]; exact Ek | reflexivity].
      + split; [discriminate | intros H; specialize (H t eq_refl); congruence].
    - split; [intros _ t H; discriminate | reflexivity]. }
  assert (Hi : match AnswerOptions.systemInstructions o with
               | Some i =>
                   let trimmed := JsString.trim i in
                   if bool_decide (String.length trimmed = 0%nat)
                   then Some "systemInstructions cannot be empty when provided"
                   else if (2000 <? String.length trimmed)%nat
                   then Some "systemInstructions must be 2000 characters or less"
                   else None
               | None => None
               end = None
               <-> forall i, AnswerOptions.systemInstructions o = Some i ->
                     (1 <= String.length (JsString.trim i) <= 2000)%nat).
  { destruct (AnswerOptions.systemInstructions o) as [i|]; cbv zeta.
    - destruct (bool_decide (String.length (JsString.trim i) = 0%nat)) eqn:E0.
      + apply bool_decide_eq_true in E0. split; [discriminate|].
        intros H. specialize (H i eq_refl). lia.
      + apply bool_decide_eq_false in E0.
        destruct (2000 <? String.length (JsString.trim i))%nat eqn:E1.
        * apply Nat.ltb_lt in E1. split; [discriminate|].
          intros H. specialize (H i eq_refl). lia.
        * apply Nat.ltb_ge in E1. split; [|reflexivity].
          intros _ i' [= <-]. lia.
    - split; [intros _ i H; discriminate | reflexivity]. }
  assert (Hp : match AnswerOptions.dataMaxPrice o with
               | Some q =>
                   if Qle_bool q 0 then Some "dataMaxPrice must be a positive number"
                   else None
               | None => None
               end = None
               <-> forall price, AnswerOptions.dataMaxPrice o = Some price -> (0 < price)%Q).
  { destruct (AnswerOptions.dataMaxPrice o) as [q|].
    - destruct (Qle_bool q 0) eqn:E.
      + apply Qle_bool_iff in E. split; [discriminate|].
        intros H. specialize (H q eq_refl). apply Qlt_not_le in H. contradiction.
      + split; [|reflexivity]. intros _ price [= <-].
        apply Qnot_le_lt. intros H. apply Qle_bool_iff in H. congruence.
    - split; [intros _ q H; discriminate | reflexivity]. }
  assert (Hr : (if provided_nonempty (AnswerOptions.startDate o)
                   && provided_nonempty (AnswerOptions.endDate o)
                then
                  match Date_parse P (default "" (AnswerOptions.startDate o)),
                        Date_parse P (default "" (AnswerOptions.endDate o)) with
                  | Some a, Some b =>
                      if b <? a then Some "startDate must be before endDate" else None
                  | _, _ => None
                  end
                else None) = None
               <-> forall a b ta tb,
                     AnswerOptions.startDate o = Some a ->
                     AnswerOptions.endDate o = Some b ->
                     a <> "" -> b <> "" ->
                     Date_parse P a = Some ta -> Date_parse P b = Some tb -> ta <= tb).
  { destruct (AnswerOptions.startDate o) as [a|]; cbn [provided_nonempty andb];
      [|split; [intros _ a b ta tb H; discriminate | reflexivity]].
    destruct (AnswerOptions.endDate o) as [b|]; cbn [provided_nonempty andb];
      [|rewrite andb_false_r; split; [intros _ a' b ta tb _ H; discriminate | reflexivity]].
    cbn [default from_option id].
    destruct (JsString.nonempty a) eqn:Ea; cbn [andb].
    2: { split; [|reflexivity]. intros _ a' b' ta tb [= <-] _ Ha.
         apply nonempty_ne in Ha. congruence. }
    destruct (JsString.nonempty b) eqn:Eb; cbn [andb].
    2: { split; [|reflexivity]. intros _ a' b' ta tb _ [= <-] _ Hb.
         apply nonempty_ne in Hb. congruence. }
    apply nonempty_ne in Ea, Eb.
    destruct (Date_parse P a) as [ta|] eqn:Da, (Date_parse P b) as [tb|] eqn:Db;
      try (split; [intros _ a' b' ta' tb' [= <-] [= <-] _ _ H1 H2; congruence
                  | reflexivity]).
    destruct (tb <? ta) eqn:E.
    - apply Z.ltb_lt in E. split; [discriminate|]. intros H.
      specialize (H a b ta tb eq_refl eq_refl Ea Eb Da Db). lia.
    - apply Z.ltb_ge in E. split; [|reflexivity].
      intros _ a' b' ta' tb' [= <-] [= <-] _ _ H1 H2.
      rewrite Da in H1. rewrite Db in H2.
      injection H1 as <-. injection H2 as <-. exact E. }
  rewrite Hq, Ht, Hi, Hp, Hr. tauto.
Qed.

End AnswerParamsFacts.

(** X5. [validateAnswerParams] returns no error exactly when the query is
    not blank, the search type (if given) is one of all, web, proprietary,
    news in any letter case, the system instructions (if given) have 1 to
    2000 characters once trimmed, the maximal data price (if given) is
    positive, the dates that are given and not empty have the form
    YYYY-MM-DD and parse, the start date is not after the end date, and
    each source list that is given is an array of valid sources. A blank
    query is rejected with the message of the query, whatever the
    options. *)
Theorem answer_params_accepted (P : Platform) (query : string) (o : AnswerOptions.t) :
  (validateAnswerParams P query o = None <-> answer_params_ok P query o)
  /\ (JsString.trim query = "" ->
      validateAnswerParams P query o
      = Some "Query is required and must be a non-empty string").
Proof.
  split; [apply validateAnswerParams_ok|].
  intros H. unfold validateAnswerParams. rewrite H. reflexivity.
Qed.

Lemma answer_params_accepted_witness :
  validateAnswerParams Sample.platform "   " AnswerOptions.empty
  = Some "Query is required and must be a non-empty string".
Proof.
  apply (proj2 (answer_params_accepted Sample.platform "   " AnswerOptions.empty)).
  reflexivity.
Defined.

(** X6. The validation of [answer] is atomic: when [validateAnswerParams]
    reports an error, no request is issued, and [answer] resolves with
    [{success: false, error}], or in streaming mode with a generator that
    yields that error as its only chunk. When the validation passes,
    [answer] issues exactly one request, a POST of the built payload to
    [/answer] with the client's headers and [Accept: text/event-stream],
    the same in streaming and in non-streaming mode. *)
Theorem answer_validation_is_atomic (P : Platform) (self : Valyu) :
  (forall query options http message,
      validateAnswerParams P query options = Some message ->
      answer P self query options http
      = (Normal (if default false (AnswerOptions.streaming options)
                 then AnswerGenerator [ChunkError (JStr message)]
                 else AnswerObject (JObj [("success", JBool false);
                                          ("error", JStr message)])), []))
  /\ (forall query options http,
        validateAnswerParams P query options = None ->
        requests (answer P self query options http)
        = [{| req_method := POST; req_url := baseUrl self +:+ "/answer";
              req_body := Some (buildAnswerPayload query options);
              req_headers := <["Accept" := "text/event-stream"]> (headers self) |}]).
Proof.
  split.
  - intros query options http message H. unfold answer. rewrite H.
    destruct (default false (AnswerOptions.streaming options)); reflexivity.
  - intros query options http H. unfold answer, requests. rewrite H.
    destruct (default false (AnswerOptions.streaming options)).
    + unfold streamAnswer. reflexivity.
    + unfold fetchAnswer, OpM.try_catch, mbind, op_bind, OpM.bind, mret, op_ret,
        OpM.ret, OpM.axios, OpM.throw.
      destruct (http _) as [response|e]; [|reflexivity].
      destruct (negb (resp_ok response)).
      * unfold http_error. destruct (Js.nullish _); reflexivity.
      * destruct (resp_body response) as [body|]; [|reflexivity].
        destruct (body_error body); reflexivity.
Qed.

Lemma answer_validation_is_atomic_witness :
  answer Sample.platform Sample.client "" AnswerOptions.empty (Sample.answering JNull)
  = (Normal (AnswerObject
               (JObj [("success", JBool false);
                      ("error", JStr "Query is required and must be a non-empty string")])),
     [])
  /\ length (requests (answer Sample.platform Sample.client "why?" AnswerOptions.empty
                         (Sample.answering JNull))) = 1%nat.
Proof.
  destruct (answer_validation_is_atomic Sample.platform Sample.client) as [Hbad Hgood].
  split.
  - apply (Hbad "" AnswerOptions.empty (Sample.answering JNull)). reflexivity.
  - rewrite (Hgood "why?" AnswerOptions.empty (Sample.answering JNull) eq_refl).
    reflexivity.
Defined.

(** X7. The payload that [buildAnswerPayload] makes holds the trimmed
    query, the search type in lower case when it is a known one and "all"
    otherwise, the trimmed system instructions, and each other option under
    its snake_case key exactly when it was provided; it holds no other
    key, so that the [streaming] flag is never sent. *)
Theorem answer_payload_shape (query : string) (o : AnswerOptions.t) :
  let payload := buildAnswerPayload query o in
  payload !! "query" = Some (JStr (JsString.trim query))
  /\ payload !! "search_type"
     = Some (JStr (match AnswerOptions.searchType o with
                   | Some t =>
                       if known_searchType (JsString.toLowerCase t)
                       then JsString.toLowerCase t else "all"
                   | None => "all"
                   end))
  /\ payload !! "system_instructions"
     = (fun i => JStr (JsString.trim i)) <$> AnswerOptions.systemInstructions o
  /\ payload !! "data_max_price" = JNum <$> AnswerOptions.dataMaxPrice o
  /\ payload !! "structured_output" = AnswerOptions.structuredOutput o
  /\ payload !! "country_code" = JStr <$> AnswerOptions.countryCode o
  /\ payload !! "included_sources" = array_value <$> AnswerOptions.includedSources o
  /\ payload !! "excluded_sources" = array_value <$> AnswerOptions.excludedSources o
  /\ payload !! "start_date" = JStr <$> AnswerOptions.startDate o
  /\ payload !! "end_date" = JStr <$> AnswerOptions.endDate o
  /\ payload !! "fast_mode" = JBool <$> AnswerOptions.fastMode o
  /\ (forall k,
        k ∉ ["query"; "search_type"; "system_instructions"; "data_max_price";
             "structured_output"; "country_code"; "included_sources";
             "excluded_sources"; "start_date"; "end_date"; "fast_mode"] ->
        payload !! k = None)
  /\ payload !! "streaming" = None.
Proof.
  intros payload. subst payload. unfold buildAnswerPayload.
  split; [lookup_payload; reflexivity|].
  split; [lookup_payload; destruct (AnswerOptions.searchType o); reflexivity|].
  do 9 (split; [lookup_payload; apply option_eta|]).
  assert (Hother : forall k,
            k ∉ ["query"; "search_type"; "system_instructions"; "data_max_price";
                 "structured_output"; "country_code"; "included_sources";
                 "excluded_sources"; "start_date"; "end_date"; "fast_mode"] ->
            set_opt "fast_mode" (JBool <$> AnswerOptions.fastMode o)
              (set_opt "end_date" (JStr <$> AnswerOptions.endDate o)
              (set_opt "start_date" (JStr <$> AnswerOptions.startDate o)
              (set_opt "excluded_sources" (array_value <$> AnswerOptions.excludedSources o)
              (set_opt "included_sources" (array_value <$> AnswerOptions.includedSources o)
              (set_opt "country_code" (JStr <$> AnswerOptions.countryCode o)
              (set_opt "system_instructions"
                 ((fun i => JStr (JsString.trim i)) <$> AnswerOptions.systemInstructions o)
              (set_opt "structured_output" (AnswerOptions.structuredOutput o)
              (set_opt "data_max_price" (JNum <$> AnswerOptions.dataMaxPrice o)
              (<["search_type" :=
                   JStr match JsString.toLowerCase <$> AnswerOptions.searchType o with
                        | Some s => if known_searchType s then s else "all"
                        | None => "all"
                        end]>
                 (<["query" := JStr (JsString.trim query)]> ∅)))))))))) !! k = None).
  { intros k Hk.
    repeat (apply not_elem_of_cons in Hk as [? Hk]).
    rewrite !lookup_set_opt_ne, !lookup_insert_ne by congruence.
    apply lookup_empty. }
  split; [exact Hother|].
  apply Hother. intros H.
  repeat (apply elem_of_cons in H as [H|H]; [discriminate|]).
  apply elem_of_nil in H. exact H.
Qed.

Lemma answer_payload_shape_witness :
  buildAnswerPayload " why? "
    {| AnswerOptions.structuredOutput := None;
       AnswerOptions.systemInstructions := Some " Be brief. ";
       AnswerOptions.searchType := Some "News";
       AnswerOptions.dataMaxPrice := None;
       AnswerOptions.countryCode := None;
       AnswerOptions.includedSources := None;
       AnswerOptions.excludedSources := None;
       AnswerOptions.startDate := None;
       AnswerOptions.endDate := None;
       AnswerOptions.fastMode := None;
       AnswerOptions.streaming := Some true |} !! "streaming" = None.
Proof.
  apply (answer_payload_shape " why? "
           {| AnswerOptions.structuredOutput := None;
              AnswerOptions.systemInstructions := Some " Be brief. ";
              AnswerOptions.searchType := Some "News";
              AnswerOptions.dataMaxPrice := None;
              AnswerOptions.countryCode := None;
              AnswerOptions.includedSources := None;
              AnswerOptions.excludedSources := None;
              AnswerOptions.startDate := None;
              AnswerOptions.endDate := None;
              AnswerOptions.fastMode := None;
              AnswerOptions.streaming := Some true |}).
Defined.

(** ** Deepresearch and batch operations *)

(** X8. [deepresearch.create] takes [query], or [input] when [query] is
    not given. When that value is missing or blank it resolves with "query
    is required and cannot be empty" and issues no request. Otherwise it
    posts one request to [/deepresearch/tasks] whose body has the value as
    given (not trimmed) as [query], [mode] (the given [mode], else [model],
    "fast" by default), [output_formats] (["markdown"] by default) and
    [code_execution], which is true unless the option is [false]. *)
Theorem deepresearch_create_request (self : Valyu)
    (o : DeepResearchCreateOptions.t) (http : Http) :
  let queryValue :=
    match DeepResearchCreateOptions.query o with
    | Some q => Some q
    | None => DeepResearchCreateOptions.input o
    end in
  ((forall q, queryValue = Some q -> JsString.trim q = "") ->
   _deepresearchCreate self o http
   = (Normal (JObj [("success", JBool false);
                    ("error", JStr "query is required and cannot be empty")]), []))
  /\ (forall q,
        queryValue = Some q -> JsString.trim q <> "" ->
        exists payload,
          requests (_deepresearchCreate self o http)
          = [{| req_method := POST; req_url := baseUrl self +:+ "/deepresearch/tasks";
                req_body := Some payload; req_headers := headers self |}]
          /\ payload !! "query" = Some (JStr q)
          /\ payload !! "mode"
             = Some (JStr match DeepResearchCreateOptions.mode o with
                          | Some m => if JsString.nonempty m then m else "fast"
                          | None =>
                              match DeepResearchCreateOptions.model o with
                              | Some m => if JsString.nonempty m then m else "fast"
                              | None => "fast"
                              end
                          end)
          /\ payload !! "output_formats"
             = Some match DeepResearchCreateOptions.outputFormats o with
                    | Some v => if Js.truthy v then v else JArr [JStr "markdown"]
                    | None => JArr [JStr "markdown"]
                    end
          /\ payload !! "code_execution"
             = Some (JBool match DeepResearchCreateOptions.codeExecution o with
                           | Some false => false
                           | _ => true
                           end)).
Proof.
  intros queryValue.
  assert (Hq : coalesce (DeepResearchCreateOptions.query o)
                 (DeepResearchCreateOptions.input o) = queryValue).
  { unfold coalesce, queryValue. destruct (DeepResearchCreateOptions.query o); reflexivity. }
  unfold _deepresearchCreate. rewrite Hq. clearbody queryValue.
  unfold OpM.try_catch, mbind, op_bind, OpM.bind, mret, op_ret, OpM.ret, OpM.axios, requests.
  split.
  - intros Hblank. destruct queryValue as [q|]; cbn [fmap option_fmap option_map provided_nonempty].
    + rewrite (Hblank q eq_refl). reflexivity.
    + reflexivity.
  - intros q -> Hq'. cbn [fmap option_fmap option_map provided_nonempty default from_option id].
    apply nonempty_ne in Hq'. rewrite Hq'. cbn [negb].
    exists (create_payload o q). split.
    { destruct (http _); reflexivity. }
    unfold create_payload.
    split; [lookup_payload; try (destruct (DeepResearchCreateOptions.alertEmail o) as [[a|e c]|];
                                 lookup_payload); reflexivity|].
    split.
    { destruct (DeepResearchCreateOptions.alertEmail o) as [[a|e c]|]; lookup_payload;
        unfold coalesce, truthy_string;
        destruct (DeepResearchCreateOptions.mode o) as [m|];
        try (destruct (JsString.nonempty m); reflexivity);
        destruct (DeepResearchCreateOptions.model o) as [m|];
        try (destruct (JsString.nonempty m); reflexivity); reflexivity. }
    split.
    { destruct (DeepResearchCreateOptions.alertEmail o) as [[a|e c]|]; lookup_payload;
        unfold truthy_value;
        destruct (DeepResearchCreateOptions.outputFormats o) as [v|];
        try (destruct (Js.truthy v); reflexivity); reflexivity. }
    destruct (DeepResearchCreateOptions.alertEmail o) as [[a|e c]|]; lookup_payload;
      destruct (DeepResearchCreateOptions.codeExecution o) as [[]|]; reflexivity.
Qed.

Lemma deepresearch_create_request_witness :
  let blank :=
    {| DeepResearchCreateOptions.query := Some "";
       DeepResearchCreateOptions.input := Some "solar cells";
       DeepResearchCreateOptions.mode := None;
       DeepResearchCreateOptions.model := None;
       DeepResearchCreateOptions.outputFormats := None;
       DeepResearchCreateOptions.strategy := None;
       DeepResearchCreateOptions.search := None;
       DeepResearchCreateOptions.urls := None;
       DeepResearchCreateOptions.files := None;
       DeepResearchCreateOptions.deliverables := None;
       DeepResearchCreateOptions.mcpServers := None;
       DeepResearchCreateOptions.codeExecution := None;
       DeepResearchCreateOptions.previousReports := None;
       DeepResearchCreateOptions.webhookUrl := None;
       DeepResearchCreateOptions.brandCollectionId := None;
       DeepResearchCreateOptions.alertEmail := None;
       DeepResearchCreateOptions.metadata := None |} in
  let given :=
    {| DeepResearchCreateOptions.query := None;
       DeepResearchCreateOptions.input := Some " solar cells";
       DeepResearchCreateOptions.mode := None;
       DeepResearchCreateOptions.model := Some "heavy";
       DeepResearchCreateOptions.outputFormats := None;
       DeepResearchCreateOptions.strategy := None;
       DeepResearchCreateOptions.search := None;
       DeepResearchCreateOptions.urls := None;
       DeepResearchCreateOptions.files := None;
       DeepResearchCreateOptions.deliverables := None;
       DeepResearchCreateOptions.mcpServers := None;
       DeepResearchCreateOptions.codeExecution := None;
       DeepResearchCreateOptions.previousReports := None;
       DeepResearchCreateOptions.webhookUrl := None;
       DeepResearchCreateOptions.brandCollectionId := None;
       DeepResearchCreateOptions.alertEmail := None;
       DeepResearchCreateOptions.metadata := None |} in
  requests (_deepresearchCreate Sample.client blank (Sample.answering JNull)) = []
  /\ exists payload,
       requests (_deepresearchCreate Sample.client given (Sample.answering JNull))
       = [{| req_method := POST;
             req_url := baseUrl Sample.client +:+ "/deepresearch/tasks";
             req_body := Some payload; req_headers := headers Sample.client |}]
       /\ payload !! "query" = Some (JStr " solar cells")
       /\ payload !! "mode" = Some (JStr "heavy")
       /\ payload !! "code_execution" = Some (JBool true).
Proof.
  intros blank given. split.
  - rewrite (proj1 (deepresearch_create_request Sample.client blank (Sample.answering JNull))).
    + reflexivity.
    + intros q [= <-]. reflexivity.
  - destruct (proj2 (deepresearch_create_request Sample.client given (Sample.answering JNull))
                " solar cells" eq_refl)
      as (payload & Hreq & Hquery & Hmode & _ & Hcode).
    + discriminate.
    + exists payload. repeat split; assumption.
Defined.

Lemma assoc_app (k : string) (a b : list (string * JsValue)) :
  Js.assoc k (a ++ b) = if Js.has_own k a then Js.assoc k a else Js.assoc k b.
Proof.
  induction a as [|[k' v] a IH]; [reflexivity|].
  cbn [app Js.assoc Js.has_own existsb fst].
  destruct (String.eqb k k'); [reflexivity | exact IH].
Qed.

Lemma has_own_assoc (k : string) (a : list (string * JsValue)) :
  Js.has_own k a = false -> Js.assoc k a = JUndefined.
Proof.
  induction a as [|[k' v] a IH]; [reflexivity|].
  cbn [Js.assoc Js.has_own existsb fst].
  destruct (String.eqb k k'); [discriminate | exact IH].
Qed.

(** X9. [deepresearch.getAssets] issues one GET request with no body.
    With a token (not empty) the request carries no header at all, so the
    API key is not sent, and the token goes into the query string; without
    one the request carries the client's [x-api-key] header and nothing
    else. *)
Theorem assets_credentials (P : Platform) (self : Valyu)
    (taskId assetId : string) (token : option string) (http : Http) :
  exists req,
    requests (_deepresearchGetAssets P self taskId assetId token http) = [req]
    /\ req_method req = GET
    /\ req_body req = None
    /\ (forall t, token = Some t -> t <> "" ->
          req_headers req = ∅
          /\ req_url req
             = baseUrl self +:+ "/deepresearch/tasks/" +:+ taskId +:+ "/assets/"
               +:+ assetId +:+ query_suffix P [("token", t)])
    /\ ((token = None \/ token = Some "") ->
          req_headers req !! "x-api-key" = headers self !! "x-api-key"
          /\ (forall k, k <> "x-api-key" -> req_headers req !! k = None)
          /\ req_url req
             = baseUrl self +:+ "/deepresearch/tasks/" +:+ taskId +:+ "/assets/"
               +:+ assetId +:+ query_suffix P []).
Proof.
  unfold _deepresearchGetAssets, requests.
  unfold OpM.try_catch, mbind, op_bind, OpM.bind, mret, op_ret, OpM.ret, OpM.axios.
  eexists. split.
  { destruct (http _); cbn [snd app]; reflexivity. }
  cbn [req_method req_body req_headers req_url].
  split; [reflexivity|]. split; [reflexivity|]. split.
  - intros t -> Ht. apply nonempty_ne in Ht.
    cbn [provided_nonempty]. rewrite Ht. split; reflexivity.
  - intros [->| ->]; cbn [provided_nonempty JsString.nonempty param_if].
    + destruct (headers self !! "x-api-key") as [key|] eqn:E.
      * split; [apply lookup_insert_eq|]. split; [|reflexivity].
        intros k Hk. rewrite lookup_insert_ne by congruence. apply lookup_empty.
      * split; [apply lookup_empty|]. split; [|reflexivity].
        intros k Hk. apply lookup_empty.
    + destruct (headers self !! "x-api-key") as [key|] eqn:E.
      * split; [apply lookup_insert_eq|]. split; [|reflexivity].
        intros k Hk. rewrite lookup_insert_ne by congruence. apply lookup_empty.
      * split; [apply lookup_empty|]. split; [|reflexivity].
        intros k Hk. apply lookup_empty.
Qed.

Lemma assets_credentials_witness :
  exists req,
    requests (_deepresearchGetAssets Sample.platform Sample.client "dr_1" "img_1"
                (Some "tok") (Sample.answering JNull)) = [req]
    /\ req_headers req = ∅
    /\ req_url req
       = "https://api.valyu.ai/v1/deepresearch/tasks/dr_1/assets/img_1?token=tok".
Proof.
  destruct (assets_credentials Sample.platform Sample.client "dr_1" "img_1"
              (Some "tok") (Sample.answering JNull))
    as (req & Hreq & _ & _ & Htoken & _).
  exists req. split; [exact Hreq|].
  destruct (Htoken "tok" eq_refl) as [Hheaders Hurl]; [discriminate|].
  split; [exact Hheaders|]. rewrite Hurl. reflexivity.
Defined.

Lemma with_success_fields (fields : list (string * JsValue)) :
  (forall k, k <> "success" ->
     Js.get (with_success (JObj fields)) k = Js.get (JObj fields) k)
  /\ Js.get (with_success (JObj fields)) "success"
     = if Js.has_own "success" fields then Js.get (JObj fields) "success"
       else JBool true.
Proof.
  unfold with_success. cbn [own_fields Js.get]. split.
  - intros k Hk. rewrite assoc_app.
    destruct (Js.has_own k fields) eqn:E; [reflexivity|].
    rewrite (has_own_assoc k fields E). cbn [Js.assoc].
    destruct (String.eqb k "success") eqn:Ek; [|reflexivity].
    apply String.eqb_eq in Ek. contradiction.
  - rewrite assoc_app. destruct (Js.has_own "success" fields); reflexivity.
Qed.

Ltac answered_ok Hreq Hhttp :=
  match type of Hreq with
  | context [?http ?req] =>
      match type of Hhttp with
      | http _ = HttpOk _ =>
          destruct (http req) eqn:Esent; cbn [snd app] in Hreq;
          injection Hreq as <-; rewrite Esent in Hhttp;
          [injection Hhttp as <- | discriminate Hhttp]
      end
  end.

(** X10. What the body of a successful response becomes. The operations
    create, status, update, cancel, delete and togglePublic of
    deepresearch and create, addTasks, listTasks and cancel of batch
    resolve with every field of the body unchanged, and with
    [success: true] beside them unless the body has a [success] field of
    its own, which then stands. The operations [deepresearch.list],
    [batch.status] and [batch.list] put the body, whatever it is, under
    [data], [batch] and [batches], beside [success: true]. *)
Theorem response_fields_pass_through (P : Platform) (self : Valyu) :
  (forall call http req r fields,
      spreads_body call = true ->
      requests (run P self call http) = [req] ->
      http req = HttpOk r ->
      resp_data r = JObj fields ->
      exists response,
        completion (run P self call http) = Normal response
        /\ (forall k, k <> "success" -> Js.get response k = Js.get (JObj fields) k)
        /\ Js.get response "success"
           = if Js.has_own "success" fields then Js.get (JObj fields) "success"
             else JBool true)
  /\ (forall call http req r key,
        wraps_body call = Some key ->
        requests (run P self call http) = [req] ->
        http req = HttpOk r ->
        completion (run P self call http)
        = Normal (JObj [("success", JBool true); (key, resp_data r)])).
Proof.
  split.
  - intros call http req r fields Hcall Hreq Hhttp Hdata.
    exists (with_success (JObj fields)).
    split; [|apply with_success_fields].
    unfold requests, completion in *.
    destruct call; try discriminate Hcall; cbn [run] in *.
    + unfold _deepresearchCreate in *. revert Hreq. op_unfold.
      destruct (negb _); [discriminate|]. intros Hreq.
      answered_ok Hreq Hhttp. rewrite Hdata. reflexivity.
    + unfold _deepresearchStatus in *. revert Hreq. op_unfold. intros Hreq.
      answered_ok Hreq Hhttp. rewrite Hdata. reflexivity.
    + unfold _deepresearchUpdate in *. revert Hreq. op_unfold.
      destruct (negb _); [discriminate|]. intros Hreq.
      answered_ok Hreq Hhttp. rewrite Hdata. reflexivity.
    + unfold _deepresearchCancel in *. revert Hreq. op_unfold. intros Hreq.
      answered_ok Hreq Hhttp. rewrite Hdata. reflexivity.
    + unfold _deepresearchDelete in *. revert Hreq. op_unfold. intros Hreq.
      answered_ok Hreq Hhttp. rewrite Hdata. reflexivity.
    + unfold _deepresearchTogglePublic in *. revert Hreq. op_unfold. intros Hreq.
      answered_ok Hreq Hhttp. rewrite Hdata. reflexivity.
    + unfold _batchCreate in *. revert Hreq. op_unfold. intros Hreq.
      answered_ok Hreq Hhttp. rewrite Hdata. reflexivity.
    + unfold _batchAddTasks in *. revert Hreq. op_unfold.
      destruct tasks as [l|]; [|discriminate].
      destruct (bool_decide _); [discriminate|].
      destruct (100 <? length l)%nat; [discriminate|].
      destruct (existsb _ l); [discriminate|]. intros Hreq.
      answered_ok Hreq Hhttp. rewrite Hdata. reflexivity.
    + unfold _batchListTasks in *. revert Hreq. op_unfold. intros Hreq.
      answered_ok Hreq Hhttp. rewrite Hdata. reflexivity.
    + unfold _batchCancel in *. revert Hreq. op_unfold. intros Hreq.
      answered_ok Hreq Hhttp. rewrite Hdata. reflexivity.
  - intros call http req r key Hcall Hreq Hhttp.
    unfold requests, completion in *.
    destruct call; try discriminate Hcall; cbn [run wraps_body] in *;
      injection Hcall as <-.
    + unfold _deepresearchList in *. revert Hreq. op_unfold. intros Hreq.
      answered_ok Hreq Hhttp. reflexivity.
    + unfold _batchStatus in *. revert Hreq. op_unfold. intros Hreq.
      answered_ok Hreq Hhttp. reflexivity.
    + unfold _batchList in *. revert Hreq. op_unfold. intros Hreq.
      answered_ok Hreq Hhttp. reflexivity.
Qed.

Lemma response_fields_pass_through_witness :
  exists response,
    completion (run Sample.platform Sample.client (CallStatus "dr_1")
                  (Sample.answering (JObj [("status", JStr "running");
                                           ("success", JBool false)])))
    = Normal response
    /\ Js.get response "status" = JStr "running"
    /\ Js.get response "success" = JBool false.
Proof.
  destruct (proj1 (response_fields_pass_through Sample.platform Sample.client)
              (CallStatus "dr_1")
              (Sample.answering (JObj [("status", JStr "running");
                                       ("success", JBool false)]))
              _ (Sample.ok_response (JObj [("status", JStr "running");
                                           ("success", JBool false)]))
              [("status", JStr "running"); ("success", JBool false)]
              eq_refl eq_refl eq_refl eq_refl)
    as (response & Hrun & Hfields & Hsuccess).
  exists response. split; [exact Hrun|]. split; [|exact Hsuccess].
  apply (Hfields "status"). discriminate.
Defined.

(** ** Requests *)

Lemma startsWith_append (p s : string) : JsString.startsWith p (p +:+ s) = true.
Proof.
  induction p as [|a p IH]; [reflexivity|].
  rewrite append_cons. cbn [JsString.startsWith].
  rewrite Ascii.eqb_refl. exact IH.
Qed.

Ltac one_request :=
  cbn [snd app length fst];
  split; [lia|];
  repeat constructor;
  first [ apply startsWith_append | intros _; reflexivity | idtac ].

Lemma run_requests (P : Platform) (self : Valyu) (call : Call) (http : Http) :
  (length (requests (run P self call http)) <= 1)%nat
  /\ Forall (fun req =>
               JsString.startsWith (baseUrl self) (req_url req) = true
               /\ (is_getAssets call = false -> req_headers req = headers self))
       (requests (run P self call http)).
Proof.
  unfold requests.
  destruct call; cbn [run is_getAssets].
  - rewrite search_unfold. unfold rejected, search_posted.
    destruct (bad_searchType options); [one_request|].
    destruct (bad_date P _); [one_request|].
    destruct (bad_date P _); [one_request|].
    destruct (bad_maxNumResults options); [one_request|].
    destruct (check_sources P "includedSources" _); [one_request|].
    destruct (check_sources P "excludeSources" _); [one_request|].
    one_request.
  - unfold contents. op_unfold.
    destruct urls as [|l]; [one_request|].
    destruct (bool_decide _); [one_request|].
    destruct (10 <? length l)%nat; [one_request|].
    destruct (_ && _); [one_request|].
    destruct (check_responseLength _); [one_request|].
    destruct (http _) as [r|e]; [destruct (bad_status _)|]; one_request.
  - unfold _deepresearchCreate. op_unfold.
    destruct (negb _); [one_request|].
    destruct (http _); one_request.
  - unfold _deepresearchStatus. op_unfold. destruct (http _); one_request.
  - unfold _deepresearchList. op_unfold. destruct (http _); one_request.
  - unfold _deepresearchUpdate. op_unfold.
    destruct (negb _); [one_request|]. destruct (http _); one_request.
  - unfold _deepresearchCancel. op_unfold. destruct (http _); one_request.
  - unfold _deepresearchDelete. op_unfold. destruct (http _); one_request.
  - unfold _deepresearchTogglePublic. op_unfold. destruct (http _); one_request.
  - unfold _deepresearchGetAssets. op_unfold. destruct (http _); one_request.
    all: discriminate.
  - unfold _batchCreate. op_unfold. destruct (http _); one_request.
  - unfold _batchStatus. op_unfold. destruct (http _); one_request.
  - unfold _batchAddTasks. op_unfold.
    destruct tasks as [l|]; [|one_request].
    destruct (bool_decide _); [one_request|].
    destruct (100 <? length l)%nat; [one_request|].
    destruct (existsb _ l); [one_request|].
    destruct (http _); one_request.
  - unfold _batchListTasks. op_unfold. destruct (http _); one_request.
  - unfold _batchCancel. op_unfold. destruct (http _); one_request.
  - unfold _batchList. op_unfold. destruct (http _); one_request.
  - unfold _datasourcesList, data_field. op_unfold.
    destruct (http _) as [r|e]; [destruct (Js.nullish _)|]; one_request.
  - unfold _datasourcesCategories, data_field. op_unfold.
    destruct (http _) as [r|e]; [destruct (Js.nullish _)|]; one_request.
Qed.

(** X11. A single-call operation issues at most one request; the request
    goes to a URL that starts with the base URL of the client, and it
    carries the headers of the client (only [deepresearch.getAssets]
    builds headers of its own). For a client made by the constructor, the
    URL thus starts with the base URL given, or with
    "https://api.valyu.ai/v1" when none was given, and the request carries
    the resolved API key as [x-api-key] and the content type
    "application/json". *)
Theorem requests_stay_home (P : Platform) :
  (forall self call http,
      (length (requests (run P self call http)) <= 1)%nat
      /\ Forall (fun req =>
                   JsString.startsWith (baseUrl self) (req_url req) = true
                   /\ (is_getAssets call = false -> req_headers req = headers self))
           (requests (run P self call http)))
  /\ (forall apiKey base env client call http req,
        constructor apiKey base env = Normal client ->
        req ∈ requests (run P client call http) ->
        JsString.startsWith
          (match base with Some url => url | None => "https://api.valyu.ai/v1" end)
          (req_url req) = true
        /\ (is_getAssets call = false ->
            req_headers req !! "x-api-key" = resolved_key apiKey env
            /\ req_headers req !! "Content-Type" = Some "application/json")).
Proof.
  split; [exact (run_requests P)|].
  intros apiKey base env client call http req Hnew Hreq.
  destruct (run_requests P client call http) as [_ Hall].
  rewrite Forall_forall in Hall. destruct (Hall req Hreq) as [Hurl Hheaders].
  unfold constructor in Hnew.
  destruct (resolved_key apiKey env) as [k|]; [|discriminate].
  destruct (JsString.nonempty k); [|discriminate].
  injection Hnew as <-. cbn [baseUrl headers] in *.
  split.
  - destruct base; exact Hurl.
  - intros Hcall. rewrite (Hheaders Hcall).
    split; [apply lookup_insert_eq|].
    rewrite lookup_insert_ne by discriminate. apply lookup_insert_eq.
Qed.

Lemma requests_stay_home_witness :
  let env : gmap string string := <["VALYU_API_KEY" := "env-key"]> ∅ in
  let req :=
    {| req_method := GET;
       req_url := "https://api.valyu.ai/v1/deepresearch/tasks/dr_1/status";
       req_body := None;
       req_headers := <["x-api-key" := "env-key"]>
                        (<["Content-Type" := "application/json"]> ∅) |} in
  JsString.startsWith "https://api.valyu.ai/v1" (req_url req) = true
  /\ req_headers req !! "x-api-key" = Some "env-key".
Proof.
  intros env req.
  destruct (proj2 (requests_stay_home Sample.platform) None None env
              {| baseUrl := default_baseUrl;
                 headers := <["x-api-key" := "env-key"]>
                              (<["Content-Type" := "application/json"]> ∅) |}
              (CallStatus "dr_1") (Sample.answering JNull) req)
    as [Hurl Hheaders].
  - reflexivity.
  - apply list_elem_of_singleton. reflexivity.
  - split; [exact Hurl|]. apply Hheaders. reflexivity.
Defined.

Lemma task_query_field (task : BatchTaskInput.t) :
  Js.get (task_payload task) "query"
  = match BatchTaskInput.query task with
    | Some q => if JsString.nonempty q then JStr q else JUndefined
    | None =>
        match BatchTaskInput.input task with
        | Some q => if JsString.nonempty q then JStr q else JUndefined
        | None => JUndefined
        end
    end.
Proof.
  unfold task_payload, coalesce, truthy_string, field_if.
  destruct (BatchTaskInput.query task) as [q|].
  - destruct (JsString.nonempty q); [reflexivity|].
    cbn [app Js.get]. rewrite !assoc_app.
    repeat match goal with
           | |- context [match ?o with Some _ => _ | None => _ end] =>
               destruct o; cbn [Js.has_own existsb fst String.eqb Ascii.eqb Bool.eqb orb Js.assoc]
           | |- context [if JsString.nonempty ?s then _ else _] =>
               destruct (JsString.nonempty s);
               cbn [Js.has_own existsb fst String.eqb Ascii.eqb Bool.eqb orb Js.assoc]
           | |- context [if Js.truthy ?s then _ else _] =>
               destruct (Js.truthy s);
               cbn [Js.has_own existsb fst String.eqb Ascii.eqb Bool.eqb orb Js.assoc]
           end; reflexivity.
  - destruct (BatchTaskInput.input task) as [q|].
    + destruct (JsString.nonempty q); [reflexivity|].
      cbn [app Js.get]. rewrite !assoc_app.
      repeat match goal with
             | |- context [match ?o with Some _ => _ | None => _ end] =>
                 destruct o; cbn [Js.has_own existsb fst String.eqb Ascii.eqb Bool.eqb orb Js.assoc]
             | |- context [if JsString.nonempty ?s then _ else _] =>
                 destruct (JsString.nonempty s);
                 cbn [Js.has_own existsb fst String.eqb Ascii.eqb Bool.eqb orb Js.assoc]
             | |- context [if Js.truthy ?s then _ else _] =>
                 destruct (Js.truthy s);
                 cbn [Js.has_own existsb fst String.eqb Ascii.eqb Bool.eqb orb Js.assoc]
             end; reflexivity.
    + cbn [app Js.get]. rewrite !assoc_app.
      repeat match goal with
             | |- context [match ?o with Some _ => _ | None => _ end] =>
                 destruct o; cbn [Js.has_own existsb fst String.eqb Ascii.eqb Bool.eqb orb Js.assoc]
             | |- context [if JsString.nonempty ?s then _ else _] =>
                 destruct (JsString.nonempty s);
                 cbn [Js.has_own existsb fst String.eqb Ascii.eqb Bool.eqb orb Js.assoc]
             | |- context [if Js.truthy ?s then _ else _] =>
                 destruct (Js.truthy s);
                 cbn [Js.has_own existsb fst String.eqb Ascii.eqb Bool.eqb orb Js.assoc]
             end; reflexivity.
Qed.

(** X12. [batch.addTasks] checks its tasks before it talks to the server.
    It issues no request and resolves with an error when [tasks] is not an
    array, is empty, has more than 100 elements, or has a task with neither
    a [query] nor an [input] (an empty string counts as none). Otherwise it
    posts one request whose body has one payload per task, in order. The
    [query] of a payload is the [query] of the task, or its [input] when
    the task has no [query]; a task whose [query] is the empty string and
    whose [input] is given passes the check and is posted without a
    [query]. *)
Theorem batch_add_tasks_checks (self : Valyu) (batchId : string) (http : Http) :
  _batchAddTasks self batchId None http
  = (Normal (failure (JStr "tasks must be an array")), [])
  /\ _batchAddTasks self batchId (Some []) http
     = (Normal (failure (JStr "tasks array cannot be empty")), [])
  /\ (forall l,
        (100 < length l)%nat ->
        _batchAddTasks self batchId (Some l) http
        = (Normal (failure (JStr "Maximum 100 tasks allowed per request")), []))
  /\ (forall l task,
        (1 <= length l <= 100)%nat ->
        task ∈ l -> task_has_query task = false ->
        _batchAddTasks self batchId (Some l) http
        = (Normal (failure (JStr "Each task must have a 'query' field")), []))
  /\ (forall l,
        (1 <= length l <= 100)%nat ->
        Forall (fun task => task_has_query task = true) l ->
        exists payloads,
          requests (_batchAddTasks self batchId (Some l) http)
          = [{| req_method := POST;
                req_url := baseUrl self +:+ "/deepresearch/batches/" +:+ batchId
                           +:+ "/tasks";
                req_body := Some (<["tasks" := JArr payloads]> ∅);
                req_headers := headers self |}]
          /\ length payloads = length l
          /\ forall i task,
               l !! i = Some task ->
               exists payload,
                 payloads !! i = Some payload
                 /\ Js.get payload "query"
                    = match BatchTaskInput.query task with
                      | Some q => if JsString.nonempty q then JStr q else JUndefined
                      | None =>
                          match BatchTaskInput.input task with
                          | Some q => JStr q
                          | None => JUndefined
                          end
                      end).
Proof.
  unfold _batchAddTasks, requests.
  unfold OpM.try_catch, mbind, op_bind, OpM.bind, mret, op_ret, OpM.ret, OpM.axios.
  split; [reflexivity|]. split; [reflexivity|].
  assert (Hcheck : forall l,
            existsb (fun task => negb (provided_nonempty (BatchTaskInput.query task))
                                 && negb (provided_nonempty (BatchTaskInput.input task))) l
            = negb (forallb task_has_query l)).
  { induction l as [|t l IH]; [reflexivity|].
    cbn [existsb forallb]. rewrite IH. unfold task_has_query.
    destruct (provided_nonempty (BatchTaskInput.query t)),
      (provided_nonempty (BatchTaskInput.input t)), (forallb _ l); reflexivity. }
  split; [|split].
  - intros l Hl.
    rewrite bool_decide_eq_false_2 by lia.
    rewrite (proj2 (Nat.ltb_lt 100 (length l)) Hl). reflexivity.
  - intros l task Hl Hin Hnone.
    rewrite bool_decide_eq_false_2 by lia.
    rewrite (proj2 (Nat.ltb_ge 100 (length l))) by lia.
    rewrite Hcheck.
    assert (Hall : forallb task_has_query l = false).
    { destruct (forallb task_has_query l) eqn:E; [|reflexivity].
      rewrite forallb_forall in E.
      rewrite (E task) in Hnone by (apply list_elem_of_In, Hin). discriminate. }
    rewrite Hall. reflexivity.
  - intros l Hl Hall.
    rewrite bool_decide_eq_false_2 by lia.
    rewrite (proj2 (Nat.ltb_ge 100 (length l))) by lia.
    rewrite Hcheck.
    assert (Hok : forallb task_has_query l = true).
    { apply forallb_forall. intros t Ht. apply list_elem_of_In in Ht.
      rewrite Forall_forall in Hall. apply Hall, Ht. }
    rewrite Hok. cbn [negb].
    exists (task_payload <$> l). split.
    { destruct (http _); reflexivity. }
    split; [apply length_fmap|].
    intros i task Hi. exists (task_payload task).
    split; [rewrite list_lookup_fmap, Hi; reflexivity|].
    rewrite task_query_field.
    destruct (BatchTaskInput.query task) as [q|] eqn:Eq; [reflexivity|].
    destruct (BatchTaskInput.input task) as [q|] eqn:Ei; [|reflexivity].
    rewrite Forall_forall in Hall.
    assert (Hin : task ∈ l) by (eapply list_elem_of_lookup_2; exact Hi).
    specialize (Hall task Hin). unfold task_has_query in Hall.
    rewrite Eq, Ei in Hall. cbn [provided_nonempty orb] in Hall.
    rewrite Hall. reflexivity.
Qed.

Lemma batch_add_tasks_checks_witness :
  let task :=
    {| BatchTaskInput.id := None; BatchTaskInput.query := Some "";
       BatchTaskInput.input := Some "solar cells"; BatchTaskInput.strategy := None;
       BatchTaskInput.urls := None; BatchTaskInput.metadata := None |} in
  let bare :=
    {| BatchTaskInput.id := Some "t1"; BatchTaskInput.query := None;
       BatchTaskInput.input := None; BatchTaskInput.strategy := None;
       BatchTaskInput.urls := None; BatchTaskInput.metadata := None |} in
  _batchAddTasks Sample.client "b1" (Some [task; bare]) (Sample.answering JNull)
  = (Normal (failure (JStr "Each task must have a 'query' field")), [])
  /\ exists payloads,
       requests (_batchAddTasks Sample.client "b1" (Some [task]) (Sample.answering JNull))
       = [{| req_method := POST;
             req_url := baseUrl Sample.client +:+ "/deepresearch/batches/" +:+ "b1"
                        +:+ "/tasks";
             req_body := Some (<["tasks" := JArr payloads]> ∅);
             req_headers := headers Sample.client |}]
       /\ exists payload,
            payloads !! 0%nat = Some payload /\ Js.get payload "query" = JUndefined.
Proof.
  intros task bare.
  destruct (batch_add_tasks_checks Sample.client "b1" (Sample.answering JNull))
    as (_ & _ & _ & Hmissing & Hposted).
  split.
  - apply (Hmissing [task; bare] bare).
    + cbn. lia.
    + apply list_elem_of_In. right. left. reflexivity.
    + reflexivity.
  - destruct (Hposted [task]) as (payloads & Hreq & _ & Hquery).
    + cbn. lia.
    + repeat constructor.
    + exists payloads. split; [exact Hreq|].
      destruct (Hquery 0%nat task eq_refl) as (payload & Hp & Hq).
      exists payload. split; [exact Hp | exact Hq].
Defined.

(** ** Traces of the polling helpers *)

Section PollEnd.

Context (request : Request) (answer : nat -> JsValue)
  (failed : nat -> option Exn) (terminal : nat -> bool)
  (clock : nat -> Z) (interval maxWait : Z) (onProgress : bool)
  (expiry : Exn).

(** A loop that has stopped stopped at its first iteration that does not
    continue. *)
Lemma poll_finished (fuel : nat) :
  (poll_loop request answer failed terminal clock interval maxWait onProgress
     expiry fuel 0).1 <> Polling ->
  exists k,
    (k < fuel)%nat
    /\ continues failed terminal clock maxWait k = false
    /\ (forall j, (j < k)%nat -> continues failed terminal clock maxWait j = true)
    /\ poll_loop request answer failed terminal clock interval maxWait onProgress
         expiry fuel 0
       = (stop_result answer failed terminal expiry k,
          rounds request answer interval onProgress 0 k
          ++ stop_events request answer failed onProgress k).
Proof.
  intros Hstopped.
  destruct (first_stop failed terminal clock maxWait fuel)
    as [Hall|(k & Hk & Hstop & Hbefore)].
  - exfalso. apply Hstopped.
    rewrite (poll_goes_on request answer failed terminal clock interval maxWait
               onProgress expiry fuel Hall). reflexivity.
  - exists k. split; [exact Hk|]. split; [exact Hstop|]. split; [exact Hbefore|].
    apply poll_stops; assumption.
Qed.

(** What a stopped loop leaves: one sleep between two polls and none after
    the last; a returned answer is terminal and is the last one polled,
    and no answer before it was terminal. *)
Lemma poll_trace (fuel : nat) :
  let run :=
    poll_loop request answer failed terminal clock interval maxWait onProgress
      expiry fuel 0 in
  run.1 <> Polling ->
  polls run.2 = S (length (sleeps run.2))
  /\ Forall (eq interval) (sleeps run.2)
  /\ (forall v, run.1 = Returned v ->
        v = answer (length (sleeps run.2))
        /\ terminal (length (sleeps run.2)) = true
        /\ failed (length (sleeps run.2)) = None
        /\ forall j, (j < length (sleeps run.2))%nat ->
             failed j = None /\ terminal j = false).
Proof.
  intros run Hstopped. subst run.
  destruct (poll_finished fuel Hstopped) as (k & Hk & Hstop & Hbefore & ->).
  cbn [fst snd].
  rewrite polls_app, polls_rounds, polls_stop_events, sleeps_app, sleeps_rounds,
    sleeps_stop_events, app_nil_r, repeat_length.
  split; [lia|]. split; [apply Forall_repeat|].
  intros v Hv. unfold stop_result in Hv. unfold continues in Hstop.
  destruct (failed k) eqn:Ef; [discriminate|].
  destruct (terminal k) eqn:Et; [|discriminate].
  injection Hv as <-. repeat split.
  - specialize (Hbefore j H). unfold continues in Hbefore.
    destruct (failed j); [discriminate | reflexivity].
  - specialize (Hbefore j H). unfold continues in Hbefore.
    destruct (failed j); [discriminate|].
    apply andb_true_iff in Hbefore as [Ht _]. apply negb_true_iff in Ht. exact Ht.
Qed.

End PollEnd.

(** X13. However the server answers and whatever the clock shows, a run
    of [deepresearch.wait] or [batch.waitForCompletion] that has ended
    slept its poll interval once between two polls and never after the
    last one; and what it returns, if it returns, is the last status it
    polled, that status is terminal, and no status polled before it was. *)
Theorem wait_trace_invariants (P : Platform) (self : Valyu) (w : World) :
  (forall taskId options fuel,
      let run := _deepresearchWait P self w taskId options fuel in
      run.1 <> Polling ->
      polls run.2 = S (length (sleeps run.2))
      /\ Forall (eq (wait_pollInterval options)) (sleeps run.2)
      /\ (forall status, run.1 = Returned status ->
            status = status_at self w taskId (length (sleeps run.2))
            /\ deepresearch_terminal status = true
            /\ forall j, (j < length (sleeps run.2))%nat ->
                 deepresearch_terminal (status_at self w taskId j) = false))
  /\ (forall batchId options fuel,
        let run := _batchWaitForCompletion P self w batchId options fuel in
        run.1 <> Polling ->
        polls run.2 = S (length (sleeps run.2))
        /\ Forall (eq (batch_pollInterval options)) (sleeps run.2)
        /\ (forall batch, run.1 = Returned batch ->
              batch = batch_at self w batchId (length (sleeps run.2))
              /\ batch_terminal batch = true
              /\ forall j, (j < length (sleeps run.2))%nat ->
                   batch_terminal (batch_at self w batchId j) = false)).
Proof.
  split.
  - intros taskId options fuel run. subst run. unfold _deepresearchWait.
    rewrite wait_loop_shape. intros Hstopped.
    destruct (poll_trace _ _ _ _ _ _ _ _ _ fuel Hstopped) as (Hpolls & Hsleeps & Hret).
    split; [exact Hpolls|]. split; [exact Hsleeps|].
    intros status Hs. destruct (Hret status Hs) as (-> & Ht & _ & Hbefore).
    split; [reflexivity|]. split; [exact Ht|].
    intros j Hj. apply Hbefore, Hj.
  - intros batchId options fuel run. subst run. unfold _batchWaitForCompletion.
    rewrite batch_loop_shape. intros Hstopped.
    destruct (poll_trace _ _ _ _ _ _ _ _ _ fuel Hstopped) as (Hpolls & Hsleeps & Hret).
    split; [exact Hpolls|]. split; [exact Hsleeps|].
    intros batch Hs. destruct (Hret batch Hs) as (-> & Ht & _ & Hbefore).
    split; [reflexivity|]. split; [exact Ht|].
    intros j Hj. apply Hbefore, Hj.
Qed.

Lemma wait_trace_invariants_witness :
  let run :=
    _deepresearchWait Sample.platform Sample.client
      (Sample.world (Sample.progressing 2) 5000) "dr_1" Sample.with_progress 5 in
  polls run.2 = 3%nat /\ sleeps run.2 = [5000; 5000].
Proof.
  intros run.
  destruct (proj1 (wait_trace_invariants Sample.platform Sample.client
                     (Sample.world (Sample.progressing 2) 5000))
              "dr_1" Sample.with_progress 5%nat) as (Hpolls & _ & _).
  - discriminate.
  - fold run in Hpolls. split; [rewrite Hpolls|]; reflexivity.
Defined.

Section BatchFacts.

Context (P : Platform) (self : Valyu) (w : World)
  (batchId : string) (options : WaitOptions.t).

Local Abbreviation batch := (batch_at self w batchId).
Local Abbreviation answered :=
  (fun i => Js.truthy (Js.get (batch_status_at self w batchId i) "success")
            && Js.truthy (batch i)).
Local Abbreviation expired :=
  (fun i => now w (S i) - now w 0 >? batch_maxWaitTime options).
Local Abbreviation goes_on :=
  (continues (batch_failed P self w batchId) (batch_is_terminal self w batchId)
     (now w) (batch_maxWaitTime options)).

Lemma batch_continues (i : nat) :
  goes_on i = answered i && negb (batch_terminal (batch i)) && negb (expired i).
Proof.
  unfold continues, batch_failed, batch_is_terminal, batch_at.
  destruct (Js.truthy (Js.get (batch_status_at self w batchId i) "success"));
    destruct (Js.truthy (Js.get (batch_status_at self w batchId i) "batch"));
    reflexivity.
Qed.

Lemma batch_goes_on_before (k : nat) :
  (forall j, (j < k)%nat ->
     answered j = true /\ batch_terminal (batch j) = false /\ expired j = false) ->
  forall j, (j < k)%nat -> goes_on j = true.
Proof.
  intros H j Hj. destruct (H j Hj) as (Hok & Ht & He).
  rewrite batch_continues, Hok, Ht, He. reflexivity.
Qed.

(** X14. Let the batches before the [k]-th be polled without ending the
    wait: each poll is answered with a batch that is not terminal, and the
    wait time is not exceeded after it. Then the [k]-th poll decides. If it
    fails or brings no batch, [batch.waitForCompletion] throws an Error
    with the [error] of the poll, or "Failed to get batch status" when
    there is none, and [onProgress] was called with the batches before. If
    it brings a batch whose status is "completed",
    "completed_with_errors" or "cancelled", that batch is returned, and
    [onProgress] was called once with each batch up to it, in order. *)
Theorem batch_wait_returns_first_terminal (k fuel : nat) :
  (forall j, (j < k)%nat ->
     answered j = true /\ batch_terminal (batch j) = false /\ expired j = false) ->
  (k < fuel)%nat ->
  let run := _batchWaitForCompletion P self w batchId options fuel in
  (answered k = false ->
     run.1 = Threw (thrown (Error P (Js.or (Js.get (batch_status_at self w batchId k) "error")
                                       (JStr "Failed to get batch status"))))
     /\ ((Js.get (batch_status_at self w batchId k) "error" = JUndefined ->
          run.1 = Threw {| exn_message := "Failed to get batch status";
                           exn_response_data := JUndefined |}))
     /\ progress_calls run.2
        = (if WaitOptions.onProgress options then batch <$> seq 0 k else [])
     /\ polls run.2 = S k)
  /\ (answered k = true -> batch_terminal (batch k) = true ->
        run.1 = Returned (batch k)
        /\ progress_calls run.2
           = (if WaitOptions.onProgress options then batch <$> seq 0 (S k) else [])
        /\ polls run.2 = S k
        /\ length (sleeps run.2) = k).
Proof.
  intros Hbefore Hfuel run. subst run. unfold _batchWaitForCompletion.
  rewrite batch_loop_shape.
  pose proof (batch_goes_on_before k Hbefore) as Hgo.
  split.
  - intros Hk.
    assert (Hstop : goes_on k = false) by (rewrite batch_continues, Hk; reflexivity).
    rewrite (poll_stops _ _ _ _ _ _ _ _ _ k fuel Hgo Hstop Hfuel).
    cbn [fst snd].
    rewrite progress_calls_app, progress_rounds, progress_stop_events,
      polls_app, polls_rounds, polls_stop_events.
    assert (Hfailed : batch_failed P self w batchId k
                      = Some (thrown (Error P (Js.or (Js.get (batch_status_at self w batchId k) "error")
                                                 (JStr "Failed to get batch status"))))).
    { unfold batch_failed. unfold batch_at in Hk.
      destruct (Js.truthy (Js.get (batch_status_at self w batchId k) "success"));
        destruct (Js.truthy (Js.get (batch_status_at self w batchId k) "batch"));
        try discriminate; reflexivity. }
    unfold stop_result. rewrite Hfailed.
    split; [reflexivity|].
    split; [intros ->; reflexivity|]. split; [|lia].
    destruct (WaitOptions.onProgress options); [apply app_nil_r | reflexivity].
  - intros Hk Hterm.
    assert (Hstop : goes_on k = false)
      by (rewrite batch_continues, Hk, Hterm; reflexivity).
    rewrite (poll_stops _ _ _ _ _ _ _ _ _ k fuel Hgo Hstop Hfuel).
    cbn [fst snd].
    rewrite progress_calls_app, progress_rounds, progress_stop_events,
      polls_app, polls_rounds, polls_stop_events, sleeps_app, sleeps_rounds,
      sleeps_stop_events, app_nil_r, repeat_length.
    assert (Hfailed : batch_failed P self w batchId k = None).
    { unfold batch_failed. unfold batch_at in Hk.
      apply andb_true_iff in Hk as [-> ->]. reflexivity. }
    unfold stop_result, batch_is_terminal. rewrite Hfailed, Hterm.
    split; [reflexivity|]. split; [|split; [lia | reflexivity]].
    destruct (WaitOptions.onProgress options); [|reflexivity].
    rewrite seq_S, fmap_app. reflexivity.
Qed.

End BatchFacts.

Lemma batch_wait_returns_first_terminal_witness :
  let run :=
    _batchWaitForCompletion Sample.platform Sample.client
      (Sample.world (Sample.progressing 2) 10000) "batch_1" Sample.with_progress 3 in
  run.1 = Returned (Sample.task "completed")
  /\ length (progress_calls run.2) = 3%nat
  /\ polls run.2 = 3%nat.
Proof.
  intros run.
  destruct (batch_wait_returns_first_terminal Sample.platform Sample.client
              (Sample.world (Sample.progressing 2) 10000) "batch_1"
              Sample.with_progress 2 3) as (_ & Hreturn).
  - intros j Hj. destruct j as [|[|j]]; [repeat split | repeat split | lia].
  - lia.
  - destruct (Hreturn eq_refl eq_refl) as (Hr & Hp & Hn & _).
    split; [exact Hr|]. split; [|exact Hn].
    fold run in Hp. rewrite Hp. reflexivity.
Defined.

Section NetworkFailure.

Context (P : Platform) (self : Valyu) (w : World).

Lemma status_at_thrown (taskId : string) (i : nat) (e : Exn) :
  server w i (status_request self taskId) = HttpThrow e ->
  status_at self w taskId i = failure (catch_error e).
Proof.
  intros H. unfold status_at, completion, _deepresearchStatus.
  unfold OpM.try_catch, mbind, op_bind, OpM.bind, OpM.axios.
  fold (status_request self taskId). rewrite H. reflexivity.
Qed.

Lemma batch_status_at_thrown (batchId : string) (i : nat) (e : Exn) :
  server w i (batch_request self batchId) = HttpThrow e ->
  batch_status_at self w batchId i = failure (catch_error e).
Proof.
  intros H. unfold batch_status_at, completion, _batchStatus.
  unfold OpM.try_catch, mbind, op_bind, OpM.bind, OpM.axios.
  fold (batch_request self batchId). rewrite H. reflexivity.
Qed.

Lemma catch_error_message (e : Exn) :
  exn_response_data e = JUndefined -> catch_error e = JStr (exn_message e).
Proof. unfold catch_error. intros ->. reflexivity. Qed.

Lemma stream_reaches (taskId : string) (callback : StreamCallback.t) (k : nat) :
  forall fuel i n,
    (forall j, (i <= j < i + k)%nat ->
       stream_continues self w taskId callback j = true) ->
    exists n' seen,
      stream_loop P self w taskId callback (k + fuel) i n
      = ((stream_loop P self w taskId callback fuel (i + k) n').1,
         seen ++ (stream_loop P self w taskId callback fuel (i + k) n').2)
      /\ polls seen = k
      /\ error_calls seen = [].
Proof.
  induction k as [|k IH]; intros fuel i n H.
  - exists n, []. rewrite Nat.add_0_r. cbn [Nat.add app].
    destruct (stream_loop P self w taskId callback fuel i n). repeat split.
  - specialize (H i ltac:(lia)) as Hi. unfold stream_continues in Hi.
    apply andb_true_iff in Hi as [Hi Ht]. apply andb_true_iff in Hi as [Hok Hmsg].
    apply negb_true_iff in Ht.
    cbn [Nat.add].
    destruct (stream_step P self w taskId callback (k + fuel) i n Hok Hmsg) as [n1 ->].
    rewrite Ht.
    destruct (IH fuel (S i) n1 ltac:(intros j Hj; apply H; lia))
      as (n' & seen & -> & Hp & He).
    replace (S i + k)%nat with (i + S k)%nat by lia.
    exists n', (stream_seen self w taskId callback i n ++ EvSleep 5000 :: seen).
    cbn [fst snd]. split; [rewrite <- app_assoc; reflexivity|].
    split.
    + rewrite polls_app, polls_stream_seen. cbn [polls]. rewrite Hp. reflexivity.
    + clear -He. unfold stream_seen.
      assert (Happ : forall a b, error_calls (a ++ b) = error_calls a ++ error_calls b).
      { induction a as [|x a IHa]; intros b; [reflexivity|].
        destruct x; cbn [app error_calls]; rewrite IHa; reflexivity. }
      assert (Hm : forall l, error_calls (EvOnMessage <$> l) = []).
      { induction l; auto. }
      rewrite !Happ. cbn [error_calls]. rewrite He.
      destruct (_ && _); cbn [when error_calls app];
        destruct (_ && _); cbn [app]; try reflexivity;
        destruct (Js.get _ "messages"); try reflexivity; rewrite Hm; reflexivity.
Qed.

(** X15. A network failure during polling. Let the polls before the
    [k]-th go on, and let the [k]-th request fail with an error [e] that
    carries no response. Then [deepresearch.wait] throws a new Error with
    the message of [e]; [batch.waitForCompletion] throws a new Error with
    that message, or "Failed to get batch status" when it is empty; and
    [deepresearch.stream] does not throw: it calls [onError] (if given)
    once, with a new Error with the message of [e], and returns. None of
    them polls again. *)
Theorem polling_network_failure (k fuel : nat) (e : Exn) :
  (forall req, server w k req = HttpThrow e) ->
  exn_response_data e = JUndefined ->
  (k < fuel)%nat ->
  let lost := {| exn_message := exn_message e; exn_response_data := JUndefined |} in
  (forall taskId options,
      (forall j, (j < k)%nat ->
         Js.truthy (Js.get (status_at self w taskId j) "success") = true
         /\ deepresearch_terminal (status_at self w taskId j) = false
         /\ (now w (S j) - now w 0 >? wait_maxWaitTime options) = false) ->
      let run := _deepresearchWait P self w taskId options fuel in
      run.1 = Threw lost /\ polls run.2 = S k)
  /\ (forall batchId options,
        (forall j, (j < k)%nat ->
           Js.truthy (Js.get (batch_status_at self w batchId j) "success")
           && Js.truthy (batch_at self w batchId j) = true
           /\ batch_terminal (batch_at self w batchId j) = false
           /\ (now w (S j) - now w 0 >? batch_maxWaitTime options) = false) ->
        let run := _batchWaitForCompletion P self w batchId options fuel in
        run.1 = Threw (if JsString.nonempty (exn_message e) then lost
                       else {| exn_message := "Failed to get batch status";
                               exn_response_data := JUndefined |})
        /\ polls run.2 = S k)
  /\ (forall taskId callback,
        (forall j, (j < k)%nat -> stream_continues self w taskId callback j = true) ->
        let run := _deepresearchStream P self w taskId callback fuel in
        run.1 = Returned JUndefined
        /\ polls run.2 = S k
        /\ error_calls run.2 = if StreamCallback.onError callback then [lost] else []).
Proof.
  intros Hthrow Hdata Hfuel lost.
  split; [|split].
  - intros taskId options Hbefore run. subst run. unfold _deepresearchWait.
    rewrite wait_loop_shape.
    pose proof (wait_goes_on_before P self w taskId options k Hbefore) as Hgo.
    assert (Hfailed : wait_failed P self w taskId k = Some lost).
    { unfold wait_failed. rewrite (status_at_thrown taskId k e (Hthrow _)).
      cbn [failure Js.get Js.assoc String.eqb Ascii.eqb Bool.eqb Js.truthy negb].
      rewrite (catch_error_message e Hdata). reflexivity. }
    rewrite (poll_stops _ _ _ _ _ _ _ _ _ k fuel Hgo) by
      (try exact Hfuel; unfold continues; rewrite Hfailed; reflexivity).
    unfold stop_result. rewrite Hfailed. cbn [fst snd].
    split; [reflexivity|].
    rewrite polls_app, polls_rounds, polls_stop_events. lia.
  - intros batchId options Hbefore run. subst run. unfold _batchWaitForCompletion.
    rewrite batch_loop_shape.
    pose proof (batch_goes_on_before P self w batchId options k Hbefore) as Hgo.
    assert (Hfailed : batch_failed P self w batchId k
                      = Some (if JsString.nonempty (exn_message e) then lost
                              else {| exn_message := "Failed to get batch status";
                                      exn_response_data := JUndefined |})).
    { unfold batch_failed. rewrite (batch_status_at_thrown batchId k e (Hthrow _)).
      cbn [failure Js.get Js.assoc String.eqb Ascii.eqb Bool.eqb Js.truthy negb orb].
      rewrite (catch_error_message e Hdata). unfold Js.or. cbn [Js.truthy].
      destruct (JsString.nonempty (exn_message e)); reflexivity. }
    rewrite (poll_stops _ _ _ _ _ _ _ _ _ k fuel Hgo) by
      (try exact Hfuel; unfold continues; rewrite Hfailed; reflexivity).
    unfold stop_result. rewrite Hfailed. cbn [fst snd].
    split; [reflexivity|].
    rewrite polls_app, polls_rounds, polls_stop_events. lia.
  - intros taskId callback Hbefore run. subst run. unfold _deepresearchStream.
    replace fuel with (k + S (fuel - S k))%nat by lia.
    destruct (stream_reaches taskId callback k (S (fuel - S k)) 0 0
                ltac:(intros j Hj; apply Hbefore; lia))
      as (n' & seen & -> & Hp & He).
    cbn [Nat.add stream_loop]. rewrite status_call.
    rewrite (status_at_thrown taskId k e (Hthrow _)).
    cbn [failure Js.get Js.assoc String.eqb Ascii.eqb Bool.eqb Js.truthy negb].
    rewrite (catch_error_message e Hdata).
    unfold stream_report, Error. cbn [stringifiable Js.is_undefined ToString].
    fold lost.
    assert (Happ : forall a b, error_calls (a ++ b) = error_calls a ++ error_calls b).
    { induction a as [|x a IHa]; intros b; [reflexivity|].
      destruct x; cbn [app error_calls]; rewrite IHa; reflexivity. }
    destruct (StreamCallback.onError callback); cbn [fst snd fmap list_fmap].
    + split; [reflexivity|]. rewrite polls_app, Happ, Hp, He.
      cbn [polls error_calls app]. split; [lia | reflexivity].
    + split; [reflexivity|]. rewrite polls_app, Happ, Hp, He.
      cbn [polls error_calls app]. split; [lia | reflexivity].
Qed.

End NetworkFailure.

Lemma polling_network_failure_witness :
  let down := {| exn_message := "Network Error"; exn_response_data := JUndefined |} in
  let w :=
    {| server := fun i _ =>
                   if (i <? 1)%nat then HttpOk (Sample.ok_response (Sample.task "running"))
                   else HttpThrow down;
       now := fun k => 5000 * Z.of_nat k |} in
  (_deepresearchWait Sample.platform Sample.client w "dr_1" WaitOptions.empty 5).1
  = Threw down
  /\ (_deepresearchStream Sample.platform Sample.client w "dr_1" Sample.all_callbacks 5).1
     = Returned JUndefined
  /\ error_calls
       (_deepresearchStream Sample.platform Sample.client w "dr_1" Sample.all_callbacks 5).2
     = [down].
Proof.
  intros down w.
  destruct (polling_network_failure Sample.platform Sample.client w 1 5 down)
    as (Hwait & _ & Hstream).
  - intros req. reflexivity.
  - reflexivity.
  - lia.
  - split.
    + apply (Hwait "dr_1" WaitOptions.empty).
      intros j Hj. destruct j as [|j]; [repeat split | lia].
    + destruct (Hstream "dr_1" Sample.all_callbacks) as (Hr & _ & He).
      * intros j Hj. destruct j as [|j]; [reflexivity | lia].
      * split; [exact Hr | exact He].
Defined.

Section StreamMessages.

Context (P : Platform) (self : Valyu) (w : World)
  (taskId : string) (callback : StreamCallback.t).

Local Abbreviation status := (status_at self w taskId).
Local Abbreviation loop := (stream_loop P self w taskId callback).

Lemma message_calls_app (a b : list Event) :
  message_calls (a ++ b) = message_calls a ++ message_calls b.
Proof.
  induction a as [|x a IH]; [reflexivity|].
  destruct x; cbn [app message_calls]; rewrite IH; reflexivity.
Qed.

Lemma message_calls_messages (l : list JsValue) :
  message_calls (EvOnMessage <$> l) = l.
Proof. induction l as [|x l IH]; [reflexivity|]. cbn. rewrite IH. reflexivity. Qed.

Lemma message_calls_finish (i : nat) :
  message_calls (stream_finish P self w taskId callback i).2 = [].
Proof.
  unfold stream_finish, stream_report, stream_catch.
  destruct (is_string "completed" _).
  - destruct (StreamCallback.onComplete callback); reflexivity.
  - destruct (StreamCallback.onError callback); [|reflexivity].
    destruct (Error P _); reflexivity.
Qed.

(** One iteration on a successful status with a list of messages, with an
    [onMessage] callback: the messages past the first [n] are delivered,
    and the count becomes the length of the list. *)
Lemma stream_iteration (fuel i n : nat) (l : list JsValue) :
  StreamCallback.onMessage callback = true ->
  Js.truthy (Js.get (status i) "success") = true ->
  Js.get (status i) "messages" = JArr l ->
  message_calls (loop (S fuel) i n).2
  = drop n l
    ++ if deepresearch_terminal (status i) then []
       else message_calls (loop fuel (S i) (length l)).2.
Proof.
  intros Hcb Hok Hmsg. cbn [stream_loop]. rewrite status_call, Hok. cbn [negb].
  rewrite Hmsg, Hcb. cbn [Js.truthy andb fmap list_fmap].
  unfold deepresearch_terminal.
  assert (Hseen : forall b e1 e2,
            message_calls (([EvRequest (status_request self taskId)]
                            ++ when b (EvOnStep e1 e2))
                           ++ (EvOnMessage <$> drop n l)) = drop n l).
  { intros b e1 e2. rewrite !message_calls_app, message_calls_messages.
    destruct b; reflexivity. }
  destruct (is_string "completed" _); cbn [orb snd].
  - rewrite message_calls_app, Hseen.
    destruct (StreamCallback.onComplete callback); reflexivity.
  - destruct (is_string "failed" _ || is_string "cancelled" _).
    + rewrite stream_report_after. cbn [snd].
      rewrite message_calls_app, Hseen. f_equal.
      unfold stream_report, stream_catch.
      destruct (StreamCallback.onError callback); [|reflexivity].
      destruct (Error P _); reflexivity.
    + destruct (loop fuel (S i) (length l)) as [r rest]. cbn [snd].
      rewrite message_calls_app, Hseen. reflexivity.
Qed.

Context (messages : nat -> list JsValue).

Lemma prefix_chain (i d : nat) :
  (forall j, (i <= j < i + d)%nat -> messages j `prefix_of` messages (S j)) ->
  messages i `prefix_of` messages (i + d).
Proof.
  induction d as [|d IH]; intros H.
  - rewrite Nat.add_0_r. reflexivity.
  - transitivity (messages (i + d)).
    + apply IH. intros j Hj. apply H. lia.
    + replace (i + S d)%nat with (S (i + d)) by lia. apply H. lia.
Qed.

Lemma stream_messages_from (d : nat) : forall fuel i n,
  StreamCallback.onMessage callback = true ->
  (forall j, (i <= j <= i + d)%nat ->
     Js.truthy (Js.get (status j) "success") = true
     /\ Js.get (status j) "messages" = JArr (messages j)) ->
  (forall j, (i <= j < i + d)%nat ->
     deepresearch_terminal (status j) = false
     /\ messages j `prefix_of` messages (S j)) ->
  deepresearch_terminal (status (i + d)) = true ->
  (d < fuel)%nat ->
  (n <= length (messages i))%nat ->
  message_calls (loop fuel i n).2 = drop n (messages (i + d)).
Proof.
  induction d as [|d IH]; intros fuel i n Hcb Hok Hgrow Hterm Hfuel Hn.
  - destruct fuel as [|fuel]; [lia|]. rewrite Nat.add_0_r in *.
    destruct (Hok i ltac:(lia)) as [Hs Hm].
    rewrite (stream_iteration fuel i n _ Hcb Hs Hm), Hterm. apply app_nil_r.
  - destruct fuel as [|fuel]; [lia|].
    destruct (Hok i ltac:(lia)) as [Hs Hm].
    destruct (Hgrow i ltac:(lia)) as [Ht Hp].
    rewrite (stream_iteration fuel i n _ Hcb Hs Hm), Ht.
    replace (i + S d)%nat with (S i + d)%nat in * by lia.
    rewrite (IH fuel (S i) (length (messages i)) Hcb).
    + assert (Hall : messages i `prefix_of` messages (S i + d)).
      { replace (S i + d)%nat with (i + S d)%nat by lia.
        apply prefix_chain. intros j Hj. apply Hgrow. lia. }
      destruct Hall as [tail ->].
      rewrite drop_app_length, drop_app_le by exact Hn. reflexivity.
    + intros j Hj. apply Hok. lia.
    + intros j Hj. apply Hgrow. lia.
    + exact Hterm.
    + lia.
    + apply prefix_length, Hp.
Qed.

(** X16. [deepresearch.stream] delivers every message once. Let the
    statuses up to the [k]-th be successful and carry a list of messages
    that only grows (each list starts with the one before), the [k]-th
    being the first terminal one. Then the calls of [onMessage] during the
    whole run are, in order, exactly the messages of the last status:
    none is missed and none is delivered twice. *)
Theorem stream_delivers_each_message_once (k fuel : nat) :
  StreamCallback.onMessage callback = true ->
  (forall j, (j <= k)%nat ->
     Js.truthy (Js.get (status j) "success") = true
     /\ Js.get (status j) "messages" = JArr (messages j)) ->
  (forall j, (j < k)%nat ->
     deepresearch_terminal (status j) = false
     /\ messages j `prefix_of` messages (S j)) ->
  deepresearch_terminal (status k) = true ->
  (k < fuel)%nat ->
  message_calls (_deepresearchStream P self w taskId callback fuel).2 = messages k.
Proof.
  intros Hcb Hok Hgrow Hterm Hfuel. unfold _deepresearchStream.
  rewrite (stream_messages_from k fuel 0 0 Hcb); try assumption.
  - reflexivity.
  - intros j Hj. apply Hok. lia.
  - intros j Hj. apply Hgrow. lia.
  - lia.
Qed.

End StreamMessages.

Lemma stream_delivers_each_message_once_witness :
  let log (i : nat) : list JsValue :=
    match i with
    | O => [JStr "a"]
    | S O => [JStr "a"; JStr "b"]
    | _ => [JStr "a"; JStr "b"; JStr "c"]
    end in
  let statuses (i : nat) : JsValue :=
    JObj [("status", JStr (if (i <? 2)%nat then "running" else "completed"));
          ("messages", JArr (log i))] in
  message_calls
    (_deepresearchStream Sample.platform Sample.client (Sample.world statuses 5000)
       "dr_1" Sample.all_callbacks 5).2
  = [JStr "a"; JStr "b"; JStr "c"].
Proof.
  intros log statuses.
  apply (stream_delivers_each_message_once Sample.platform Sample.client
           (Sample.world statuses 5000) "dr_1" Sample.all_callbacks log 2 5).
  - reflexivity.
  - intros j Hj. destruct j as [|[|[|j]]]; [split; reflexivity ..|lia].
  - intros j Hj. destruct j as [|[|j]]; [| |lia].
    + split; [reflexivity | exists [JStr "b"]; reflexivity].
    + split; [reflexivity | exists [JStr "c"]; reflexivity].
  - reflexivity.
  - lia.
Defined.

(** ** Reading and answering *)

Lemma terminated_split (c : ascii) (s : string) :
  JsString.terminated c (removelast (JsString.split c s))
    (List.last (JsString.split c s) "") = s.
Proof.
  induction s as [|a s IH]; [reflexivity|].
  pose proof (split_not_nil c s) as Hne.
  destruct (Ascii.eqb a c) eqn:Ha.
  - cbn [JsString.split]. rewrite Ha. apply Ascii.eqb_eq in Ha as ->.
    destruct (JsString.split c s) as [|h t] eqn:E; [congruence|].
    cbn [removelast List.last JsString.terminated] in *. rewrite IH. reflexivity.
  - destruct (split_cons c a s Ha) as (h & t & E & ->).
    rewrite E in IH. destruct t as [|x t].
    + cbn [removelast List.last JsString.terminated] in *. rewrite IH. reflexivity.
    + cbn [removelast List.last JsString.terminated] in *.
      rewrite append_cons, IH. reflexivity.
Qed.

Lemma foldl_collect {A} (l acc : list A) :
  foldl (fun seen x => seen ++ [x]) acc l = acc ++ l.
Proof.
  revert acc. induction l as [|x l IH]; intros acc; cbn [foldl].
  - symmetry. apply app_nil_r.
  - rewrite IH, <- app_assoc. reflexivity.
Qed.

Lemma Forall_but_last {A} (f : A -> Prop) (l : list A) :
  Forall f l -> Forall f (removelast l).
Proof.
  induction 1 as [|x l Hx Hl IH]; [constructor|].
  cbn [removelast]. destruct l; [constructor|]. constructor; assumption.
Qed.

(** X17. The line buffer of the answer readers loses nothing and repeats
    nothing. After any sequence of chunks, the lines handed on so far, each
    followed by a line feed, and then the buffer carried over, make up
    exactly the text decoded so far; the buffer holds no line feed, and
    neither does a line. *)
Theorem line_buffer_loses_nothing (P : Platform) (chunks : list (list Byte.byte)) :
  let state :=
    foldl (read_chunk P (fun seen line => seen ++ [line]))
      (decoder_init P, "", []) chunks in
  let buffer := state.1.2 in
  let lines := state.2 in
  JsString.terminated LF lines buffer = body_text P chunks
  /\ JsString.includes LF buffer = false
  /\ Forall (fun line => JsString.includes LF line = false) lines.
Proof.
  cbv zeta. rewrite read_loop by reflexivity. cbv zeta. cbn [fst snd].
  change ("" +:+ (decode P (decoder_init P) (concat chunks)).2)
    with (body_text P chunks).
  rewrite (foldl_collect _ []). cbn [app].
  split; [apply terminated_split|].
  split; [apply last_split_without|].
  apply Forall_but_last, split_pieces.
Qed.

Section FetchFacts.

Context (P : Platform).

Lemma fetch_line_metadata (st : Collected) (line : string) :
  finalMetadata (fetch_line P st line) = finalMetadata st
  \/ (JsString.startsWith "data: " line = true
      /\ JSON_parse P (JsString.slice 6 line)
         = Some (finalMetadata (fetch_line P st line))).
Proof.
  unfold fetch_line.
  destruct (JsString.startsWith "data: " line); cbn [negb]; [|left; reflexivity].
  destruct (String.eqb _ "[DONE]"); [left; reflexivity|].
  destruct (JSON_parse P _) as [parsed|]; [|left; reflexivity].
  unfold fetch_payload.
  destruct (Js.nullish parsed); [left; reflexivity|].
  destruct (fetch_branch parsed); cbn [default from_option id].
  - destruct (Js.spread _); left; reflexivity.
  - destruct (Js.truthy _); [|left; reflexivity].
    destruct (stringifiable _); left; reflexivity.
  - right. split; reflexivity.
  - left. reflexivity.
Qed.

Lemma fetch_lines_metadata (lines : list string) (st : Collected) :
  finalMetadata (foldl (fetch_line P) st lines) = finalMetadata st
  \/ exists line,
       In line lines
       /\ JsString.startsWith "data: " line = true
       /\ JSON_parse P (JsString.slice 6 line)
          = Some (finalMetadata (foldl (fetch_line P) st lines)).
Proof.
  revert st. induction lines as [|line lines IH]; intros st; [left; reflexivity|].
  cbn [foldl]. destruct (IH (fetch_line P st line)) as [Hsame|(l & Hin & Hs & Hp)].
  - rewrite Hsame.
    destruct (fetch_line_metadata st line) as [H|[Hs Hp]].
    + left. exact H.
    + right. exists line. split; [left; reflexivity|]. split; assumption.
  - right. exists l. split; [right; exact Hin|]. split; assumption.
Qed.

Lemma fetch_result_cases (payload : gmap string JsValue) (st : Collected) :
  (Js.truthy (Js.get (finalMetadata st) "success") = true
   /\ Js.get (fetch_result payload st) "success" = JBool true)
  \/ (Js.truthy (Js.get (finalMetadata st) "success") = false
      /\ fetch_result payload st
         = answer_failure (Js.or (Js.get (finalMetadata st) "error")
                             (JStr "Unknown error occurred"))).
Proof.
  unfold fetch_result.
  destruct (Js.truthy (Js.get (finalMetadata st) "success")).
  - left. split; reflexivity.
  - right. split; reflexivity.
Qed.

End FetchFacts.

(** X18. [fetchAnswer] always resolves, and with [success: true] only on
    the word of the server: the response then comes from a complete line
    ["data: ..."] of the body whose payload carries a truthy [success], the
    body having been read to its end. In every other case (the request
    fails, the status is an error, there is no body, the body breaks off,
    or no such line arrives) it resolves with [{success: false, error}]. *)
Theorem fetch_success_is_the_servers (P : Platform) (self : Valyu)
    (payload : gmap string JsValue) (http : Http) :
  exists response,
    completion (fetchAnswer P self payload http) = Normal response
    /\ ((Js.get response "success" = JBool true
         /\ exists r body line parsed,
              http (answer_request self payload) = HttpOk r
              /\ resp_body r = Some body
              /\ body_error body = None
              /\ In line (complete_lines P (body_chunks body))
              /\ JsString.startsWith "data: " line = true
              /\ JSON_parse P (JsString.slice 6 line) = Some parsed
              /\ Js.truthy (Js.get parsed "success") = true)
        \/ exists error, response = answer_failure error).
Proof.
  unfold fetchAnswer, completion.
  unfold OpM.try_catch, mbind, op_bind, OpM.bind, mret, op_ret, OpM.ret, OpM.axios,
    OpM.throw.
  destruct (http (answer_request self payload)) as [r|e] eqn:Hhttp; cbn [fst].
  2: { eexists. split; [reflexivity|]. right. eexists. reflexivity. }
  destruct (negb (resp_ok r)).
  { unfold http_error, OpM.throw, mret, op_ret, OpM.ret.
    destruct (Js.nullish _); cbn [fst];
      (eexists; split; [reflexivity|]; right; eexists; reflexivity). }
  destruct (resp_body r) as [body|] eqn:Hbody; cbn [fst].
  2: { eexists. split; [reflexivity|]. right. eexists. reflexivity. }
  destruct (body_error body) as [e|] eqn:Herror; cbn [fst].
  { eexists. split; [reflexivity|]. right. eexists. reflexivity. }
  eexists. split; [reflexivity|].
  destruct (fetch_result_cases payload
              (read_all P (fetch_line P) collected_init (body_chunks body)))
    as [[Hmeta Hsuccess]|[_ ->]].
  2: { right. eexists. reflexivity. }
  left. split; [exact Hsuccess|].
  rewrite read_all_lines in Hmeta.
  destruct (fetch_lines_metadata P
              (removelast (JsString.split LF (body_text P (body_chunks body))))
              collected_init) as [Hsame|(line & Hin & Hs & Hp)].
  - rewrite Hsame in Hmeta. discriminate.
  - exists r, body, line, (finalMetadata
                             (foldl (fetch_line P) collected_init
                                (removelast (JsString.split LF
                                               (body_text P (body_chunks body)))))).
    repeat split; assumption.
Qed.

Section StreamAnswerFacts.

Context (P : Platform).

Lemma stream_line_no_error (line : string) :
  Forall (fun chunk => is_error_chunk chunk = false) (stream_line P line).
Proof.
  unfold stream_line.
  destruct (JsString.startsWith "data: " line); cbn [negb]; [|constructor].
  destruct (String.eqb _ "[DONE]"); [repeat constructor|].
  destruct (JSON_parse P _) as [parsed|]; [|constructor].
  unfold stream_payload.
  destruct (Js.nullish parsed); [constructor|].
  destruct (stream_branch parsed); cbn [default from_option id];
    try (repeat constructor).
  destruct (_ || _); repeat constructor.
Qed.

Lemma stream_chunks_no_error (chunks : list (list Byte.byte)) :
  Forall (fun chunk => is_error_chunk chunk = false) (stream_chunks P chunks).
Proof.
  rewrite stream_chunks_lines.
  induction (removelast _) as [|line lines IH]; [constructor|].
  cbn [flat_map]. apply Forall_app. split; [apply stream_line_no_error | exact IH].
Qed.

End StreamAnswerFacts.

(** X19. An error ends the chunks of [streamAnswer]: what it yields is
    the chunks read from the body, none of them of type error, followed by
    at most one error chunk, after which nothing is yielded. When the
    request fails or the status is an error, the error chunk is all it
    yields. It issues exactly one request. *)
Theorem stream_error_is_last (P : Platform) (self : Valyu)
    (payload : gmap string JsValue) (http : Http) :
  let outcome := streamAnswer P self payload http in
  (exists yielded tail,
      outcome.1 = yielded ++ tail
      /\ Forall (fun chunk => is_error_chunk chunk = false) yielded
      /\ (tail = [] \/ exists error, tail = [ChunkError error]))
  /\ (forall e, http (answer_request self payload) = HttpThrow e ->
        outcome.1 = [ChunkError (if JsString.nonempty (exn_message e)
                                 then JStr (exn_message e) else JStr "Stream failed")])
  /\ (forall r, http (answer_request self payload) = HttpOk r ->
        ~ 200 <= resp_status r < 300 ->
        exists error, outcome.1 = [ChunkError error])
  /\ outcome.2 = [answer_request self payload].
Proof.
  intros outcome. subst outcome. unfold streamAnswer. cbn [fst snd].
  split; [|split; [|split]].
  - destruct (http _) as [r|e].
    + destruct (negb (resp_ok r)).
      * exists []. eexists. split; [reflexivity|]. split; [constructor|].
        right. destruct (http_error P r http) as [[error|e] t]; eexists; reflexivity.
      * destruct (resp_body r) as [body|].
        -- exists (stream_chunks P (body_chunks body)). eexists.
           split; [reflexivity|]. split; [apply stream_chunks_no_error|].
           destruct (body_error body); [right; eexists; reflexivity | left; reflexivity].
        -- exists []. eexists. split; [reflexivity|]. split; [constructor|].
           right. eexists. reflexivity.
    + exists []. eexists. split; [reflexivity|]. split; [constructor|].
      right. eexists. reflexivity.
  - intros e ->. unfold message_or, Js.or. cbn [Js.truthy].
    destruct (JsString.nonempty (exn_message e)); reflexivity.
  - intros r -> Hs.
    assert (Hok : resp_ok r = false).
    { unfold resp_ok. destruct (200 <=? resp_status r) eqn:E1; [|reflexivity].
      destruct (resp_status r <? 300) eqn:E2; [|reflexivity].
      apply Z.leb_le in E1. apply Z.ltb_lt in E2. lia. }
    rewrite Hok. cbn [negb].
    destruct (http_error P r http) as [[error|e] t]; eexists; reflexivity.
  - reflexivity.
Qed.

Lemma stream_error_is_last_witness :
  let down := {| exn_message := "Network Error"; exn_response_data := JUndefined |} in
  (streamAnswer Sample.platform Sample.client ∅ (Sample.failing down)).1
  = [ChunkError (JStr "Network Error")]
  /\ exists error,
       (streamAnswer Sample.platform Sample.client ∅
          (fun _ => HttpOk {| resp_status := 401; resp_data := JNull;
                              resp_content_type := JUndefined;
                              resp_json := Some (JObj [("error", JStr "Invalid API key")]);
                              resp_body := None |})).1
       = [ChunkError error].
Proof.
  intros down. split.
  - apply (proj1 (proj2 (stream_error_is_last Sample.platform Sample.client ∅
                           (Sample.failing down))) down).
    reflexivity.
  - apply (proj1 (proj2 (proj2 (stream_error_is_last Sample.platform Sample.client ∅ _)))
             {| resp_status := 401; resp_data := JNull;
                resp_content_type := JUndefined;
                resp_json := Some (JObj [("error", JStr "Invalid API key")]);
                resp_body := None |}).
    + reflexivity.
    + cbn. lia.
Defined.

(** X20. [validateSources] reports a list as valid exactly when every
    element passes [validateSource], which is exactly when it lists no
    invalid source; the invalid sources of a list are a sublist of it, in
    its order, and those of two lists put together are those of the first
    followed by those of the second. *)
Theorem validateSources_all_or_listed (P : Platform) :
  (forall l, (validateSources P l).1 = true
             <-> Forall (fun s => validateSource P s = true) l)
  /\ (forall l, (validateSources P l).1 = true <-> (validateSources P l).2 = [])
  /\ (forall l, (validateSources P l).2 `sublist_of` l)
  /\ (forall l1 l2,
        (validateSources P (l1 ++ l2)).2
        = (validateSources P l1).2 ++ (validateSources P l2).2).
Proof.
  split; [exact (all_valid P)|]. split; [|split].
  - intros l. unfold validateSources. cbn [fst snd].
    rewrite bool_decide_eq_true. split.
    + intros H. apply length_zero_iff_nil, H.
    + intros ->. reflexivity.
  - intros l. unfold validateSources. cbn [snd]. apply sublist_filter.
  - intros l1 l2. unfold validateSources. cbn [snd]. apply filter_app.
Qed.

(** ** More on [search] *)

(** X21. [search] reports the first check that fails, in the order search
    type, start date, end date, maximal number of results: each of these
    errors is reported whatever the later options are, and only if the
    checks before it pass. No request is issued. *)
Theorem search_reports_first_failure (P : Platform) (self : Valyu)
    (query : string) (options : SearchOptions.t) (http : Http) :
  (bad_searchType options = true ->
   search P self query options http
   = (Normal (search_failure query
                (JStr "Invalid searchType provided. Must be one of: all, web, proprietary, news")),
      []))
  /\ (bad_searchType options = false ->
      bad_date P (SearchOptions.startDate options) = true ->
      search P self query options http
      = (Normal (search_failure query
                   (JStr "Invalid startDate format. Must be YYYY-MM-DD")), []))
  /\ (bad_searchType options = false ->
      bad_date P (SearchOptions.startDate options) = false ->
      bad_date P (SearchOptions.endDate options) = true ->
      search P self query options http
      = (Normal (search_failure query
                   (JStr "Invalid endDate format. Must be YYYY-MM-DD")), []))
  /\ (bad_searchType options = false ->
      bad_date P (SearchOptions.startDate options) = false ->
      bad_date P (SearchOptions.endDate options) = false ->
      bad_maxNumResults options = true ->
      search P self query options http
      = (Normal (search_failure query (JStr "maxNumResults must be between 1 and 100")),
         []))
  /\ (bad_searchType options = false ->
      bad_date P (SearchOptions.startDate options) = false ->
      bad_date P (SearchOptions.endDate options) = false ->
      bad_maxNumResults options = false ->
      SearchOptions.includedSources options = Some NotArray ->
      search P self query options http
      = (Normal (search_failure query (JStr "includedSources must be an array")), [])).
Proof.
  rewrite search_unfold. unfold rejected.
  split; [intros ->; reflexivity|].
  split; [intros -> ->; reflexivity|].
  split; [intros -> -> ->; reflexivity|].
  split; [intros -> -> -> ->; reflexivity|].
  intros -> -> -> -> ->. reflexivity.
Qed.

Lemma search_reports_first_failure_witness :
  search Sample.platform Sample.client "q"
    {| SearchOptions.searchType := Some "images";
       SearchOptions.maxNumResults := Some (inject_Z 500);
       SearchOptions.maxPrice := None;
       SearchOptions.isToolCall := None;
       SearchOptions.relevanceThreshold := None;
       SearchOptions.includedSources := None;
       SearchOptions.excludeSources := None;
       SearchOptions.category := None;
       SearchOptions.startDate := Some "yesterday";
       SearchOptions.endDate := None;
       SearchOptions.countryCode := None;
       SearchOptions.responseLength := None;
       SearchOptions.fastMode := None;
       SearchOptions.urlOnly := None |}
    (Sample.answering JNull)
  = (Normal (search_failure "q"
               (JStr "Invalid searchType provided. Must be one of: all, web, proprietary, news")),
     []).
Proof.
  apply (proj1 (search_reports_first_failure Sample.platform Sample.client "q" _
                  (Sample.answering JNull))).
  reflexivity.
Defined.

(** X22. The body that [search] posts passes the options on unchanged:
    each optional key holds the value of its option as given, and the body
    holds no key beside the five that are always there and the ten
    optional ones. *)
Theorem search_payload_values (P : Platform) (self : Valyu) :
  forall query options http,
    search_rejects P options = false ->
    exists payload,
      requests (search P self query options http)
      = [{| req_method := POST; req_url := baseUrl self +:+ "/deepsearch";
            req_body := Some payload; req_headers := headers self |}]
      /\ payload !! "max_price" = JNum <$> SearchOptions.maxPrice options
      /\ payload !! "included_sources"
         = (fun arg => match arg with IsArray l => strings l | NotArray => JUndefined end)
             <$> SearchOptions.includedSources options
      /\ payload !! "exclude_sources"
         = (fun arg => match arg with IsArray l => strings l | NotArray => JUndefined end)
             <$> SearchOptions.excludeSources options
      /\ payload !! "category" = JStr <$> SearchOptions.category options
      /\ payload !! "start_date" = JStr <$> SearchOptions.startDate options
      /\ payload !! "end_date" = JStr <$> SearchOptions.endDate options
      /\ payload !! "country_code" = JStr <$> SearchOptions.countryCode options
      /\ payload !! "response_length"
         = ResponseLength_value <$> SearchOptions.responseLength options
      /\ payload !! "fast_mode" = JBool <$> SearchOptions.fastMode options
      /\ payload !! "url_only" = JBool <$> SearchOptions.urlOnly options
      /\ (forall k,
            k ∉ ["query"; "search_type"; "max_num_results"; "is_tool_call";
                 "relevance_threshold"; "max_price"; "included_sources";
                 "exclude_sources"; "category"; "start_date"; "end_date";
                 "country_code"; "response_length"; "fast_mode"; "url_only"] ->
            payload !! k = None).
Proof.
  intros query options http Hvalid.
  exists (search_payload query options (final_searchType options)
            (default (inject_Z 10) (SearchOptions.maxNumResults options))).
  split; [rewrite (search_accepted P self _ _ _ Hvalid); reflexivity|].
  unfold search_payload.
  do 10 (split; [lookup_payload; apply option_eta|]).
  intros k Hk.
  repeat (apply not_elem_of_cons in Hk as [? Hk]).
  rewrite !lookup_set_opt_ne, !lookup_insert_ne by congruence.
  apply lookup_empty.
Qed.

Lemma search_payload_values_witness :
  exists payload,
    requests (search Sample.platform Sample.client "q"
                (Sample.sourced None (Some (IsArray ["arxiv.org"])) None)
                (Sample.answering JNull))
    = [{| req_method := POST; req_url := baseUrl Sample.client +:+ "/deepsearch";
          req_body := Some payload; req_headers := headers Sample.client |}]
    /\ payload !! "included_sources" = Some (JArr [JStr "arxiv.org"])
    /\ payload !! "streaming" = None.
Proof.
  destruct (search_payload_values Sample.platform Sample.client "q"
              (Sample.sourced None (Some (IsArray ["arxiv.org"])) None)
              (Sample.answering JNull) eq_refl)
    as (payload & Hreq & _ & Hinc & _ & _ & _ & _ & _ & _ & _ & _ & Hother).
  exists payload. split; [exact Hreq|]. split; [exact Hinc|].
  apply Hother. intros H.
  repeat (apply elem_of_cons in H as [H|H]; [discriminate|]).
  apply elem_of_nil in H. exact H.
Defined.
